(** * X431 diagnostic-log decoder: a shallow embedding and its properties

    The two converters of the repository, [x431_to_csv.py] (class
    [X431Parser], verbose headers) and [x431_to_csv_clean.py] (class
    [X431CleanParser], Excel-friendly headers), are embedded as pure
    functions over the file's bytes.  Python exceptions are values of
    [result]; Python [int] is [Z]; [bytes] is [list byte]; [str] is the list
    of its code points. *)

From Stdlib Require Import ZArith Lia Bool String Ascii DecimalString.
From Stdlib.Strings Require Import Byte.
From Stdlib Require Import List.
Import ListNotations.
Open Scope Z_scope.

(** ** The Python fragment the converters rely on *)

Module Py.

(** The exceptions the decoders can raise: [struct.error] from
    [struct.unpack_from], [IndexError] from list subscripts and
    [ZeroDivisionError] from [//]. *)
Inductive exn : Type :=
| StructError
| IndexError
| ZeroDivisionError.

Inductive result (A : Type) : Type :=
| Ok (a : A)
| Raise (e : exn).
Arguments Ok {A} a.
Arguments Raise {A} e.

Definition bind {A B : Type} (m : result A) (k : A -> result B) : result B :=
  match m with
  | Ok a => k a
  | Raise e => Raise e
  end.

(** A [str]: the sequence of its Unicode code points. *)
Definition str : Type := list Z.

Definition code (a : ascii) : Z := Z.of_N (N_of_ascii a).

(** An ASCII literal of the source. *)
Definition lit (s : string) : str := map code (list_ascii_of_string s).

Definition str_eqb (a b : str) : bool :=
  if list_eq_dec Z.eq_dec a b then true else false.

(** [str(n)] for an [int]. *)
Definition str_of_int (n : Z) : str := lit (NilZero.string_of_int (Z.to_int n)).

Definition len {A : Type} (l : list A) : Z := Z.of_nat (length l).

(** [l[k]]: a negative subscript counts from the end, and a subscript
    outside [-len, len) raises [IndexError]. *)
Definition getitem {A : Type} (l : list A) (k : Z) : result A :=
  let k' := if k <? 0 then k + len l else k in
  if (k' <? 0) || (len l <=? k') then Raise IndexError
  else match nth_error l (Z.to_nat k') with
       | Some a => Ok a
       | None => Raise IndexError
       end.

Fixpoint set_nth {A : Type} (l : list A) (n : nat) (a : A) : list A :=
  match l, n with
  | [], _ => []
  | _ :: t, O => a :: t
  | h :: t, S n' => h :: set_nth t n' a
  end.

(** [l[k] = a], same subscript rule as [getitem]. *)
Definition setitem {A : Type} (l : list A) (k : Z) (a : A) : result (list A) :=
  let k' := if k <? 0 then k + len l else k in
  if (k' <? 0) || (len l <=? k') then Raise IndexError
  else Ok (set_nth l (Z.to_nat k') a).

(** A slice bound is clipped into [0, len]; a negative one counts from the
    end first. *)
Definition clip (n i : Z) : Z :=
  if i <? 0 then Z.max 0 (i + n) else Z.min i n.

(** [l[a:b]]. *)
Definition slice {A : Type} (l : list A) (a b : Z) : list A :=
  let a' := clip (len l) a in
  let b' := clip (len l) b in
  firstn (Z.to_nat (b' - a')) (skipn (Z.to_nat a') l).

Definition byte_val (b : byte) : Z := Z.of_N (Byte.to_N b).

(** Little-endian value of a run of bytes. *)
Fixpoint le_value (bs : list byte) : Z :=
  match bs with
  | [] => 0
  | b :: t => byte_val b + 256 * le_value t
  end.

(** The unsigned value of the [size] bytes at position [offset]. *)
Definition field (size : Z) (buffer : list byte) (offset : Z) : Z :=
  le_value (firstn (Z.to_nat size) (skipn (Z.to_nat offset) buffer)).

(** [struct.unpack_from] for one unsigned little-endian field of [size]
    bytes: the bytes at [offset], or [struct.error] when the buffer does
    not hold them.  A negative offset counts from the end of the buffer.
    The library takes the offset as a [Py_ssize_t]; this is the call for
    an offset from -2^63 to below 2^63, which holds every offset of a parse
    (they stay below 2^33) and every offset inside a buffer.  An offset
    beyond that range makes the library raise [OverflowError] instead;
    that case is left out here, and the one statement about arbitrary
    offsets, on the readers, is limited to the range. *)
Definition unpack_from (size : Z) (buffer : list byte) (offset : Z) : result Z :=
  let n := len buffer in
  if offset <? 0 then
    if 0 <? offset + size then Raise StructError
    else if offset + n <? 0 then Raise StructError
    else Ok (field size buffer (offset + n))
  else if n - offset <? size then Raise StructError
  else Ok (field size buffer offset).

(** *** [bytes.decode('utf-8', errors=...)] *)

(** What the codec's error handler puts in place of an undecodable run:
    nothing for ['ignore'], U+FFFD for ['replace']. *)
Inductive error_handler : Type :=
| Ignore
| Replace.

Definition on_error (h : error_handler) : str :=
  match h with
  | Ignore => []
  | Replace => [0xFFFD]
  end.

Definition is_continuation (b : Z) : bool := (0x80 <=? b) && (b <=? 0xBF).

(** The UTF-8 decoder over byte values.  An undecodable run is an invalid
    start byte (one byte), a lead byte with the continuation bytes accepted
    so far (resumes at the offending byte), or a truncated sequence at the
    end of the data (the whole rest); each run is handed to the handler
    once. *)
Fixpoint utf8_decode (h : error_handler) (s : list Z) : str :=
  match s with
  | [] => []
  | ch :: s1 =>
    if ch <? 0x80 then ch :: utf8_decode h s1
    else if ch <? 0xE0 then
      if ch <? 0xC2 then on_error h ++ utf8_decode h s1
      else
        match s1 with
        | [] => on_error h
        | ch2 :: s2 =>
          if negb (is_continuation ch2) then on_error h ++ utf8_decode h s1
          else (Z.shiftl ch 6 + ch2 - (Z.shiftl 0xC0 6 + 0x80)) :: utf8_decode h s2
        end
    else if ch <? 0xF0 then
      match s1 with
      | [] => on_error h
      | ch2 :: s2 =>
        if negb (is_continuation ch2)
           || (if ch2 <? 0xA0 then ch =? 0xE0 else ch =? 0xED)
        then on_error h ++ utf8_decode h s1
        else
          match s2 with
          | [] => on_error h
          | ch3 :: s3 =>
            if negb (is_continuation ch3) then on_error h ++ utf8_decode h s2
            else (Z.shiftl ch 12 + Z.shiftl ch2 6 + ch3
                  - (Z.shiftl 0xE0 12 + Z.shiftl 0x80 6 + 0x80))
                   :: utf8_decode h s3
          end
      end
    else if ch <? 0xF5 then
      match s1 with
      | [] => on_error h
      | ch2 :: s2 =>
        if negb (is_continuation ch2)
           || (if ch2 <? 0x90 then ch =? 0xF0 else ch =? 0xF4)
        then on_error h ++ utf8_decode h s1
        else
          match s2 with
          | [] => on_error h
          | ch3 :: s3 =>
            if negb (is_continuation ch3) then on_error h ++ utf8_decode h s2
            else
              match s3 with
              | [] => on_error h
              | ch4 :: s4 =>
                if negb (is_continuation ch4) then on_error h ++ utf8_decode h s3
                else (Z.shiftl ch 18 + Z.shiftl ch2 12 + (Z.shiftl ch3 6 + ch4)
                      - (Z.shiftl 0xF0 18 + Z.shiftl 0x80 12
                         + Z.shiftl 0x80 6 + 0x80))
                       :: utf8_decode h s4
              end
          end
      end
    else on_error h ++ utf8_decode h s1
  end.

Definition decode (h : error_handler) (bs : list byte) : str :=
  utf8_decode h (map byte_val bs).

(** *** [str.strip()] and [str.replace(old, new)] *)

(** [str.isspace] on one code point. *)
Definition isspace (c : Z) : bool :=
  ((0x09 <=? c) && (c <=? 0x0D)) || ((0x1C <=? c) && (c <=? 0x20))
  || (c =? 0x85) || (c =? 0xA0) || (c =? 0x1680)
  || ((0x2000 <=? c) && (c <=? 0x200A))
  || (c =? 0x2028) || (c =? 0x2029) || (c =? 0x202F) || (c =? 0x205F)
  || (c =? 0x3000).

Fixpoint lstrip (s : str) : str :=
  match s with
  | [] => []
  | c :: t => if isspace c then lstrip t else s
  end.

Definition rstrip (s : str) : str := rev (lstrip (rev s)).

Definition strip (s : str) : str := rstrip (lstrip s).

Fixpoint startswith (s old : str) : bool :=
  match old, s with
  | [], _ => true
  | _ :: _, [] => false
  | o :: old', c :: s' => (o =? c) && startswith s' old'
  end.

(** Scan for a non-empty [old], left to right, occurrences not
    overlapping: [skip] counts the characters of a match still to pass. *)
Fixpoint replace_scan (skip : nat) (old new s : str) : str :=
  match s with
  | [] => []
  | c :: t =>
    match skip with
    | S k => replace_scan k old new t
    | O =>
      if startswith s old then new ++ replace_scan (length old - 1) old new t
      else c :: replace_scan O old new t
    end
  end.

(** [s.replace(old, new)]; an empty [old] matches before every character
    and at the end. *)
Definition replace (s old new : str) : str :=
  match old with
  | [] => new ++ flat_map (fun c => c :: new) s
  | _ :: _ => replace_scan O old new s
  end.

End Py.

Import Py.

Declare Scope py_scope.
Delimit Scope py_scope with py.
Notation "x <- m ;; k" := (bind m (fun x => k))
  (at level 61, m at next level, right associativity) : py_scope.
Open Scope py_scope.

(** The attributes of a parser object that the decoding methods read. *)
Record parser : Type := {
  file_data : list byte;
  point_values : list str;
  column_count : Z
}.

(** ** [x431_to_csv.py]: class [X431Parser] *)

Module X431Parser.

Definition _read_uint8 (file_data : list byte) (offset : Z) : result Z :=
  unpack_from 1 file_data offset.

Definition _read_uint16 (file_data : list byte) (offset : Z) : result Z :=
  unpack_from 2 file_data offset.

Definition _read_uint32 (file_data : list byte) (offset : Z) : result Z :=
  unpack_from 4 file_data offset.

Definition _extract_channel_count (file_data : list byte) : result Z :=
  b <- _read_uint8 file_data 0x134 ;;
  Ok (b / 4).

(** [for _ in range(n): var16 = read_uint16(offset); offset += var16] *)
Fixpoint skip_sections (n : nat) (file_data : list byte) (offset : Z) : result Z :=
  match n with
  | O => Ok offset
  | S n' =>
    var16 <- _read_uint16 file_data offset ;;
    skip_sections n' file_data (offset + var16)
  end.

(** The [while offset < file_size] loop of [_extract_point_values].  Each
    turn of the loop spends one unit of [fuel]; [None] is a loop that has
    not ended when the fuel has.  The payload is decoded with
    [errors='ignore'], which cannot raise, so the [except] branch of the
    source is dead and has no counterpart here. *)
Fixpoint read_point_values (fuel : nat) (file_data : list byte) (offset : Z)
         (point_values : list str) : option (result (list str)) :=
  match fuel with
  | O => None
  | S fuel' =>
    let file_size := len file_data in
    if offset <? file_size then
      if offset + 2 >? file_size then Some (Ok point_values)
      else
        match _read_uint16 file_data offset with
        | Raise e => Some (Raise e)
        | Ok var16 =>
          let offset := offset + 2 in
          if (var16 <? 3) || (offset + var16 - 2 >? file_size)
          then Some (Ok point_values)
          else
            let value_bytes := slice file_data offset (offset + var16 - 3) in
            let value := decode Ignore value_bytes in
            read_point_values fuel' file_data (offset + var16 - 2)
                              (point_values ++ [value])
        end
    else Some (Ok point_values)
  end.

Definition _extract_point_values (file_data : list byte)
  : option (result (list str)) :=
  match _read_uint32 file_data 0x0c with
  | Raise e => Some (Raise e)
  | Ok var32 =>
    let offset := 0x0c + (4 + var32) in
    match skip_sections 8 file_data offset with
    | Raise e => Some (Raise e)
    | Ok offset =>
      read_point_values (S (length file_data)) file_data offset []
    end
  end.

(** First pass of [_extract_column_names], channels [i], [i+1], ... *)
Fixpoint primary_pass (self : parser) (n : nat) (i offset : Z)
         (column_names : list str) : result (list str * Z) :=
  match n with
  | O => Ok (column_names, offset)
  | S n' =>
    index <- _read_uint16 (file_data self) offset ;;
    let offset := offset + 4 in
    if negb (index =? 0) && (index - 0x09 <? len (point_values self)) then
      name <- getitem (point_values self) (index - 0x09) ;;
      primary_pass self n' (i + 1) offset
        (column_names ++ [str_of_int (i + 1) ++ lit ". " ++ name])
    else
      primary_pass self n' (i + 1) offset
        (column_names ++ [str_of_int (i + 1) ++ lit ". Unknown"])
  end.

(** Second pass of [_extract_column_names]. *)
Fixpoint secondary_pass (self : parser) (n : nat) (i offset : Z)
         (column_names : list str) : result (list str * Z) :=
  match n with
  | O => Ok (column_names, offset)
  | S n' =>
    index <- _read_uint16 (file_data self) offset ;;
    let offset := offset + 4 in
    if negb (index =? 0) && (index - 0x09 <? len (point_values self)) then
      current <- getitem column_names (i + 1) ;;
      unit <- getitem (point_values self) (index - 0x09) ;;
      column_names <- setitem column_names (i + 1)
                        (current ++ lit " (" ++ unit ++ lit ")") ;;
      secondary_pass self n' (i + 1) offset column_names
    else
      secondary_pass self n' (i + 1) offset column_names
  end.

Definition _extract_column_names (self : parser) : result (list str) :=
  let column_names := [lit "Num"] in
  let offset := 0x138 in
  r1 <- primary_pass self (Z.to_nat (column_count self)) 0 offset column_names ;;
  r2 <- secondary_pass self (Z.to_nat (column_count self)) 0 (snd r1) (fst r1) ;;
  Ok (fst r2).

(** The inner [for _ in range(self.column_count)] of
    [_extract_data_rows]: the cells of one row. *)
Fixpoint row_cells (self : parser) (n : nat) (offset : Z) (row : list str)
  : result (list str * Z) :=
  match n with
  | O => Ok (row, offset)
  | S n' =>
    if offset + 2 >? len (file_data self) then
      row_cells self n' offset (row ++ [lit "0"])
    else
      raw <- _read_uint16 (file_data self) offset ;;
      let index := raw - 0x09 in
      let offset := offset + 4 in
      if (0 <=? index) && (index <? len (point_values self)) then
        value <- getitem (point_values self) index ;;
        row_cells self n' offset (row ++ [value])
      else
        row_cells self n' offset (row ++ [lit "0"])
  end.

(** The outer [for row_num in range(total_rows)]. *)
Fixpoint rows_loop (self : parser) (n : nat) (row_num offset : Z)
         (rows : list (list str)) : result (list (list str)) :=
  match n with
  | O => Ok rows
  | S n' =>
    r <- row_cells self (Z.to_nat (column_count self)) offset
                   [str_of_int (row_num + 1)] ;;
    rows_loop self n' (row_num + 1) (snd r) (rows ++ [fst r])
  end.

(** [a // b] *)
Definition floordiv (a b : Z) : result Z :=
  if b =? 0 then Raise ZeroDivisionError else Ok (a / b).

Definition _extract_data_rows (self : parser) : result (list (list str)) :=
  let offset := 0x11c in
  var16 <- _read_uint16 (file_data self) offset ;;
  let offset := var16 + 8 in
  records_count <- _read_uint32 (file_data self) offset ;;
  let offset := offset + 8 in
  total_rows <- floordiv (records_count / 4) (column_count self) ;;
  rows_loop self (Z.to_nat total_rows) 0 offset [].

Definition parse (data : list byte)
  : option (result (list str * list (list str))) :=
  match _extract_channel_count data with
  | Raise e => Some (Raise e)
  | Ok count =>
    match _extract_point_values data with
    | None => None
    | Some (Raise e) => Some (Raise e)
    | Some (Ok values) =>
      let self := {| file_data := data;
                     point_values := values;
                     column_count := count |} in
      Some (column_names <- _extract_column_names self ;;
            data_rows <- _extract_data_rows self ;;
            Ok (column_names, data_rows))
    end
  end.

End X431Parser.

(** ** [x431_to_csv_clean.py]: class [X431CleanParser] *)

Module X431CleanParser.

Definition _read_uint8 (file_data : list byte) (offset : Z) : result Z :=
  unpack_from 1 file_data offset.

Definition _read_uint16 (file_data : list byte) (offset : Z) : result Z :=
  unpack_from 2 file_data offset.

Definition _read_uint32 (file_data : list byte) (offset : Z) : result Z :=
  unpack_from 4 file_data offset.

Definition _extract_channel_count (file_data : list byte) : result Z :=
  b <- _read_uint8 file_data 0x134 ;;
  Ok (b / 4).

Fixpoint skip_sections (n : nat) (file_data : list byte) (offset : Z) : result Z :=
  match n with
  | O => Ok offset
  | S n' =>
    var16 <- _read_uint16 file_data offset ;;
    skip_sections n' file_data (offset + var16)
  end.

(** The [while] loop of this class's [_extract_point_values], with fuel as
    in [X431Parser.read_point_values]. *)
Fixpoint read_point_values (fuel : nat) (file_data : list byte) (offset : Z)
         (point_values : list str) : option (result (list str)) :=
  match fuel with
  | O => None
  | S fuel' =>
    let file_size := len file_data in
    if offset <? file_size then
      if offset + 2 >? file_size then Some (Ok point_values)
      else
        match _read_uint16 file_data offset with
        | Raise e => Some (Raise e)
        | Ok var16 =>
          let offset := offset + 2 in
          if (var16 <? 3) || (offset + var16 - 2 >? file_size)
          then Some (Ok point_values)
          else
            let value_bytes := slice file_data offset (offset + var16 - 3) in
            let value := decode Ignore value_bytes in
            read_point_values fuel' file_data (offset + var16 - 2)
                              (point_values ++ [value])
        end
    else Some (Ok point_values)
  end.

Definition _extract_point_values (file_data : list byte)
  : option (result (list str)) :=
  match _read_uint32 file_data 0x0c with
  | Raise e => Some (Raise e)
  | Ok var32 =>
    let offset := 0x0c + (4 + var32) in
    match skip_sections 8 file_data offset with
    | Raise e => Some (Raise e)
    | Ok offset =>
      read_point_values (S (length file_data)) file_data offset []
    end
  end.

(** The [replacements] dict, in insertion order. *)
Definition replacements : list (str * str) :=
  [ (lit "B1S1", lit "(Bank1 Sensor1)");
    (lit "B2S1", lit "(Bank2 Sensor1)");
    (lit "A/F", lit "Air/Fuel");
    (lit "A/C", lit "AC");
    (lit "Cat OT MF F/C", lit "Catalyst Misfire");
    (lit "#", lit "Count") ].

Definition _clean_parameter_name (name : str) : str :=
  match name with
  | [] => lit "Unknown"
  | _ :: _ =>
    let name := strip name in
    fold_left (fun name kv => replace name (fst kv) (snd kv)) replacements name
  end.

(** First loop of [_extract_column_names]: the parameter names. *)
Fixpoint param_pass (self : parser) (n : nat) (i offset : Z)
         (param_names : list str) : result (list str * Z) :=
  match n with
  | O => Ok (param_names, offset)
  | S n' =>
    index <- _read_uint16 (file_data self) offset ;;
    let offset := offset + 4 in
    if negb (index =? 0) && (index - 0x09 <? len (point_values self)) then
      name <- getitem (point_values self) (index - 0x09) ;;
      param_pass self n' (i + 1) offset (param_names ++ [name])
    else
      param_pass self n' (i + 1) offset
        (param_names ++ [lit "Channel_" ++ str_of_int (i + 1)])
  end.

(** Second loop: the units. *)
Fixpoint unit_pass (self : parser) (n : nat) (i offset : Z)
         (units : list str) : result (list str * Z) :=
  match n with
  | O => Ok (units, offset)
  | S n' =>
    index <- _read_uint16 (file_data self) offset ;;
    let offset := offset + 4 in
    if negb (index =? 0) && (index - 0x09 <? len (point_values self)) then
      unit <- getitem (point_values self) (index - 0x09) ;;
      unit_pass self n' (i + 1) offset (units ++ [unit])
    else
      unit_pass self n' (i + 1) offset (units ++ [[]])
  end.

(** Body of the third loop: one column name from a (param, unit) pair. *)
Definition col_name (param unit : str) : str :=
  let param_clean := _clean_parameter_name param in
  let unit_clean := _clean_parameter_name unit in
  if negb (str_eqb unit_clean []) && negb (str_eqb unit_clean param_clean)
     && negb (str_eqb unit_clean (lit "Unknown"))
  then param_clean ++ lit " [" ++ unit_clean ++ lit "]"
  else param_clean.

Definition _extract_column_names (self : parser) : result (list str) :=
  let column_names := [lit "Row"] in
  let offset := 0x138 in
  r1 <- param_pass self (Z.to_nat (column_count self)) 0 offset [] ;;
  r2 <- unit_pass self (Z.to_nat (column_count self)) 0 (snd r1) [] ;;
  Ok (fold_left (fun column_names pu => column_names ++ [col_name (fst pu) (snd pu)])
                (combine (fst r1) (fst r2)) column_names).

Fixpoint row_cells (self : parser) (n : nat) (offset : Z) (row : list str)
  : result (list str * Z) :=
  match n with
  | O => Ok (row, offset)
  | S n' =>
    if offset + 2 >? len (file_data self) then
      row_cells self n' offset (row ++ [lit "0"])
    else
      raw <- _read_uint16 (file_data self) offset ;;
      let index := raw - 0x09 in
      let offset := offset + 4 in
      if (0 <=? index) && (index <? len (point_values self)) then
        value <- getitem (point_values self) index ;;
        row_cells self n' offset (row ++ [value])
      else
        row_cells self n' offset (row ++ [lit "0"])
  end.

Fixpoint rows_loop (self : parser) (n : nat) (row_num offset : Z)
         (rows : list (list str)) : result (list (list str)) :=
  match n with
  | O => Ok rows
  | S n' =>
    r <- row_cells self (Z.to_nat (column_count self)) offset
                   [str_of_int (row_num + 1)] ;;
    rows_loop self n' (row_num + 1) (snd r) (rows ++ [fst r])
  end.

Definition floordiv (a b : Z) : result Z :=
  if b =? 0 then Raise ZeroDivisionError else Ok (a / b).

Definition _extract_data_rows (self : parser) : result (list (list str)) :=
  let offset := 0x11c in
  var16 <- _read_uint16 (file_data self) offset ;;
  let offset := var16 + 8 in
  records_count <- _read_uint32 (file_data self) offset ;;
  let offset := offset + 8 in
  total_rows <- floordiv (records_count / 4) (column_count self) ;;
  rows_loop self (Z.to_nat total_rows) 0 offset [].

Definition parse (data : list byte)
  : option (result (list str * list (list str))) :=
  match _extract_channel_count data with
  | Raise e => Some (Raise e)
  | Ok count =>
    match _extract_point_values data with
    | None => None
    | Some (Raise e) => Some (Raise e)
    | Some (Ok values) =>
      let self := {| file_data := data;
                     point_values := values;
                     column_count := count |} in
      Some (column_names <- _extract_column_names self ;;
            data_rows <- _extract_data_rows self ;;
            Ok (column_names, data_rows))
    end
  end.

End X431CleanParser.

(** ** The layout the decoders assume, stated on the bytes *)

Module Layout.

(** The 16-bit index stored in the 4-byte slot at [offset]. *)
Definition slot_index (data : list byte) (offset : Z) : Z := field 2 data offset.

(** The index bias: a stored index [i] names table position [i - 9]; an
    index below 9 (zero included) or past the table names nothing. *)
Definition lookup (table : list str) (i : Z) : option str :=
  if 9 <=? i then nth_error table (Z.to_nat (i - 9)) else None.

(** The offsets of [n] consecutive slots from [offset]. *)
Definition slots (offset : Z) (n : nat) : list Z :=
  map (fun k => offset + 4 * Z.of_nat k) (seq 0 n).

(** The cell a slot at [offset] stands for: the named string, or ["0"] when
    the slot names nothing or lies past the end of the buffer. *)
Definition cell_at (self : parser) (offset : Z) : str :=
  if len (file_data self) <? offset + 2 then lit "0"
  else match lookup (point_values self) (slot_index (file_data self) offset) with
       | Some value => value
       | None => lit "0"
       end.

(** Row [r] (from 0) of a cell area that starts at [offset]. *)
Definition data_row (self : parser) (offset : Z) (r : nat) : list str :=
  str_of_int (Z.of_nat r + 1)
    :: map (cell_at self)
           (slots (offset + 4 * column_count self * Z.of_nat r)
                  (Z.to_nat (column_count self))).

(** A stored header index that the bias rule covers: zero, or at least
    the bias. *)
Definition plain_index (i : Z) : Prop := i = 0 \/ 9 <= i.

(** The string a header slot names: the slot of channel [c] (from 0) in
    a pass of slots that starts at [base]. *)
Definition named (self : parser) (base : Z) (c : nat) : option str :=
  lookup (point_values self)
         (slot_index (file_data self) (base + 4 * Z.of_nat c)).

(** Pass 1 starts at 0x138, pass 2 follows it. *)
Definition pass1 : Z := 0x138.

Definition pass2 (self : parser) : Z := 0x138 + 4 * column_count self.

Definition primary_index (self : parser) (c : nat) : Z :=
  slot_index (file_data self) (pass1 + 4 * Z.of_nat c).

Definition secondary_index (self : parser) (c : nat) : Z :=
  slot_index (file_data self) (pass2 self + 4 * Z.of_nat c).

Definition channels (self : parser) : list nat :=
  seq 0 (Z.to_nat (column_count self)).

(** Verbose policy: what the first and the second pass contribute to the
    header of channel [c]. *)
Definition primary_text (self : parser) (base : Z) (c : nat) : str :=
  str_of_int (Z.of_nat c + 1) ++ lit ". "
    ++ match named self base c with
       | Some name => name
       | None => lit "Unknown"
       end.

Definition secondary_text (self : parser) (base : Z) (c : nat) : str :=
  match named self base c with
  | Some unit => lit " (" ++ unit ++ lit ")"
  | None => []
  end.

Definition verbose_header (self : parser) (c : nat) : str :=
  primary_text self pass1 c ++ secondary_text self (pass2 self) c.

(** Clean policy: the name and the unit of channel [c] before they are
    normalized. *)
Definition param_text (self : parser) (base : Z) (c : nat) : str :=
  match named self base c with
  | Some name => name
  | None => lit "Channel_" ++ str_of_int (Z.of_nat c + 1)
  end.

Definition unit_text (self : parser) (base : Z) (c : nat) : str :=
  match named self base c with
  | Some unit => unit
  | None => []
  end.

(** The normalization of the clean policy, written out: an empty string
    becomes "Unknown"; any other is stripped of surrounding white space,
    then the six abbreviations are expanded, in this order. *)
Definition normalize (name : str) : str :=
  if str_eqb name [] then lit "Unknown"
  else
    let name := strip name in
    let name := replace name (lit "B1S1") (lit "(Bank1 Sensor1)") in
    let name := replace name (lit "B2S1") (lit "(Bank2 Sensor1)") in
    let name := replace name (lit "A/F") (lit "Air/Fuel") in
    let name := replace name (lit "A/C") (lit "AC") in
    let name := replace name (lit "Cat OT MF F/C") (lit "Catalyst Misfire") in
    replace name (lit "#") (lit "Count").

Definition clean_header (self : parser) (c : nat) : str :=
  let primary := normalize (param_text self pass1 c) in
  let secondary := normalize (unit_text self (pass2 self) c) in
  if negb (str_eqb secondary []) && negb (str_eqb secondary primary)
     && negb (str_eqb secondary (lit "Unknown"))
  then primary ++ lit " [" ++ secondary ++ lit "]"
  else primary.

(** The data rows of a parse, or the exception it ended with. *)
Definition rows_of (r : option (result (list str * list (list str))))
  : option (result (list (list str))) :=
  option_map (fun r => x <- r ;; Ok (snd x)) r.

(** Where a pass over the header slots ends, or the exception it ended
    with. *)
Definition position {A : Type} (r : result (A * Z)) : result Z :=
  x <- r ;; Ok (snd x).

(** The exception a header extraction ended with, if any. *)
Definition outcome (r : result (list str)) : result unit :=
  _ <- r ;; Ok tt.

(** The cursor [a] of a slot loop against the position [b] the layout
    gives the next slot: they agree until the buffer is exhausted, after
    which the cursor stays where it is. *)
Definition tracks (self : parser) (a b : Z) : Prop :=
  0 <= a /\ (a = b \/ (len (file_data self) < a + 2 /\ a <= b)).

End Layout.

Import Layout.

(** *** The string table, as a relation on the bytes *)

Module Table.

(** [n] length-prefixed sections lie between offsets [off] and [off']:
    each starts with its own 16-bit length, prefix included. *)
Inductive sections (data : list byte) : nat -> Z -> Z -> Prop :=
| sections_O off : sections data O off off
| sections_S n off off' :
    off + 2 <= len data ->
    sections data n (off + field 2 data off) off' ->
    sections data (S n) off off'.

(** The payload of the entry at [off]: the [L - 3] bytes after its 16-bit
    length [L]. *)
Definition payload (data : list byte) (off : Z) : list byte :=
  slice data (off + 2) (off + 2 + (field 2 data off - 3)).

(** A whole entry lies at [off]: its length can be read, is at least 3, and
    [L - 2] bytes follow it. *)
Definition entry_at (data : list byte) (off : Z) : Prop :=
  0 <= off /\ off + 2 <= len data /\ 3 <= field 2 data off
  /\ field 2 data off - 2 <= len data - (off + 2).

(** [table_from data off table]: the strings of the run of entries that
    starts at [off].  An entry is a 16-bit length [L], [L - 3] payload
    bytes and one more byte.  The run ends where no length can be read,
    where [L < 3], or where fewer than [L - 2] bytes follow the length. *)
Inductive table_from (data : list byte) : Z -> list str -> Prop :=
| table_exhausted off :
    len data < off + 2 ->
    table_from data off []
| table_stop off :
    off + 2 <= len data ->
    field 2 data off < 3 \/ len data - (off + 2) < field 2 data off - 2 ->
    table_from data off []
| table_entry off rest :
    off + 2 <= len data ->
    3 <= field 2 data off ->
    field 2 data off - 2 <= len data - (off + 2) ->
    table_from data (off + 2 + (field 2 data off - 2)) rest ->
    table_from data off (decode Ignore (payload data off) :: rest).

End Table.

Import Table.

(** ** The decoders as two sentences of the specification word them

    Each definition below follows the wording of one sentence where that
    wording departs from the source; they are compared with the source's
    functions further down. *)

Module Claimed.

Import X431Parser.

(** "reads a 16-bit value at the fixed header offset 0x11c, forms the
    data-section pointer by adding 8 to that value, and reads the 32-bit
    record count at offset pointer + 8; decoding of cell indices then
    begins 8 bytes past the record-count field". *)
Definition extract_data_rows (self : parser) : result (list (list str)) :=
  value <- _read_uint16 (file_data self) 0x11c ;;
  let pointer := value + 8 in
  records_count <- _read_uint32 (file_data self) (pointer + 8) ;;
  let offset := pointer + 8 + 8 in
  total_rows <- floordiv (records_count / 4) (column_count self) ;;
  rows_loop self (Z.to_nat total_rows) 0 offset [].

(** "repeatedly reads a 16-bit length L, stops exactly when L < 3 or fewer
    than L - 2 bytes remain in the buffer, and otherwise appends the
    (L - 3)-byte payload as a string and advances the offset by L - 2
    bytes": a length is read on every turn. *)
Fixpoint read_point_values (fuel : nat) (file_data : list byte) (offset : Z)
         (point_values : list str) : option (result (list str)) :=
  match fuel with
  | O => None
  | S fuel' =>
    match _read_uint16 file_data offset with
    | Raise e => Some (Raise e)
    | Ok L =>
      let offset := offset + 2 in
      if (L <? 3) || (len file_data - offset <? L - 2)
      then Some (Ok point_values)
      else
        read_point_values fuel' file_data (offset + (L - 2))
          (point_values ++ [decode Ignore (slice file_data offset (offset + (L - 3)))])
    end
  end.

Definition extract_point_values (file_data : list byte)
  : option (result (list str)) :=
  match _read_uint32 file_data 0x0c with
  | Raise e => Some (Raise e)
  | Ok L0 =>
    match skip_sections 8 file_data (0x0c + (4 + L0)) with
    | Raise e => Some (Raise e)
    | Ok offset =>
      read_point_values (S (length file_data)) file_data offset []
    end
  end.

End Claimed.

(** ** Sample files *)

Module Sample.

Definition b (z : Z) : byte :=
  match Byte.of_N (Z.to_N z) with
  | Some x => x
  | None => x00
  end.

Definition bytes (l : list Z) : list byte := map b l.

Definition u16 (v : Z) : list byte := bytes [v mod 256; v / 256].

Definition u32 (v : Z) : list byte :=
  bytes [v mod 256; (v / 256) mod 256; (v / 65536) mod 256; v / 16777216].

Definition zeros (n : Z) : list byte := repeat x00 (Z.to_nat n).

Definition text (s : string) : list byte :=
  map byte_of_ascii (list_ascii_of_string s).

(** One string-table entry: length, payload, terminator. *)
Definition entry (payload : list byte) : list byte :=
  u16 (len payload + 3) ++ payload ++ [x00].

Definition slot (index : Z) : list byte := u16 index ++ zeros 2.

(** What follows the string table in a complete file: the sentinel
    length, the record count, four more bytes and the cell slots. *)
Definition records (count : Z) (cells : list Z) : list byte :=
  u16 0 ++ u32 count ++ zeros 4 ++ concat (map slot cells).

(** A file with the channel count at 0x134, the two passes of header
    slots from 0x138, eight empty sections at 0x150, the string table at
    0x160, then [rest]; the 16-bit value at 0x11c points 8 bytes before
    the record count of a [rest] built by [records]. *)
Definition file (channels : Z) (pass1 pass2 : list Z)
           (table : list (list byte)) (rest : list byte) : list byte :=
  let strings := concat (map entry table) in
  zeros 12 ++ u32 (0x150 - 0x10) ++ zeros (0x11c - 0x10)
    ++ u16 (0x160 + len strings + 2 - 8) ++ zeros (0x134 - 0x11e)
    ++ bytes [channels * 4] ++ zeros 3
    ++ concat (map slot pass1) ++ concat (map slot pass2)
    ++ zeros (0x150 - 0x138 - 8 * channels)
    ++ concat (repeat (u16 2) 8)
    ++ strings ++ rest.

Definition names : list (list byte) :=
  map text ["Speed"; "RPM"; "km/h"; "rpm"]%string.

(** Two channels, 17 records, two full rows of cells. *)
Definition demo : list byte :=
  file 2 [9; 10] [11; 12] names (records 17 [9; 10; 11; 12]).

(** As [demo], with the last cell slot missing. *)
Definition cut_short : list byte :=
  file 2 [9; 10] [11; 12] names (records 17 [9; 10; 11]).

(** One channel whose primary index is 5, and an empty string table. *)
Definition low_index_empty : list byte :=
  file 1 [5] [0] [] (records 4 [0]).

(** One channel whose primary index is 8, and four strings. *)
Definition low_index : list byte :=
  file 1 [8] [0] names (records 4 [9]).

(** One entry whose payload holds the invalid byte 0xFF. *)
Definition bad_payload : list byte := bytes [0x41; 0xFF; 0x42].

Definition bad_utf8 : list byte :=
  file 1 [9] [0] [bad_payload] (records 4 [9]).

(** One entry whose payload is U+FFFD itself, encoded. *)
Definition encoded_replacement : list byte :=
  file 1 [9] [0] [bytes [0xEF; 0xBF; 0xBD]] (records 4 [9]).

(** The string table runs to the last byte of the file. *)
Definition table_at_end : list byte :=
  file 1 [9] [0] [text "Speed"] [].

(** The unit of the only channel is a table entry that reads "Unknown". *)
Definition unit_unknown : list byte :=
  file 1 [9] [10] (map text ["Speed"; "Unknown"]%string) (records 4 [9]).

(** The only channel has no primary and no secondary index. *)
Definition unnamed : list byte :=
  file 1 [0] [0] names (records 4 [9]).

(** A primary name that holds an abbreviation. *)
Definition abbreviated : list byte :=
  file 1 [9] [10] (map text ["O2 B1S1"; "V"]%string) (records 4 [9]).

(** A parser object after the channel count and the string table of
    [data] have been extracted. *)
Definition parser_of (data : list byte) (table : list string) (channels : Z)
  : parser :=
  {| file_data := data;
     point_values := map lit table;
     column_count := channels |}.

Definition demo_parser : parser :=
  parser_of demo ["Speed"; "RPM"; "km/h"; "rpm"]%string 2.

Definition cut_short_parser : parser :=
  parser_of cut_short ["Speed"; "RPM"; "km/h"; "rpm"]%string 2.

Definition unit_unknown_parser : parser :=
  parser_of unit_unknown ["Speed"; "Unknown"]%string 1.

Definition unnamed_parser : parser :=
  parser_of unnamed ["Speed"; "RPM"; "km/h"; "rpm"]%string 1.

Definition abbreviated_parser : parser :=
  parser_of abbreviated ["O2 B1S1"; "V"]%string 1.

(** As [demo], but the primary index of the first channel is 8, below
    the bias, and the units are exchanged. *)
Definition low_neighbour : list byte :=
  file 2 [8; 9] [12; 11] names (records 17 [9; 10; 11; 12]).

(** Two channels over an abbreviated name and its unit; the primary index
    of the first channel is 8 and it has no unit. *)
Definition low_neighbour_clean : list byte :=
  file 2 [8; 9] [0; 10] (map text ["O2 B1S1"; "V"]%string)
       (records 8 [9; 10]).

Definition low_neighbour_parser : parser :=
  parser_of low_neighbour ["Speed"; "RPM"; "km/h"; "rpm"]%string 2.

Definition low_neighbour_clean_parser : parser :=
  parser_of low_neighbour_clean ["O2 B1S1"; "V"]%string 2.

End Sample.

(** ** Measures and predicates for the further properties *)

Module Measure.

(** The number of code points in a list of strings. *)
Definition total_chars (table : list str) : Z :=
  fold_right (fun s n => len s + n) 0 table.

(** A Unicode scalar value: a code point that is not a surrogate. *)
Definition scalar (c : Z) : Prop :=
  0 <= c <= 0x10FFFF /\ ~ (0xD800 <= c <= 0xDFFF).

(** [old in s]: [old] occurs in [s] as a substring. *)
Fixpoint occurs (old s : str) : bool :=
  startswith s old
  || match s with
     | [] => false
     | _ :: t => occurs old t
     end.

(** The bytes after a run of entries end the string table: fewer than two
    are left, or they start with a length below 3. *)
Definition ends_table (rest : list byte) : Prop :=
  len rest < 2 \/ field 2 rest 0 < 3.


(** The code point of "#". *)
Definition hash : Z := 35.

End Measure.

Import Measure.

(** ** The callers: [convert_x431_to_csv] and the batch converters

    Reading and writing files are taken to succeed; what is modelled is
    what the functions do with the parse. *)

Module Convert.

(** What a successful parse hands to the csv writer: the header row
    ([writer.writerow(column_names)]) and then the data rows
    ([writer.writerows(data_rows)]).  An exception of the parse is printed
    and raised again. *)
Definition written (r : result (list str * list (list str)))
  : result (list (list str)) :=
  x <- r ;; Ok (fst x :: snd x).

(** [convert_x431_to_csv] of [x431_to_csv.py]. *)
Definition convert_x431_to_csv (data : list byte)
  : option (result (list (list str))) :=
  option_map written (X431Parser.parse data).

(** [convert_x431_to_csv] of [x431_to_csv_clean.py]. *)
Definition convert_x431_to_csv_clean (data : list byte)
  : option (result (list (list str))) :=
  option_map written (X431CleanParser.parse data).

(** What a batch run reports. *)
Inductive report : Type :=
| NoFiles
| Counts (success_count error_count : Z).

(** The [for x431_file in x431_files] loop of a batch converter, with its
    [try]/[except Exception]: a conversion that raises is counted and the
    loop goes on. *)
Fixpoint batch_loop {A : Type} (convert : list byte -> option (result A))
         (x431_files : list (list byte)) (success_count error_count : Z)
  : option (Z * Z) :=
  match x431_files with
  | [] => Some (success_count, error_count)
  | x431_file :: rest =>
    match convert x431_file with
    | None => None
    | Some (Ok _) => batch_loop convert rest (success_count + 1) error_count
    | Some (Raise _) => batch_loop convert rest success_count (error_count + 1)
    end
  end.

(** [batch_convert] of [batch_convert.py], from the sorted list of the
    [.x431] files found: without files it returns before counting. *)
Definition batch_convert (x431_files : list (list byte)) : option report :=
  match x431_files with
  | [] => Some NoFiles
  | _ :: _ =>
    option_map (fun c => Counts (fst c) (snd c))
               (batch_loop convert_x431_to_csv x431_files 0 0)
  end.

(** [batch_convert_clean] of [batch_convert_clean.py]. *)
Definition batch_convert_clean (x431_files : list (list byte)) : option report :=
  match x431_files with
  | [] => Some NoFiles
  | _ :: _ =>
    option_map (fun c => Counts (fst c) (snd c))
               (batch_loop convert_x431_to_csv_clean x431_files 0 0)
  end.

(** Whether the parse of a file ends without an exception. *)
Definition parses (data : list byte) : bool :=
  match X431Parser.parse data with
  | Some (Ok _) => true
  | _ => false
  end.

End Convert.

Import Convert.

(** ** UTF-8, as the standard defines it

    The decoder above follows the code of the codec.  What it is meant to
    compute is stated here on its own, from the encoding. *)

Module Utf8.

(** The bytes that encode the scalar value [c]. *)
Definition utf8_encode (c : Z) : list Z :=
  if c <? 0x80 then [c]
  else if c <? 0x800 then [0xC0 + c / 64; 0x80 + c mod 64]
  else if c <? 0x10000 then
    [0xE0 + c / 4096; 0x80 + (c / 64) mod 64; 0x80 + c mod 64]
  else
    [0xF0 + c / 262144; 0x80 + (c / 4096) mod 64; 0x80 + (c / 64) mod 64;
     0x80 + c mod 64].

(** The same by the first byte, as the standard's table of well-formed
    sequences has it: [encoded c tail s] when [s] is a well-formed sequence
    for [c] followed by [tail]. *)
Inductive encoded (c : Z) (tail : list Z) : list Z -> Prop :=
| encoded_1 : 0 <= c < 0x80 -> encoded c tail (c :: tail)
| encoded_2 ch ch2 :
    0xC2 <= ch < 0xE0 -> 0x80 <= ch2 <= 0xBF ->
    c = ch * 64 + ch2 - 12416 ->
    encoded c tail (ch :: ch2 :: tail)
| encoded_3 ch ch2 ch3 :
    0xE0 <= ch < 0xF0 -> 0x80 <= ch2 <= 0xBF -> 0x80 <= ch3 <= 0xBF ->
    (ch = 0xE0 -> 0xA0 <= ch2) -> (ch = 0xED -> ch2 < 0xA0) ->
    c = ch * 4096 + ch2 * 64 + ch3 - 925824 ->
    encoded c tail (ch :: ch2 :: ch3 :: tail)
| encoded_4 ch ch2 ch3 ch4 :
    0xF0 <= ch < 0xF5 -> 0x80 <= ch2 <= 0xBF -> 0x80 <= ch3 <= 0xBF ->
    0x80 <= ch4 <= 0xBF ->
    (ch = 0xF0 -> 0x90 <= ch2) -> (ch = 0xF4 -> ch2 < 0x90) ->
    c = ch * 262144 + ch2 * 4096 + ch3 * 64 + ch4 - 63447168 ->
    encoded c tail (ch :: ch2 :: ch3 :: ch4 :: tail).

(** The bytes [s] start with the encoding of a scalar value. *)
Definition encoded_at_start (s : list Z) : Prop :=
  exists c tail, scalar c /\ s = utf8_encode c ++ tail.

(** [dropping s out]: read from the left, every encoded scalar value of
    [s] gives its code point, and a byte at which no scalar value is
    encoded is passed over and gives nothing. *)
Inductive dropping : list Z -> str -> Prop :=
| dropping_end : dropping [] []
| dropping_keep c rest out :
    scalar c -> dropping rest out ->
    dropping (utf8_encode c ++ rest) (c :: out)
| dropping_drop b rest out :
    ~ encoded_at_start (b :: rest) -> dropping rest out ->
    dropping (b :: rest) out.

(** The bytes [w] lie in a row somewhere in [s]. *)
Definition holds (s w : list Z) : Prop :=
  exists before after, s = before ++ w ++ after.

End Utf8.

Import Utf8.

(** ** The header indices a pass can use *)

Module HeaderIndex.

(** A stored header index [i] that the loops of [_extract_column_names]
    pass without [IndexError]: zero (no subscript is taken), at least 9
    (the test [i - 9 < len(point_values)] guards the subscript), or, from
    1 to 8, one whose negative subscript [i - 9] still falls within the
    table. *)
Definition usable (table : list str) (i : Z) : Prop :=
  i = 0 \/ 9 <= i \/ 9 - i <= len table.

(** The buffer holds the header slots as far as the loops read them: up
    to the two index bytes of the last slot of the second pass. *)
Definition slots_readable (self : parser) : Prop :=
  0 < column_count self ->
  0x138 + 8 * column_count self - 2 <= len (file_data self).

End HeaderIndex.

Import HeaderIndex.

(** ** Facts about the Python fragment *)

Section PyFacts.

Lemma byte_val_range (b : byte) : 0 <= byte_val b < 256.
Proof.
  unfold byte_val. pose proof (Byte.to_N_bounded b). lia.
Qed.

Lemma le_value_nonneg (bs : list byte) : 0 <= le_value bs.
Proof.
  induction bs as [|b t IH]; cbn [le_value]; [lia|].
  pose proof (byte_val_range b). lia.
Qed.

Lemma field_nonneg size buffer offset : 0 <= field size buffer offset.
Proof. apply le_value_nonneg. Qed.

Lemma unpack_from_nonneg size buffer offset v :
  unpack_from size buffer offset = Ok v -> 0 <= v.
Proof.
  unfold unpack_from.
  repeat match goal with |- context [if ?c then _ else _] => destruct c end;
    intros H; inversion H; apply field_nonneg.
Qed.

Lemma unpack_from_inside size buffer offset :
  0 <= offset -> offset + size <= len buffer ->
  unpack_from size buffer offset = Ok (field size buffer offset).
Proof.
  intros H0 H1. unfold unpack_from.
  destruct (offset <? 0) eqn:E; [apply Z.ltb_lt in E; lia|].
  destruct (len buffer - offset <? size) eqn:E'; [apply Z.ltb_lt in E'; lia|].
  reflexivity.
Qed.

Lemma unpack_from_outside size buffer offset :
  0 <= offset -> len buffer < offset + size ->
  unpack_from size buffer offset = Raise StructError.
Proof.
  intros H0 H1. unfold unpack_from.
  destruct (offset <? 0) eqn:E; [apply Z.ltb_lt in E; lia|].
  destruct (len buffer - offset <? size) eqn:E'; [reflexivity|].
  apply Z.ltb_ge in E'. lia.
Qed.

Lemma unpack_from_ok_inv size buffer offset v :
  0 <= offset -> unpack_from size buffer offset = Ok v ->
  offset + size <= len buffer /\ v = field size buffer offset.
Proof.
  intros H0 H.
  destruct (Z_lt_le_dec (len buffer) (offset + size)) as [Hlt|Hle].
  - rewrite unpack_from_outside in H by assumption. discriminate.
  - rewrite unpack_from_inside in H by assumption. inversion H. auto.
Qed.

Lemma len_nonneg {A} (l : list A) : 0 <= len l.
Proof. unfold len. lia. Qed.

Lemma len_app {A} (l1 l2 : list A) : len (l1 ++ l2) = len l1 + len l2.
Proof. unfold len. rewrite length_app. lia. Qed.

Lemma getitem_inside {A} (l : list A) k :
  0 <= k -> k < len l ->
  exists x, nth_error l (Z.to_nat k) = Some x /\ getitem l k = Ok x.
Proof.
  intros H0 H1. unfold getitem.
  destruct (k <? 0) eqn:E; [apply Z.ltb_lt in E; lia|].
  rewrite E. simpl.
  destruct (len l <=? k) eqn:E'; [apply Z.leb_le in E'; lia|].
  destruct (nth_error l (Z.to_nat k)) as [x|] eqn:N.
  - exists x. auto.
  - apply nth_error_None in N. unfold len in H1. lia.
Qed.

End PyFacts.

(** ** The data rows in closed form *)

Section DataRows.

Import X431Parser.

Lemma slots_S offset n : slots offset (S n) = offset :: slots (offset + 4) n.
Proof.
  unfold slots. cbn [seq map]. f_equal; [lia|].
  rewrite <- seq_shift, map_map. apply map_ext. intros k. lia.
Qed.

Lemma length_slots offset n : length (slots offset n) = n.
Proof. unfold slots. rewrite length_map, length_seq. reflexivity. Qed.

Lemma lookup_miss table i :
  (0 <=? i - 9) && (i - 9 <? len table) = false -> lookup table i = None.
Proof.
  intros H. unfold lookup.
  destruct (9 <=? i) eqn:E; [|reflexivity].
  apply Z.leb_le in E. apply nth_error_None.
  apply andb_false_iff in H. destruct H as [H|H].
  - apply Z.leb_gt in H. lia.
  - apply Z.ltb_ge in H. unfold len in H. lia.
Qed.

Lemma lookup_hit table i :
  (0 <=? i - 9) && (i - 9 <? len table) = true ->
  exists value, lookup table i = Some value /\ getitem table (i - 9) = Ok value.
Proof.
  intros H. apply andb_true_iff in H. destruct H as [H1 H2].
  apply Z.leb_le in H1. apply Z.ltb_lt in H2.
  destruct (getitem_inside table (i - 9) H1 H2) as [x [N G]].
  exists x. split; [|exact G].
  unfold lookup. destruct (9 <=? i) eqn:E; [exact N|].
  apply Z.leb_gt in E. lia.
Qed.

Lemma row_cells_closed self n :
  forall a b row, tracks self a b ->
  exists a', row_cells self n a row
             = Ok (row ++ map (cell_at self) (slots b n), a')
             /\ tracks self a' (b + 4 * Z.of_nat n).
Proof.
  induction n as [|n IH]; intros a b row [Ha Hab].
  - exists a. cbn [row_cells slots seq map]. rewrite app_nil_r.
    split; [reflexivity|]. unfold tracks. lia.
  - rewrite slots_S. cbn [row_cells map].
    destruct (a + 2 >? len (file_data self)) eqn:E.
    + apply Z.gtb_lt in E.
      assert (Hb : cell_at self b = lit "0").
      { unfold cell_at. destruct (len (file_data self) <? b + 2) eqn:E2;
          [reflexivity|]. apply Z.ltb_ge in E2. lia. }
      destruct (IH a (b + 4) (row ++ [lit "0"])) as [a' [R T]].
      { unfold tracks. lia. }
      exists a'. rewrite R, Hb, <- app_assoc. split; [reflexivity|].
      unfold tracks in *. lia.
    + assert (E' : a + 2 <= len (file_data self))
        by (rewrite Z.gtb_ltb in E; apply Z.ltb_ge in E; lia).
      assert (a = b) by lia. subst b.
      unfold _read_uint16. rewrite unpack_from_inside by lia.
      cbn [bind].
      assert (Hc : cell_at self a
                   = match lookup (point_values self) (field 2 (file_data self) a) with
                     | Some value => value
                     | None => lit "0"
                     end).
      { unfold cell_at, slot_index.
        destruct (len (file_data self) <? a + 2) eqn:E2; [|reflexivity].
        apply Z.ltb_lt in E2. lia. }
      destruct ((0 <=? field 2 (file_data self) a - 9)
                && (field 2 (file_data self) a - 9 <? len (point_values self)))
               eqn:V.
      * destruct (lookup_hit _ _ V) as [value [L G]].
        rewrite G. cbn [bind].
        destruct (IH (a + 4) (a + 4) (row ++ [value])) as [a' [R T]].
        { unfold tracks. lia. }
        exists a'. rewrite R, Hc, L, <- app_assoc. split; [reflexivity|].
        unfold tracks in *. lia.
      * rewrite (lookup_miss _ _ V) in Hc.
        destruct (IH (a + 4) (a + 4) (row ++ [lit "0"])) as [a' [R T]].
        { unfold tracks. lia. }
        exists a'. rewrite R, Hc, <- app_assoc. split; [reflexivity|].
        unfold tracks in *. lia.
Qed.

Lemma rows_loop_closed self base n :
  0 <= column_count self ->
  forall r a rows,
    tracks self a (base + 4 * column_count self * Z.of_nat r) ->
    rows_loop self n (Z.of_nat r) a rows
    = Ok (rows ++ map (data_row self base) (seq r n)).
Proof.
  intros Hc. induction n as [|n IH]; intros r a rows T.
  - cbn [rows_loop seq map]. rewrite app_nil_r. reflexivity.
  - cbn [rows_loop seq map].
    destruct (row_cells_closed self (Z.to_nat (column_count self)) a _
                [str_of_int (Z.of_nat r + 1)] T) as [a' [R T']].
    rewrite R. cbn [bind fst snd].
    replace (Z.of_nat r + 1) with (Z.of_nat (S r)) by lia.
    rewrite IH.
    + rewrite <- app_assoc. cbn [app]. unfold data_row at 2.
      replace (Z.of_nat r + 1) with (Z.of_nat (S r)) by lia. reflexivity.
    + rewrite Z2Nat.id in T' by assumption.
      unfold tracks in *. nia.
Qed.

Lemma extract_data_rows_closed self v rc :
  _read_uint16 (file_data self) 0x11c = Ok v ->
  _read_uint32 (file_data self) (v + 8) = Ok rc ->
  0 < column_count self ->
  _extract_data_rows self
  = Ok (map (data_row self (v + 16))
            (seq 0 (Z.to_nat (rc / 4 / column_count self)))).
Proof.
  intros Hv Hrc Hc. unfold _extract_data_rows.
  rewrite Hv. cbn [bind]. rewrite Hrc. cbn [bind].
  unfold floordiv. destruct (column_count self =? 0) eqn:E;
    [apply Z.eqb_eq in E; lia|]. cbn [bind].
  change 0 with (Z.of_nat 0) at 1.
  rewrite (rows_loop_closed self (v + 16)); [reflexivity|lia|].
  pose proof (unpack_from_nonneg _ _ _ _ Hv).
  unfold tracks. change (Z.of_nat 0) with 0. lia.
Qed.

Lemma extract_data_rows_inv self rows :
  _extract_data_rows self = Ok rows ->
  exists v rc,
    _read_uint16 (file_data self) 0x11c = Ok v
    /\ _read_uint32 (file_data self) (v + 8) = Ok rc
    /\ column_count self <> 0.
Proof.
  unfold _extract_data_rows. intros H.
  destruct (_read_uint16 (file_data self) 284) as [v|] eqn:Hv; [|discriminate].
  cbn [bind] in H.
  destruct (_read_uint32 (file_data self) (v + 8)) as [rc|] eqn:Hrc;
    [|discriminate].
  cbn [bind] in H. unfold floordiv in H.
  destruct (column_count self =? 0) eqn:E; [discriminate|].
  apply Z.eqb_neq in E. exists v, rc. auto.
Qed.

(** Once the cursor is within two bytes of the end, every further cell is
    the placeholder and the cursor stays. *)
Lemma row_cells_exhausted self n :
  forall off row, len (file_data self) < off + 2 ->
  row_cells self n off row = Ok (row ++ repeat (lit "0") n, off).
Proof.
  induction n as [|n IH]; intros off row H.
  - cbn [row_cells repeat]. rewrite app_nil_r. reflexivity.
  - cbn [row_cells repeat].
    destruct (off + 2 >? len (file_data self)) eqn:E.
    + rewrite IH by assumption. rewrite <- app_assoc. reflexivity.
    + rewrite Z.gtb_ltb in E. apply Z.ltb_ge in E. lia.
Qed.

Lemma rows_loop_exhausted self n :
  forall r off rows, len (file_data self) < off + 2 ->
  rows_loop self n r off rows
  = Ok (rows ++ map (fun k => str_of_int (r + Z.of_nat k + 1)
                                :: repeat (lit "0") (Z.to_nat (column_count self)))
                    (seq 0 n)).
Proof.
  induction n as [|n IH]; intros r off rows H.
  - cbn [rows_loop seq map]. rewrite app_nil_r. reflexivity.
  - cbn [rows_loop seq map]. rewrite row_cells_exhausted by assumption.
    cbn [bind fst snd]. rewrite IH by assumption.
    rewrite <- app_assoc. cbn [app].
    replace (r + Z.of_nat 0 + 1) with (r + 1) by lia.
    rewrite <- seq_shift, map_map.
    do 3 f_equal. apply map_ext. intros k.
    replace (r + 1 + Z.of_nat k + 1) with (r + Z.of_nat (S k) + 1) by lia.
    reflexivity.
Qed.

Lemma row_cells_app self n m :
  forall off row,
  row_cells self (n + m) off row
  = (r <- row_cells self n off row ;; row_cells self m (snd r) (fst r)).
Proof.
  induction n as [|n IH]; intros off row.
  - reflexivity.
  - cbn [Nat.add row_cells].
    destruct (off + 2 >? len (file_data self)); [apply IH|].
    destruct (_read_uint16 (file_data self) off) as [raw|]; [|reflexivity].
    cbn [bind].
    destruct ((0 <=? raw - 9) && (raw - 9 <? len (point_values self)));
      [|apply IH].
    destruct (getitem (point_values self) (raw - 9)); [|reflexivity].
    cbn [bind]. apply IH.
Qed.

Lemma length_data_row self base r :
  0 <= column_count self ->
  len (data_row self base r) = column_count self + 1.
Proof.
  intros H. unfold data_row, len. cbn [length].
  rewrite length_map, length_slots. lia.
Qed.

End DataRows.

(** ** The string table *)

Section StringTable.

Import X431Parser.

Lemma skip_sections_nonneg data n :
  forall off off', 0 <= off -> skip_sections n data off = Ok off' -> 0 <= off'.
Proof.
  induction n as [|n IH]; intros off off' H0 H.
  - inversion H. subst. exact H0.
  - cbn [skip_sections] in H.
    destruct (_read_uint16 data off) as [L|] eqn:R; [|discriminate].
    cbn [bind] in H. apply unpack_from_nonneg in R.
    apply (IH (off + L)); [lia | exact H].
Qed.

Lemma skip_sections_sections data n off off' :
  0 <= off -> sections data n off off' ->
  skip_sections n data off = Ok off' /\ 0 <= off'.
Proof.
  intros H0 Hs. induction Hs as [off|n off off' Hin Hs IH].
  - split; [reflexivity | exact H0].
  - cbn [skip_sections]. unfold _read_uint16.
    rewrite unpack_from_inside by lia. cbn [bind].
    apply IH. pose proof (field_nonneg 2 data off). lia.
Qed.

(** With more fuel than bytes left, the loop ends, and its strings are
    those the layout gives. *)
Lemma read_point_values_table data fuel :
  forall off acc,
    0 <= off -> (Z.to_nat (len data - off) < fuel)%nat ->
    exists table,
      read_point_values fuel data off acc = Some (Ok (acc ++ table))
      /\ table_from data off table.
Proof.
  induction fuel as [|fuel IH]; intros off acc H0 Hf; [lia|].
  cbn [read_point_values].
  destruct (off <? len data) eqn:E1.
  2:{ apply Z.ltb_ge in E1. exists []. rewrite app_nil_r.
      split; [reflexivity|]. apply table_exhausted. lia. }
  apply Z.ltb_lt in E1.
  destruct (off + 2 >? len data) eqn:E2.
  { apply Z.gtb_lt in E2. exists []. rewrite app_nil_r.
    split; [reflexivity|]. apply table_exhausted. lia. }
  assert (E2' : off + 2 <= len data)
    by (rewrite Z.gtb_ltb in E2; apply Z.ltb_ge in E2; lia).
  unfold _read_uint16. rewrite unpack_from_inside by lia.
  destruct ((field 2 data off <? 3)
            || (off + 2 + field 2 data off - 2 >? len data)) eqn:E3.
  { exists []. rewrite app_nil_r. split; [reflexivity|].
    apply table_stop; [exact E2'|].
    apply orb_true_iff in E3. destruct E3 as [E3|E3].
    - apply Z.ltb_lt in E3. left. exact E3.
    - apply Z.gtb_lt in E3. right. lia. }
  apply orb_false_iff in E3. destruct E3 as [E3 E4].
  apply Z.ltb_ge in E3. rewrite Z.gtb_ltb in E4. apply Z.ltb_ge in E4.
  destruct (IH (off + 2 + field 2 data off - 2)
               (acc ++ [decode Ignore
                          (slice data (off + 2)
                                 (off + 2 + field 2 data off - 3))]))
    as [rest [R T]]; [lia | lia |].
  exists (decode Ignore (slice data (off + 2) (off + 2 + field 2 data off - 3))
            :: rest).
  split.
  - rewrite R, <- app_assoc. reflexivity.
  - replace (off + 2 + field 2 data off - 3)
      with (off + 2 + (field 2 data off - 3)) by lia.
    apply (table_entry data off rest); try lia.
    replace (off + 2 + (field 2 data off - 2))
      with (off + 2 + field 2 data off - 2) by lia.
    exact T.
Qed.

(** The [while] loop of [_extract_point_values] always ends. *)
Lemma extract_point_values_total data :
  exists r, _extract_point_values data = Some r.
Proof.
  unfold _extract_point_values.
  destruct (_read_uint32 data 12) as [var32|e] eqn:R; [|eexists; reflexivity].
  destruct (skip_sections 8 data (12 + (4 + var32))) as [off|e] eqn:Hs;
    [|eexists; reflexivity].
  apply unpack_from_nonneg in R.
  apply skip_sections_nonneg in Hs; [|lia].
  destruct (read_point_values_table data (S (length data)) off [] Hs)
    as [table [H _]].
  - unfold len. lia.
  - eexists. exact H.
Qed.

Lemma extract_point_values_table data table :
  _extract_point_values data = Some (Ok table) ->
  exists off, 0 <= off /\ table_from data off table.
Proof.
  unfold _extract_point_values. intros H.
  destruct (_read_uint32 data 12) as [var32|e] eqn:R; [|discriminate].
  destruct (skip_sections 8 data (12 + (4 + var32))) as [off|e] eqn:Hs;
    [|discriminate].
  apply unpack_from_nonneg in R.
  apply skip_sections_nonneg in Hs; [|lia].
  destruct (read_point_values_table data (S (length data)) off [] Hs)
    as [table' [H' T]].
  - unfold len. lia.
  - rewrite H' in H. inversion H. subst. exists off. auto.
Qed.

Lemma table_from_unique data off t1 :
  table_from data off t1 -> forall t2, table_from data off t2 -> t1 = t2.
Proof.
  induction 1 as [off H|off H1 H2|off rest H1 H2 H3 T IH];
    intros t2 T2; inversion T2; subst; try reflexivity; try lia.
  f_equal. apply IH. assumption.
Qed.

Lemma table_from_entries data off table :
  0 <= off -> table_from data off table ->
  forall s, In s table ->
  exists off', entry_at data off' /\ s = decode Ignore (payload data off').
Proof.
  intros H0 T. induction T as [off H|off H1 H2|off rest H1 H2 H3 T IH];
    intros s Hs; try (destruct Hs; fail).
  destruct Hs as [Hs|Hs].
  - subst s. exists off. unfold entry_at. auto.
  - apply IH; [lia | exact Hs].
Qed.

(** One turn of the loop on a whole entry: its decoded payload is appended
    and the loop goes on behind the entry. *)
Lemma read_point_values_entry data off fuel acc :
  entry_at data off ->
  read_point_values (S fuel) data off acc
  = read_point_values fuel data (off + 2 + (field 2 data off - 2))
                      (acc ++ [decode Ignore (payload data off)]).
Proof.
  intros [H0 [H1 [H2 H3]]]. cbn [read_point_values].
  destruct (off <? len data) eqn:E1; [|apply Z.ltb_ge in E1; lia].
  destruct (off + 2 >? len data) eqn:E2; [apply Z.gtb_lt in E2; lia|].
  unfold _read_uint16. rewrite unpack_from_inside by lia.
  destruct ((field 2 data off <? 3)
            || (off + 2 + field 2 data off - 2 >? len data)) eqn:E3.
  - apply orb_true_iff in E3. destruct E3 as [E3|E3].
    + apply Z.ltb_lt in E3. lia.
    + apply Z.gtb_lt in E3. lia.
  - unfold payload.
    replace (off + 2 + field 2 data off - 3)
      with (off + 2 + (field 2 data off - 3)) by lia.
    replace (off + 2 + field 2 data off - 2)
      with (off + 2 + (field 2 data off - 2)) by lia.
    reflexivity.
Qed.

End StringTable.

(** ** The tolerant decoder puts nothing in place of what it drops *)

Section Decoder.

Lemma shiftl_6 x : Z.shiftl x 6 = x * 64.
Proof. rewrite Z.shiftl_mul_pow2 by lia. reflexivity. Qed.

Lemma shiftl_12 x : Z.shiftl x 12 = x * 4096.
Proof. rewrite Z.shiftl_mul_pow2 by lia. reflexivity. Qed.

Lemma shiftl_18 x : Z.shiftl x 18 = x * 262144.
Proof. rewrite Z.shiftl_mul_pow2 by lia. reflexivity. Qed.

Ltac bools :=
  repeat match goal with
         | H : (_ <? _) = true |- _ => apply Z.ltb_lt in H
         | H : (_ <? _) = false |- _ => apply Z.ltb_ge in H
         | H : (_ <=? _) = true |- _ => apply Z.leb_le in H
         | H : (_ <=? _) = false |- _ => apply Z.leb_gt in H
         | H : (_ =? _) = true |- _ => apply Z.eqb_eq in H
         | H : (_ =? _) = false |- _ => apply Z.eqb_neq in H
         | H : negb _ = true |- _ => apply negb_true_iff in H
         | H : negb _ = false |- _ => apply negb_false_iff in H
         | H : (_ && _) = true |- _ => apply andb_true_iff in H; destruct H
         | H : (_ || _) = false |- _ => apply orb_false_iff in H; destruct H
         end.

Lemma decode_ignore_no_replacement_aux n :
  forall s, (length s <= n)%nat ->
  In 0xFFFD (utf8_decode Ignore s) -> In 0xEF s.
Proof.
  induction n as [|n IH]; intros s Hn.
  - destruct s; [intros []|cbn [length] in Hn; lia].
  - destruct s as [|ch s1]; [intros []|].
    cbn [length] in Hn.
    assert (K1 : In 0xFFFD (utf8_decode Ignore s1) -> In 0xEF (ch :: s1))
      by (intros K; right; apply IH; [lia | exact K]).
    cbn [utf8_decode on_error app].
    destruct (ch <? 128) eqn:A1.
    { intros [K|K]; [bools; lia | auto]. }
    destruct (ch <? 224) eqn:A2.
    { destruct (ch <? 194) eqn:A3; [exact K1|].
      destruct s1 as [|ch2 s2]; [intros []|].
      destruct (negb (is_continuation ch2)) eqn:C2; [exact K1|].
      unfold is_continuation in C2. rewrite shiftl_6.
      intros [K|K].
      - bools. change (Z.shiftl 192 6) with 12288 in K. lia.
      - right. right. apply IH; [cbn [length] in Hn; lia | exact K]. }
    destruct (ch <? 240) eqn:A3.
    { destruct s1 as [|ch2 s2]; [intros []|].
      destruct (negb (is_continuation ch2)
                || (if ch2 <? 160 then ch =? 224 else ch =? 237)) eqn:C2;
        [exact K1|].
      destruct s2 as [|ch3 s3]; [intros []|].
      assert (K2 : In 0xFFFD (utf8_decode Ignore (ch3 :: s3))
                   -> In 0xEF (ch :: ch2 :: ch3 :: s3)).
      { intros K. right. right. apply IH; [cbn [length] in *; lia | exact K]. }
      destruct (negb (is_continuation ch3)) eqn:C3; [exact K2|].
      unfold is_continuation in *. rewrite shiftl_12, shiftl_6.
      intros [K|K].
      - left. bools.
        change (Z.shiftl 224 12 + Z.shiftl 128 6 + 128) with 925824 in K. lia.
      - right. right. right. apply IH; [cbn [length] in *; lia | exact K]. }
    destruct (ch <? 245) eqn:A4; [|exact K1].
    destruct s1 as [|ch2 s2]; [intros []|].
    destruct (negb (is_continuation ch2)
              || (if ch2 <? 144 then ch =? 240 else ch =? 244)) eqn:C2;
      [exact K1|].
    destruct s2 as [|ch3 s3]; [intros []|].
    assert (K2 : In 0xFFFD (utf8_decode Ignore (ch3 :: s3))
                 -> In 0xEF (ch :: ch2 :: ch3 :: s3)).
    { intros K. right. right. apply IH; [cbn [length] in *; lia | exact K]. }
    destruct (negb (is_continuation ch3)) eqn:C3; [exact K2|].
    destruct s3 as [|ch4 s4]; [intros []|].
    assert (K3 : In 0xFFFD (utf8_decode Ignore (ch4 :: s4))
                 -> In 0xEF (ch :: ch2 :: ch3 :: ch4 :: s4)).
    { intros K. do 3 right. apply IH; [cbn [length] in *; lia | exact K]. }
    destruct (negb (is_continuation ch4)) eqn:C4; [exact K3|].
    unfold is_continuation in *. rewrite shiftl_18, shiftl_12, shiftl_6.
    intros [K|K].
    + exfalso. bools.
      change (Z.shiftl 240 18 + Z.shiftl 128 12 + Z.shiftl 128 6 + 128)
        with 63447168 in K.
      destruct (ch2 <? 144) eqn:D; bools; lia.
    + do 4 right. apply IH; [cbn [length] in *; lia | exact K].
Qed.

Lemma byte_val_xef (x : byte) : byte_val x = 0xEF -> x = xef.
Proof.
  intros H. destruct x; try reflexivity; vm_compute in H; discriminate.
Qed.

(** A U+FFFD in a string decoded with ['ignore'] was encoded in the
    bytes; the decoder never supplies one. *)
Lemma decode_ignore_no_replacement (bs : list byte) :
  In 0xFFFD (decode Ignore bs) -> In xef bs.
Proof.
  intros H. unfold decode in H.
  apply (decode_ignore_no_replacement_aux (length (map byte_val bs))) in H;
    [|lia].
  apply in_map_iff in H. destruct H as [x [Hx Hin]].
  apply byte_val_xef in Hx. subst x. exact Hin.
Qed.

(** A byte that cannot start a sequence leaves no trace. *)
Lemma decode_ignore_invalid_start (x : byte) (rest : list byte) :
  0x80 <= byte_val x < 0xC2 \/ 0xF5 <= byte_val x ->
  decode Ignore (x :: rest) = decode Ignore rest.
Proof.
  intros H. unfold decode. cbn [map utf8_decode on_error app].
  destruct (byte_val x <? 128) eqn:A1; [apply Z.ltb_lt in A1; lia|].
  destruct (byte_val x <? 224) eqn:A2.
  - destruct (byte_val x <? 194) eqn:A3; [reflexivity|].
    apply Z.ltb_lt in A2. apply Z.ltb_ge in A3. lia.
  - destruct (byte_val x <? 240) eqn:A3; [apply Z.ltb_lt in A3; lia|].
    destruct (byte_val x <? 245) eqn:A4; [apply Z.ltb_lt in A4; lia|].
    reflexivity.
Qed.

End Decoder.

(** ** Column headers *)

Section HeaderSlots.

(** The test the header loops make on a stored index, against the bias
    rule, for an index the rule covers. *)
Lemma header_test_hit table i :
  plain_index i ->
  negb (i =? 0) && (i - 9 <? len table) = true ->
  exists value, lookup table i = Some value /\ getitem table (i - 9) = Ok value.
Proof.
  intros P H. apply andb_true_iff in H. destruct H as [H1 H2].
  apply negb_true_iff, Z.eqb_neq in H1. apply Z.ltb_lt in H2.
  assert (9 <= i) by (destruct P; lia).
  apply lookup_hit. apply andb_true_iff. split.
  - apply Z.leb_le. lia.
  - apply Z.ltb_lt. lia.
Qed.

Lemma header_test_miss table i :
  negb (i =? 0) && (i - 9 <? len table) = false -> lookup table i = None.
Proof.
  intros H. apply andb_false_iff in H. destruct H as [H|H].
  - apply negb_false_iff, Z.eqb_eq in H. subst i. reflexivity.
  - apply lookup_miss. apply andb_false_iff. right. exact H.
Qed.

Lemma getitem_middle {A} (pre : list A) x post :
  getitem (pre ++ x :: post) (len pre) = Ok x.
Proof.
  destruct (getitem_inside (pre ++ x :: post) (len pre)) as [y [N G]].
  - apply len_nonneg.
  - rewrite len_app. unfold len. cbn [length]. lia.
  - rewrite G. f_equal. unfold len in N. rewrite Nat2Z.id in N.
    rewrite nth_error_app2 in N by lia. rewrite Nat.sub_diag in N.
    inversion N. reflexivity.
Qed.

Lemma set_nth_middle {A} (pre : list A) x post y :
  set_nth (pre ++ x :: post) (length pre) y = pre ++ y :: post.
Proof.
  induction pre as [|h t IH]; cbn [app length set_nth]; [reflexivity|].
  f_equal. exact IH.
Qed.

Lemma setitem_middle {A} (pre : list A) x post y :
  setitem (pre ++ x :: post) (len pre) y = Ok (pre ++ y :: post).
Proof.
  unfold setitem. pose proof (len_nonneg pre) as Hp.
  destruct (len pre <? 0) eqn:E; [apply Z.ltb_lt in E; lia|].
  rewrite E. cbn [orb].
  destruct (len (pre ++ x :: post) <=? len pre) eqn:E'.
  - apply Z.leb_le in E'. rewrite len_app in E'. unfold len in E'.
    cbn [length] in E'. lia.
  - unfold len. rewrite Nat2Z.id, set_nth_middle. reflexivity.
Qed.

Lemma length_set_nth {A} (l : list A) n y : length (set_nth l n y) = length l.
Proof.
  revert n. induction l as [|h t IH]; intros [|n]; cbn [set_nth length];
    try reflexivity.
  f_equal. apply IH.
Qed.

Lemma setitem_length {A} (l l' : list A) k y :
  setitem l k y = Ok l' -> length l' = length l.
Proof.
  unfold setitem. destruct (_ || _); [discriminate|].
  intros H. inversion H. apply length_set_nth.
Qed.

Lemma firstn_skipn_middle {A} (n : nat) (l : list A) :
  (n < length l)%nat ->
  exists pre x post, l = pre ++ x :: post /\ length pre = n.
Proof.
  intros H. destruct (nth_error l n) as [x|] eqn:N.
  - apply nth_error_split in N. destruct N as [pre [post [E L]]].
    exists pre, x, post. auto.
  - apply nth_error_None in N. lia.
Qed.

Lemma map_combine_self {A B C} (f : A -> B) (g : B -> A -> C) (l : list A) :
  map (fun p => g (fst p) (snd p)) (combine (map f l) l)
  = map (fun a => g (f a) a) l.
Proof.
  induction l as [|a l IH]; cbn [map combine fst snd]; [reflexivity|].
  f_equal. exact IH.
Qed.

End HeaderSlots.

Section VerboseHeaders.

Import X431Parser.

Variable self : parser.
Variable base : Z.
Hypothesis base_nonneg : 0 <= base.

Lemma primary_pass_closed n :
  forall i names,
    base + 4 * Z.of_nat (i + n) <= len (file_data self) ->
    (forall c, (i <= c < i + n)%nat ->
               plain_index (slot_index (file_data self) (base + 4 * Z.of_nat c))) ->
    primary_pass self n (Z.of_nat i) (base + 4 * Z.of_nat i) names
    = Ok (names ++ map (primary_text self base) (seq i n), base + 4 * Z.of_nat (i + n)).
Proof.
  induction n as [|n IH]; intros i names Hlen Hp.
  - cbn [primary_pass seq map]. rewrite app_nil_r, Nat.add_0_r. reflexivity.
  - cbn [primary_pass seq map]. unfold _read_uint16.
    rewrite unpack_from_inside by lia. cbn [bind].
    replace (Z.of_nat i + 1) with (Z.of_nat (S i)) by lia.
    replace (base + 4 * Z.of_nat i + 4) with (base + 4 * Z.of_nat (S i)) by lia.
    replace (i + S n)%nat with (S i + n)%nat by lia.
    assert (Hi : plain_index (field 2 (file_data self) (base + 4 * Z.of_nat i)))
      by (apply Hp; lia).
    destruct (negb (field 2 (file_data self) (base + 4 * Z.of_nat i) =? 0)
              && (field 2 (file_data self) (base + 4 * Z.of_nat i) - 9
                  <? len (point_values self))) eqn:V.
    + destruct (header_test_hit _ _ Hi V) as [value [L G]].
      rewrite G. cbn [bind]. rewrite IH.
      * rewrite <- app_assoc. cbn [app]. unfold primary_text at 2.
        unfold named, slot_index. rewrite L.
        replace (Z.of_nat i + 1) with (Z.of_nat (S i)) by lia. reflexivity.
      * lia.
      * intros c Hc. apply Hp. lia.
    + rewrite IH.
      * rewrite <- app_assoc. cbn [app]. unfold primary_text at 2.
        unfold named, slot_index. rewrite (header_test_miss _ _ V).
        replace (Z.of_nat i + 1) with (Z.of_nat (S i)) by lia. reflexivity.
      * lia.
      * intros c Hc. apply Hp. lia.
Qed.

Lemma secondary_pass_closed n :
  forall i pre todo,
    length pre = S i -> length todo = n ->
    base + 4 * Z.of_nat (i + n) <= len (file_data self) ->
    (forall c, (i <= c < i + n)%nat ->
               plain_index (slot_index (file_data self) (base + 4 * Z.of_nat c))) ->
    secondary_pass self n (Z.of_nat i) (base + 4 * Z.of_nat i) (pre ++ todo)
    = Ok (pre ++ map (fun p => fst p ++ secondary_text self base (snd p))
                     (combine todo (seq i n)),
          base + 4 * Z.of_nat (i + n)).
Proof.
  induction n as [|n IH]; intros i pre todo Hpre Htodo Hlen Hp.
  - destruct todo; [|discriminate].
    cbn [secondary_pass seq combine map]. rewrite Nat.add_0_r. reflexivity.
  - destruct todo as [|h todo]; [discriminate|].
    cbn [secondary_pass seq combine map fst snd]. unfold _read_uint16.
    rewrite unpack_from_inside by lia. cbn [bind].
    replace (Z.of_nat i + 1) with (len pre) by (unfold len; lia).
    replace (base + 4 * Z.of_nat i + 4) with (base + 4 * Z.of_nat (S i)) by lia.
    replace (i + S n)%nat with (S i + n)%nat by lia.
    assert (Hi : plain_index (field 2 (file_data self) (base + 4 * Z.of_nat i)))
      by (apply Hp; lia).
    assert (Hnext : forall h', 
               secondary_pass self n (len pre) (base + 4 * Z.of_nat (S i))
                              (pre ++ h' :: todo)
               = Ok (pre ++ h' :: map (fun p => fst p ++ secondary_text self base (snd p))
                                     (combine todo (seq (S i) n)),
                     base + 4 * Z.of_nat (S i + n))).
    { intros h'. replace (len pre) with (Z.of_nat (S i)) by (unfold len; lia).
      replace (pre ++ h' :: todo) with ((pre ++ [h']) ++ todo)
        by (rewrite <- app_assoc; reflexivity).
      rewrite IH.
      - rewrite <- app_assoc. reflexivity.
      - rewrite length_app. cbn [length]. lia.
      - cbn [length] in Htodo. lia.
      - lia.
      - intros c Hc. apply Hp. lia. }
    destruct (negb (field 2 (file_data self) (base + 4 * Z.of_nat i) =? 0)
              && (field 2 (file_data self) (base + 4 * Z.of_nat i) - 9
                  <? len (point_values self))) eqn:V.
    + destruct (header_test_hit _ _ Hi V) as [value [L G]].
      rewrite getitem_middle. cbn [bind]. rewrite G. cbn [bind].
      rewrite setitem_middle. cbn [bind]. rewrite Hnext.
      unfold secondary_text at 2. unfold named, slot_index. rewrite L. reflexivity.
    + rewrite Hnext.
      unfold secondary_text at 2. unfold named, slot_index.
      rewrite (header_test_miss _ _ V), app_nil_r. reflexivity.
Qed.

End VerboseHeaders.

Section VerboseHeaderLengths.

Import X431Parser.

Lemma primary_pass_length self n :
  forall i off names r,
    primary_pass self n i off names = Ok r ->
    length (fst r) = (length names + n)%nat.
Proof.
  induction n as [|n IH]; intros i off names r H.
  - inversion H. cbn [fst]. lia.
  - cbn [primary_pass] in H.
    destruct (_read_uint16 (file_data self) off) as [index|]; [|discriminate].
    cbn [bind] in H.
    destruct (negb (index =? 0) && (index - 9 <? len (point_values self))).
    + destruct (getitem (point_values self) (index - 9)); [|discriminate].
      cbn [bind] in H. apply IH in H. rewrite H, length_app. cbn [length]. lia.
    + apply IH in H. rewrite H, length_app. cbn [length]. lia.
Qed.

Lemma secondary_pass_length self n :
  forall i off names r,
    secondary_pass self n i off names = Ok r ->
    length (fst r) = length names.
Proof.
  induction n as [|n IH]; intros i off names r H.
  - inversion H. reflexivity.
  - cbn [secondary_pass] in H.
    destruct (_read_uint16 (file_data self) off) as [index|]; [|discriminate].
    cbn [bind] in H.
    destruct (negb (index =? 0) && (index - 9 <? len (point_values self))).
    + destruct (getitem names (i + 1)); [|discriminate]. cbn [bind] in H.
      destruct (getitem (point_values self) (index - 9)); [|discriminate].
      cbn [bind] in H.
      destruct (setitem names (i + 1) _) as [names'|] eqn:Hs; [|discriminate].
      cbn [bind] in H. apply IH in H. rewrite H.
      apply (setitem_length _ _ _ _ Hs).
    + apply IH in H. exact H.
Qed.

Lemma extract_column_names_length self names :
  _extract_column_names self = Ok names ->
  length names = S (Z.to_nat (column_count self)).
Proof.
  unfold _extract_column_names. intros H.
  destruct (primary_pass self _ 0 312 [lit "Num"]) as [r1|] eqn:P1;
    [|discriminate].
  cbn [bind] in H.
  destruct (secondary_pass self _ 0 (snd r1) (fst r1)) as [r2|] eqn:P2;
    [|discriminate].
  cbn [bind] in H. inversion H. subst names.
  apply secondary_pass_length in P2. apply primary_pass_length in P1.
  rewrite P2, P1. reflexivity.
Qed.

(** The verbose headers in closed form, for header slots that all lie in
    the buffer and hold indices the bias rule covers. *)
Lemma extract_column_names_closed self :
  0 <= column_count self ->
  0x138 + 8 * column_count self <= len (file_data self) ->
  (forall c, In c (channels self) ->
             plain_index (primary_index self c)
             /\ plain_index (secondary_index self c)) ->
  _extract_column_names self
  = Ok (lit "Num" :: map (verbose_header self) (channels self)).
Proof.
  intros Hc Hlen Hp. unfold _extract_column_names, channels in *.
  set (n := Z.to_nat (column_count self)) in *.
  assert (Hn : Z.of_nat n = column_count self) by (apply Z2Nat.id; exact Hc).
  pose proof (primary_pass_closed self 0x138 ltac:(lia) n 0 [lit "Num"]) as P1.
  change (Z.of_nat 0) with 0 in P1. change (312 + 4 * 0) with 312 in P1.
  rewrite P1; cycle 1.
  { cbn [Nat.add]. lia. }
  { intros c Hin. apply Hp. apply in_seq. lia. }
  cbn [bind fst snd Nat.add app].
  pose proof (secondary_pass_closed self (0x138 + 4 * Z.of_nat n) ltac:(lia)
                n 0 [lit "Num"] (map (primary_text self 0x138) (seq 0 n))) as P2.
  change (Z.of_nat 0) with 0 in P2.
  replace (312 + 4 * Z.of_nat n + 4 * 0) with (312 + 4 * Z.of_nat n) in P2 by lia.
  cbn [app] in P2. rewrite P2; cycle 1.
  { reflexivity. }
  { rewrite length_map, length_seq. reflexivity. }
  { cbn [Nat.add]. lia. }
  { intros c Hin. unfold secondary_index, pass2 in Hp. rewrite Hn.
    apply Hp. apply in_seq. lia. }
  cbn [bind fst]. do 2 f_equal.
  rewrite (map_combine_self (primary_text self 312)
             (fun h c => h ++ secondary_text self (312 + 4 * Z.of_nat n) c)).
  apply map_ext. intros c.
  unfold verbose_header, pass1, pass2. rewrite Hn. reflexivity.
Qed.

End VerboseHeaderLengths.

Section CleanHeaders.

Import X431CleanParser.

Variable self : parser.
Variable base : Z.
Hypothesis base_nonneg : 0 <= base.

Lemma param_pass_closed n :
  forall i names,
    base + 4 * Z.of_nat (i + n) <= len (file_data self) ->
    (forall c, (i <= c < i + n)%nat ->
               plain_index (slot_index (file_data self) (base + 4 * Z.of_nat c))) ->
    param_pass self n (Z.of_nat i) (base + 4 * Z.of_nat i) names
    = Ok (names ++ map (param_text self base) (seq i n),
          base + 4 * Z.of_nat (i + n)).
Proof.
  induction n as [|n IH]; intros i names Hlen Hp.
  - cbn [param_pass seq map]. rewrite app_nil_r, Nat.add_0_r. reflexivity.
  - cbn [param_pass seq map]. unfold _read_uint16.
    rewrite unpack_from_inside by lia. cbn [bind].
    replace (Z.of_nat i + 1) with (Z.of_nat (S i)) by lia.
    replace (base + 4 * Z.of_nat i + 4) with (base + 4 * Z.of_nat (S i)) by lia.
    replace (i + S n)%nat with (S i + n)%nat by lia.
    assert (Hi : plain_index (field 2 (file_data self) (base + 4 * Z.of_nat i)))
      by (apply Hp; lia).
    destruct (negb (field 2 (file_data self) (base + 4 * Z.of_nat i) =? 0)
              && (field 2 (file_data self) (base + 4 * Z.of_nat i) - 9
                  <? len (point_values self))) eqn:V.
    + destruct (header_test_hit _ _ Hi V) as [value [L G]].
      rewrite G. cbn [bind]. rewrite IH.
      * rewrite <- app_assoc. cbn [app]. unfold param_text at 2.
        unfold named, slot_index. rewrite L. reflexivity.
      * lia.
      * intros c Hc. apply Hp. lia.
    + rewrite IH.
      * rewrite <- app_assoc. cbn [app]. unfold param_text at 2.
        unfold named, slot_index. rewrite (header_test_miss _ _ V).
        replace (Z.of_nat i + 1) with (Z.of_nat (S i)) by lia. reflexivity.
      * lia.
      * intros c Hc. apply Hp. lia.
Qed.

Lemma unit_pass_closed n :
  forall i units,
    base + 4 * Z.of_nat (i + n) <= len (file_data self) ->
    (forall c, (i <= c < i + n)%nat ->
               plain_index (slot_index (file_data self) (base + 4 * Z.of_nat c))) ->
    unit_pass self n (Z.of_nat i) (base + 4 * Z.of_nat i) units
    = Ok (units ++ map (unit_text self base) (seq i n),
          base + 4 * Z.of_nat (i + n)).
Proof.
  induction n as [|n IH]; intros i units Hlen Hp.
  - cbn [unit_pass seq map]. rewrite app_nil_r, Nat.add_0_r. reflexivity.
  - cbn [unit_pass seq map]. unfold _read_uint16.
    rewrite unpack_from_inside by lia. cbn [bind].
    replace (Z.of_nat i + 1) with (Z.of_nat (S i)) by lia.
    replace (base + 4 * Z.of_nat i + 4) with (base + 4 * Z.of_nat (S i)) by lia.
    replace (i + S n)%nat with (S i + n)%nat by lia.
    assert (Hi : plain_index (field 2 (file_data self) (base + 4 * Z.of_nat i)))
      by (apply Hp; lia).
    destruct (negb (field 2 (file_data self) (base + 4 * Z.of_nat i) =? 0)
              && (field 2 (file_data self) (base + 4 * Z.of_nat i) - 9
                  <? len (point_values self))) eqn:V.
    + destruct (header_test_hit _ _ Hi V) as [value [L G]].
      rewrite G. cbn [bind]. rewrite IH.
      * rewrite <- app_assoc. cbn [app]. unfold unit_text at 2.
        unfold named, slot_index. rewrite L. reflexivity.
      * lia.
      * intros c Hc. apply Hp. lia.
    + rewrite IH.
      * rewrite <- app_assoc. cbn [app]. unfold unit_text at 2.
        unfold named, slot_index. rewrite (header_test_miss _ _ V).
        reflexivity.
      * lia.
      * intros c Hc. apply Hp. lia.
Qed.

End CleanHeaders.

Section CleanColumnNames.

Import X431CleanParser.

Lemma clean_parameter_name_normalize name :
  _clean_parameter_name name = normalize name.
Proof. destruct name; reflexivity. Qed.

Lemma fold_left_append {A B} (f : A -> B) (l : list A) :
  forall init,
    fold_left (fun acc a => acc ++ [f a]) l init = init ++ map f l.
Proof.
  induction l as [|a l IH]; intros init; cbn [fold_left map].
  - rewrite app_nil_r. reflexivity.
  - rewrite IH, <- app_assoc. reflexivity.
Qed.

Lemma combine_map_map {A B C} (f : A -> B) (g : A -> C) (l : list A) :
  combine (map f l) (map g l) = map (fun a => (f a, g a)) l.
Proof.
  induction l as [|a l IH]; cbn [map combine]; [reflexivity|].
  f_equal. exact IH.
Qed.

(** The clean headers in closed form, under the conditions of
    [extract_column_names_closed]. *)
Lemma clean_column_names_closed self :
  0 <= column_count self ->
  0x138 + 8 * column_count self <= len (file_data self) ->
  (forall c, In c (channels self) ->
             plain_index (primary_index self c)
             /\ plain_index (secondary_index self c)) ->
  _extract_column_names self
  = Ok (lit "Row" :: map (clean_header self) (channels self)).
Proof.
  intros Hc Hlen Hp. unfold _extract_column_names, channels in *.
  set (n := Z.to_nat (column_count self)) in *.
  assert (Hn : Z.of_nat n = column_count self) by (apply Z2Nat.id; exact Hc).
  pose proof (param_pass_closed self 0x138 ltac:(lia) n 0 []) as P1.
  change (Z.of_nat 0) with 0 in P1. change (312 + 4 * 0) with 312 in P1.
  rewrite P1; cycle 1.
  { cbn [Nat.add]. lia. }
  { intros c Hin. apply Hp. apply in_seq. lia. }
  cbn [bind fst snd Nat.add app].
  pose proof (unit_pass_closed self (0x138 + 4 * Z.of_nat n) ltac:(lia)
                n 0 []) as P2.
  change (Z.of_nat 0) with 0 in P2.
  replace (312 + 4 * Z.of_nat n + 4 * 0) with (312 + 4 * Z.of_nat n) in P2 by lia.
  rewrite P2; cycle 1.
  { cbn [Nat.add]. lia. }
  { intros c Hin. unfold secondary_index, pass2 in Hp. rewrite Hn.
    apply Hp. apply in_seq. lia. }
  cbn [bind fst snd app].
  rewrite combine_map_map.
  rewrite (fold_left_append (fun pu => col_name (fst pu) (snd pu))).
  cbn [app]. do 2 f_equal. rewrite map_map. apply map_ext. intros c.
  cbn [fst snd]. unfold col_name, clean_header, pass1, pass2.
  rewrite !clean_parameter_name_normalize, Hn. reflexivity.
Qed.

Lemma param_pass_length self n :
  forall i off names r,
    param_pass self n i off names = Ok r ->
    length (fst r) = (length names + n)%nat.
Proof.
  induction n as [|n IH]; intros i off names r H.
  - inversion H. cbn [fst]. lia.
  - cbn [param_pass] in H.
    destruct (_read_uint16 (file_data self) off) as [index|]; [|discriminate].
    cbn [bind] in H.
    destruct (negb (index =? 0) && (index - 9 <? len (point_values self))).
    + destruct (getitem (point_values self) (index - 9)); [|discriminate].
      cbn [bind] in H. apply IH in H. rewrite H, length_app. cbn [length]. lia.
    + apply IH in H. rewrite H, length_app. cbn [length]. lia.
Qed.

Lemma unit_pass_length self n :
  forall i off units r,
    unit_pass self n i off units = Ok r ->
    length (fst r) = (length units + n)%nat.
Proof.
  induction n as [|n IH]; intros i off units r H.
  - inversion H. cbn [fst]. lia.
  - cbn [unit_pass] in H.
    destruct (_read_uint16 (file_data self) off) as [index|]; [|discriminate].
    cbn [bind] in H.
    destruct (negb (index =? 0) && (index - 9 <? len (point_values self))).
    + destruct (getitem (point_values self) (index - 9)); [|discriminate].
      cbn [bind] in H. apply IH in H. rewrite H, length_app. cbn [length]. lia.
    + apply IH in H. rewrite H, length_app. cbn [length]. lia.
Qed.

Lemma clean_column_names_length self names :
  _extract_column_names self = Ok names ->
  length names = S (Z.to_nat (column_count self)).
Proof.
  unfold _extract_column_names. intros H.
  destruct (param_pass self _ 0 312 []) as [r1|] eqn:P1; [|discriminate].
  cbn [bind] in H.
  destruct (unit_pass self _ 0 (snd r1) []) as [r2|] eqn:P2; [|discriminate].
  cbn [bind] in H. inversion H. subst names.
  apply param_pass_length in P1. apply unit_pass_length in P2.
  rewrite (fold_left_append (fun pu => col_name (fst pu) (snd pu))).
  rewrite length_app, length_map, length_combine, P1, P2.
  cbn [length]. lia.
Qed.

End CleanColumnNames.

(** ** The two parsers side by side *)

Section SideBySide.

Lemma first_passes_agree self n :
  forall i off names params,
    position (X431Parser.primary_pass self n i off names)
    = position (X431CleanParser.param_pass self n i off params).
Proof.
  induction n as [|n IH]; intros i off names params; [reflexivity|].
  cbn [X431Parser.primary_pass X431CleanParser.param_pass].
  change (X431CleanParser._read_uint16 (file_data self) off)
    with (X431Parser._read_uint16 (file_data self) off).
  destruct (X431Parser._read_uint16 (file_data self) off) as [index|];
    [|reflexivity].
  cbn [bind].
  destruct (negb (index =? 0) && (index - 9 <? len (point_values self)));
    [|apply IH].
  destruct (getitem (point_values self) (index - 9)); [|reflexivity].
  cbn [bind]. apply IH.
Qed.

Lemma second_passes_agree self n :
  forall i off names units,
    (i + n < length names)%nat ->
    position (X431Parser.secondary_pass self n (Z.of_nat i) off names)
    = position (X431CleanParser.unit_pass self n (Z.of_nat i) off units).
Proof.
  induction n as [|n IH]; intros i off names units Hl; [reflexivity|].
  cbn [X431Parser.secondary_pass X431CleanParser.unit_pass].
  change (X431CleanParser._read_uint16 (file_data self) off)
    with (X431Parser._read_uint16 (file_data self) off).
  destruct (X431Parser._read_uint16 (file_data self) off) as [index|];
    [|reflexivity].
  cbn [bind]. replace (Z.of_nat i + 1) with (Z.of_nat (S i)) by lia.
  destruct (negb (index =? 0) && (index - 9 <? len (point_values self)));
    [|apply IH; lia].
  destruct (firstn_skipn_middle (S i) names) as [pre [x [post [E Lp]]]];
    [lia|].
  replace (Z.of_nat (S i)) with (len pre) by (unfold len; lia).
  rewrite E, getitem_middle. cbn [bind].
  destruct (getitem (point_values self) (index - 9)); [|reflexivity].
  cbn [bind]. rewrite setitem_middle. cbn [bind].
  replace (len pre) with (Z.of_nat (S i)) by (unfold len; lia).
  apply IH. rewrite E in Hl. rewrite !length_app in *. cbn [length] in *. lia.
Qed.


Lemma header_outcomes_agree self :
  outcome (X431Parser._extract_column_names self)
  = outcome (X431CleanParser._extract_column_names self).
Proof.
  unfold X431Parser._extract_column_names,
         X431CleanParser._extract_column_names.
  pose proof (first_passes_agree self (Z.to_nat (column_count self)) 0 312
                [lit "Num"] []) as P1.
  destruct (X431Parser.primary_pass self _ 0 312 [lit "Num"])
    as [r1|e1] eqn:V1;
    destruct (X431CleanParser.param_pass self _ 0 312 []) as [q1|f1] eqn:C1;
    cbn [position bind] in P1; try discriminate.
  2:{ inversion P1. reflexivity. }
  inversion P1 as [Hpos]. cbn [bind]. rewrite <- Hpos.
  apply primary_pass_length in V1.
  pose proof (second_passes_agree self (Z.to_nat (column_count self)) 0
                (snd r1) (fst r1) []) as P2.
  change (Z.of_nat 0) with 0 in P2.
  destruct (X431Parser.secondary_pass self _ 0 (snd r1) (fst r1))
    as [r2|e2] eqn:V2;
    destruct (X431CleanParser.unit_pass self _ 0 (snd r1) []) as [q2|f2] eqn:C2;
    cbn [position bind] in P2.
  - reflexivity.
  - specialize (P2 ltac:(cbn [length] in V1; lia)). discriminate.
  - specialize (P2 ltac:(cbn [length] in V1; lia)). discriminate.
  - specialize (P2 ltac:(cbn [length] in V1; lia)). inversion P2. reflexivity.
Qed.

End SideBySide.

(** ** The properties of the specification *)

Import Sample.

(** The sample parser objects hold what the extraction methods give on
    their files. *)
Lemma sample_parsers_extracted :
  Forall (fun self =>
            X431Parser._extract_channel_count (file_data self)
            = Ok (column_count self)
            /\ X431Parser._extract_point_values (file_data self)
               = Some (Ok (point_values self)))
         [demo_parser; cut_short_parser; unit_unknown_parser; unnamed_parser;
          abbreviated_parser].
Proof. repeat constructor; vm_compute; reflexivity. Qed.

(** C1, as the code has it.  A stored header index from 1 to 8 passes
    the test [index != 0 and index - 9 < len(point_values)] of
    [_extract_column_names] and is used as a negative subscript: with an
    empty table the parse ends in [IndexError]; with the four-string table,
    index 8 names the last string, and the header is "1. rpm", not
    "1. Unknown". *)
Theorem low_header_index_escapes_placeholder :
  field 2 low_index_empty 0x138 = 5
  /\ X431Parser._extract_point_values low_index_empty = Some (Ok [])
  /\ X431Parser.parse low_index_empty = Some (Raise IndexError)
  /\ field 2 low_index 0x138 = 8
  /\ X431Parser._extract_point_values low_index
     = Some (Ok [lit "Speed"; lit "RPM"; lit "km/h"; lit "rpm"])
  /\ X431Parser.parse low_index
     = Some (Ok ([lit "Num"; lit "1. rpm"], [[lit "1"; lit "Speed"]])).
Proof. repeat split; vm_compute; reflexivity. Qed.

(** C2, as stated, fails on the two-channel sample: reading the record
    count 8 bytes past the pointer, and the cells 8 bytes further, gives one
    row where [_extract_data_rows] gives two. *)
Lemma record_count_not_past_pointer :
  field 2 demo 0x11c = 373
  /\ field 4 demo (373 + 8) = 17
  /\ field 4 demo (373 + 8 + 8) = 9
  /\ X431Parser._extract_data_rows demo_parser
     = Ok [[lit "1"; lit "Speed"; lit "RPM"]; [lit "2"; lit "km/h"; lit "rpm"]]
  /\ Claimed.extract_data_rows demo_parser
     = Ok [[lit "1"; lit "km/h"; lit "rpm"]].
Proof. repeat split; vm_compute; reflexivity. Qed.

(** C2, amended.  With [v] the 16-bit value at 0x11c, the record count is
    the 32-bit value at the pointer [v + 8] itself, and the cell slots start
    8 bytes after the start of the record count, at [v + 16]: the rows are
    those of the cell area at [v + 16], [count / 4 / channels] of them. *)
Theorem data_section_layout (self : parser) :
  0x11c + 2 <= len (file_data self) ->
  field 2 (file_data self) 0x11c + 8 + 4 <= len (file_data self) ->
  0 < column_count self ->
  X431Parser._extract_data_rows self
  = Ok (map (data_row self (field 2 (file_data self) 0x11c + 8 + 8))
            (seq 0 (Z.to_nat (field 4 (file_data self)
                                     (field 2 (file_data self) 0x11c + 8)
                              / 4 / column_count self)))).
Proof.
  intros H1 H2 Hc.
  pose proof (field_nonneg 2 (file_data self) 0x11c) as Hv.
  rewrite (extract_data_rows_closed self (field 2 (file_data self) 0x11c)
             (field 4 (file_data self) (field 2 (file_data self) 0x11c + 8))).
  - replace (field 2 (file_data self) 284 + 8 + 8)
      with (field 2 (file_data self) 284 + 16) by lia.
    reflexivity.
  - apply unpack_from_inside; lia.
  - apply unpack_from_inside; lia.
  - exact Hc.
Qed.

Lemma data_section_layout_witness :
  0x11c + 2 <= len (file_data demo_parser)
  /\ X431Parser._extract_data_rows demo_parser
     = Ok (map (data_row demo_parser 389) (seq 0 2)).
Proof.
  split; [vm_compute; discriminate|].
  apply (data_section_layout demo_parser); vm_compute; congruence.
Defined.

(** C4, as stated, fails on the sample whose string table runs to the last
    byte of the file: the loop of [_extract_point_values] ends there with
    the table, although no length can be read at that offset; a loop that
    reads a length on every turn ends in [struct.error]. *)
Lemma table_ends_without_length :
  len table_at_end = 360
  /\ X431Parser._extract_point_values table_at_end = Some (Ok [lit "Speed"])
  /\ X431Parser.read_point_values 1 table_at_end 360 [lit "Speed"]
     = Some (Ok [lit "Speed"])
  /\ X431Parser._read_uint16 table_at_end 360 = Raise StructError
  /\ Claimed.extract_point_values table_at_end = Some (Raise StructError).
Proof. repeat split; vm_compute; reflexivity. Qed.

(** C4, amended.  The builder reads the 32-bit length [L0] at 0x0c, passes
    [4 + L0] bytes and then eight sections, each by its own 16-bit length;
    from the offset it reaches, the table is the one the layout defines, and
    no other: the run of entries ends where fewer than 2 bytes are left for
    a length, where [L < 3], or where fewer than [L - 2] bytes follow the
    length, and every entry before that gives its [(L - 3)]-byte payload and
    moves the offset [L - 2] bytes past the length. *)
Theorem string_table_layout (data : list byte) (off : Z) :
  0x0c + 4 <= len data ->
  sections data 8 (0x0c + 4 + field 4 data 0x0c) off ->
  exists table,
    X431Parser._extract_point_values data = Some (Ok table)
    /\ table_from data off table
    /\ forall table', table_from data off table' -> table' = table.
Proof.
  intros Hlen Hs.
  pose proof (field_nonneg 4 data 0x0c) as H0.
  assert (Hstart : 0 <= 0x0c + 4 + field 4 data 0x0c) by lia.
  destruct (skip_sections_sections data 8 _ off Hstart Hs) as [Hk Hoff].
  destruct (read_point_values_table data (S (length data)) off [] Hoff)
    as [table [H T]]; [unfold len; lia|].
  exists table. split; [|split].
  - unfold X431Parser._extract_point_values, X431Parser._read_uint32.
    rewrite unpack_from_inside by lia.
    replace (12 + (4 + field 4 data 12)) with (12 + 4 + field 4 data 12) by lia.
    rewrite Hk. exact H.
  - exact T.
  - intros table' T'. apply (table_from_unique _ _ _ T' _ T).
Qed.

Lemma string_table_layout_witness :
  sections table_at_end 8 (0x0c + 4 + field 4 table_at_end 0x0c) 0x160
  /\ exists table,
       X431Parser._extract_point_values table_at_end = Some (Ok table)
       /\ table_from table_at_end 0x160 table
       /\ forall table', table_from table_at_end 0x160 table' -> table' = table.
Proof.
  assert (Hs : sections table_at_end 8
                        (0x0c + 4 + field 4 table_at_end 0x0c) 0x160).
  { change (0x0c + 4 + field 4 table_at_end 0x0c) with 0x150.
    do 8 (apply sections_S; [vm_compute; discriminate|];
          match goal with
          | |- sections _ _ ?x _ =>
            let y := eval vm_compute in x in change x with y
          end).
    apply sections_O. }
  split; [exact Hs|].
  apply (string_table_layout table_at_end 0x160); [vm_compute; discriminate|].
  exact Hs.
Defined.

(** C7.  With at least one channel, and [record_count] the 32-bit value
    read 8 bytes past the 16-bit value [v] of offset 0x11c, the decoder
    returns rows, without raising, and their number is
    [(record_count / 4) / channel_count] with both divisions rounding down:
    the records left over after the last full row give no row. *)
Theorem row_count (self : parser) (v record_count : Z) :
  1 <= column_count self ->
  X431Parser._read_uint16 (file_data self) 0x11c = Ok v ->
  X431Parser._read_uint32 (file_data self) (v + 8) = Ok record_count ->
  exists rows,
    X431Parser._extract_data_rows self = Ok rows
    /\ len rows = record_count / 4 / column_count self
    /\ 4 * column_count self * len rows <= record_count
       < 4 * column_count self * (len rows + 1).
Proof.
  intros Hc Hv Hrc.
  rewrite (extract_data_rows_closed self v record_count Hv Hrc) by lia.
  eexists. split; [reflexivity|].
  pose proof (unpack_from_nonneg _ _ _ _ Hrc) as H0.
  assert (Hq : 0 <= record_count / 4 / column_count self).
  { apply Z.div_pos; [apply Z.div_pos|]; lia. }
  unfold len. rewrite length_map, length_seq, Z2Nat.id by exact Hq.
  split; [reflexivity|].
  rewrite Z.div_div by lia.
  pose proof (Z.div_mod record_count (4 * column_count self) ltac:(lia)) as D.
  pose proof (Z.mod_pos_bound record_count (4 * column_count self) ltac:(lia)) as B.
  nia.
Qed.

Lemma row_count_witness :
  X431Parser._read_uint32 (file_data demo_parser) (373 + 8) = Ok 17
  /\ exists rows,
       X431Parser._extract_data_rows demo_parser = Ok rows
       /\ len rows = 17 / 4 / 2
       /\ 4 * 2 * len rows <= 17 < 4 * 2 * (len rows + 1).
Proof.
  split; [vm_compute; reflexivity|].
  apply (row_count demo_parser 373 17).
  - vm_compute. discriminate.
  - vm_compute. reflexivity.
  - vm_compute. reflexivity.
Defined.

(** C8.  When a parse succeeds, with either parser, the headers are one
    more than the channel count, and every row has as many cells as there
    are headers: its ordinal and one cell for each channel. *)
Theorem table_shape (data : list byte) (headers : list str)
        (rows : list (list str)) :
  X431Parser.parse data = Some (Ok (headers, rows))
  \/ X431CleanParser.parse data = Some (Ok (headers, rows)) ->
  exists count,
    X431Parser._extract_channel_count data = Ok count
    /\ len headers = count + 1
    /\ Forall (fun row => len row = count + 1) rows.
Proof.
  intros H.
  assert (K : exists count values,
             let self := {| file_data := data; point_values := values;
                            column_count := count |} in
             X431Parser._extract_channel_count data = Ok count
             /\ length headers = S (Z.to_nat count)
             /\ X431Parser._extract_data_rows self = Ok rows).
  { destruct H as [H|H].
    - unfold X431Parser.parse in H.
      destruct (X431Parser._extract_channel_count data) as [count|];
        [|discriminate].
      destruct (X431Parser._extract_point_values data) as [[values|]|];
        try discriminate.
      exists count, values. cbn zeta.
      destruct (X431Parser._extract_column_names _) as [names|] eqn:Hn;
        [|discriminate].
      cbn [bind] in H.
      destruct (X431Parser._extract_data_rows _) as [data_rows|];
        [|discriminate].
      cbn [bind] in H. inversion H. subst names data_rows.
      apply extract_column_names_length in Hn. auto.
    - unfold X431CleanParser.parse in H.
      change (X431CleanParser._extract_channel_count data)
        with (X431Parser._extract_channel_count data) in H.
      destruct (X431Parser._extract_channel_count data) as [count|];
        [|discriminate].
      destruct (X431CleanParser._extract_point_values data) as [[values|]|];
        try discriminate.
      exists count, values. cbn zeta.
      destruct (X431CleanParser._extract_column_names _) as [names|] eqn:Hn;
        [|discriminate].
      cbn [bind] in H.
      change X431CleanParser._extract_data_rows
        with X431Parser._extract_data_rows in H.
      destruct (X431Parser._extract_data_rows _) as [data_rows|];
        [|discriminate].
      cbn [bind] in H. inversion H. subst names data_rows.
      apply clean_column_names_length in Hn. auto. }
  destruct K as [count [values [Hc [Hn Hr]]]].
  set (self := {| file_data := data; point_values := values;
                  column_count := count |}) in *.
  assert (H0 : 0 <= count).
  { unfold X431Parser._extract_channel_count in Hc.
    destruct (X431Parser._read_uint8 data 308) as [b|] eqn:Hb; [|discriminate].
    apply unpack_from_nonneg in Hb. cbn [bind] in Hc. inversion Hc.
    apply Z.div_pos; lia. }
  exists count. split; [exact Hc|]. split.
  - unfold len. rewrite Hn. lia.
  - destruct (extract_data_rows_inv _ _ Hr) as [v [rc [Hv [Hrc Hne]]]].
    cbn [column_count self] in Hne.
    rewrite (extract_data_rows_closed self v rc Hv Hrc) in Hr
      by (cbn [column_count self]; lia).
    inversion Hr. apply Forall_forall. intros row Hin.
    apply in_map_iff in Hin. destruct Hin as [r [E _]]. subst row.
    apply (length_data_row self). exact H0.
Qed.

Lemma table_shape_witness :
  X431Parser.parse demo
  = Some (Ok ([lit "Num"; lit "1. Speed (km/h)"; lit "2. RPM (rpm)"],
              [[lit "1"; lit "Speed"; lit "RPM"];
               [lit "2"; lit "km/h"; lit "rpm"]]))
  /\ exists count,
       X431Parser._extract_channel_count demo = Ok count
       /\ len [lit "Num"; lit "1. Speed (km/h)"; lit "2. RPM (rpm)"] = count + 1
       /\ Forall (fun row => len row = count + 1)
                 [[lit "1"; lit "Speed"; lit "RPM"];
                  [lit "2"; lit "km/h"; lit "rpm"]].
Proof.
  split; [vm_compute; reflexivity|].
  apply (table_shape demo). left. vm_compute. reflexivity.
Defined.

(** What the closed form of the rows says cell by cell. *)
Lemma nth_error_map_seq_hit {A} (f : nat -> A) (a n k : nat) :
  (k < n)%nat -> nth_error (map f (seq a n)) k = Some (f (a + k)%nat).
Proof.
  revert a k. induction n as [|n IH]; intros a k H; [lia|].
  destruct k as [|k]; cbn [seq map nth_error].
  - f_equal. f_equal. lia.
  - rewrite IH by lia. f_equal. f_equal. lia.
Qed.

Lemma cell_at_exhausted self offset :
  len (file_data self) < offset + 2 -> cell_at self offset = lit "0".
Proof.
  intros H. unfold cell_at.
  destruct (len (file_data self) <? offset + 2) eqn:E; [reflexivity|].
  apply Z.ltb_ge in E. lia.
Qed.

Lemma nth_error_slots offset n k :
  (k < n)%nat -> nth_error (slots offset n) k = Some (offset + 4 * Z.of_nat k).
Proof.
  intros H. unfold slots. rewrite nth_error_map_seq_hit by exact H.
  reflexivity.
Qed.

Lemma map_constant {A B} (f : A -> B) (y : B) (l : list A) :
  (forall x, In x l -> f x = y) -> map f l = repeat y (length l).
Proof.
  induction l as [|x l IH]; intros H; [reflexivity|].
  cbn [map length repeat]. rewrite (H x) by (left; reflexivity).
  f_equal. apply IH. intros z Hz. apply H. right. exact Hz.
Qed.

(** C9.  With at least one channel and the two reads of the data section
    in the buffer, the decoder returns all [(record_count / 4) /
    channel_count] rows and raises nothing, wherever the buffer ends.  Each
    row has its ordinal and one cell per channel.  A cell whose two index
    bytes lie in the buffer is the string its index names (or "0"); from
    the first cell of a row with fewer than 2 bytes left at its cursor, that
    cell and every remaining cell of the row are "0", the row is emitted
    all the same, and every later row is emitted as its ordinal followed by
    "0" in every cell.  In the cell loop itself the cursor then stays where
    it is. *)
Theorem truncated_row_is_filled (self : parser) (v record_count : Z) :
  1 <= column_count self ->
  X431Parser._read_uint16 (file_data self) 0x11c = Ok v ->
  X431Parser._read_uint32 (file_data self) (v + 8) = Ok record_count ->
  (exists rows,
     X431Parser._extract_data_rows self = Ok rows
     /\ len rows = record_count / 4 / column_count self
     /\ forall r,
          Z.of_nat r < record_count / 4 / column_count self ->
          exists row,
            nth_error rows r = Some row
            /\ len row = column_count self + 1
            /\ nth_error row 0 = Some (str_of_int (Z.of_nat r + 1))
            /\ forall c cursor,
                 Z.of_nat c < column_count self ->
                 cursor = v + 16
                          + 4 * (column_count self * Z.of_nat r + Z.of_nat c) ->
                 (cursor + 2 <= len (file_data self) ->
                  nth_error row (S c)
                  = Some match lookup (point_values self)
                                      (slot_index (file_data self) cursor) with
                         | Some value => value
                         | None => lit "0"
                         end)
                 /\ (len (file_data self) < cursor + 2 ->
                     (forall k, (c <= k)%nat ->
                                Z.of_nat k < column_count self ->
                                nth_error row (S k) = Some (lit "0"))
                     /\ forall r',
                          (r < r')%nat ->
                          Z.of_nat r' < record_count / 4 / column_count self ->
                          nth_error rows r'
                          = Some (str_of_int (Z.of_nat r' + 1)
                                    :: repeat (lit "0")
                                              (Z.to_nat (column_count self)))))
  /\ forall a n off off' row row',
       X431Parser.row_cells self a off row = Ok (row', off') ->
       len (file_data self) < off' + 2 ->
       X431Parser.row_cells self (a + n) off row
       = Ok (row' ++ repeat (lit "0") n, off').
Proof.
  intros Hc Hv Hrc. split.
  - rewrite (extract_data_rows_closed self v record_count Hv Hrc) by lia.
    eexists. split; [reflexivity|].
    pose proof (unpack_from_nonneg _ _ _ _ Hrc) as H0.
    assert (Hq : 0 <= record_count / 4 / column_count self).
    { apply Z.div_pos; [apply Z.div_pos|]; lia. }
    split.
    { unfold len. rewrite length_map, length_seq, Z2Nat.id by exact Hq.
      reflexivity. }
    intros r Lr. exists (data_row self (v + 16) r).
    split; [rewrite nth_error_map_seq_hit by lia; reflexivity|].
    split; [apply length_data_row; lia|].
    split; [reflexivity|].
    intros c cursor Lc Ec. unfold data_row at 1 2. cbn [nth_error].
    assert (Hcell : forall k, Z.of_nat k < column_count self ->
              nth_error
                (map (cell_at self)
                     (slots (v + 16 + 4 * column_count self * Z.of_nat r)
                            (Z.to_nat (column_count self)))) k
              = Some (cell_at self
                        (v + 16 + 4 * (column_count self * Z.of_nat r
                                       + Z.of_nat k)))).
    { intros k Lk. rewrite nth_error_map, nth_error_slots by lia.
      cbn [option_map]. f_equal. f_equal. lia. }
    split.
    + intros Hin. rewrite Hcell by exact Lc. rewrite <- Ec.
      unfold cell_at.
      destruct (len (file_data self) <? cursor + 2) eqn:E;
        [apply Z.ltb_lt in E; lia|reflexivity].
    + intros Hout. split.
      * intros k Hk Lk. rewrite Hcell by exact Lk. f_equal.
        apply cell_at_exhausted. nia.
      * intros r' Hlt Lr'. rewrite nth_error_map_seq_hit by lia.
        cbn [Nat.add]. unfold data_row. do 2 f_equal.
        rewrite (map_constant (cell_at self) (lit "0")).
        { rewrite length_slots. reflexivity. }
        intros x Hx. unfold slots in Hx. apply in_map_iff in Hx.
        destruct Hx as [k [Ex _]]. apply cell_at_exhausted. nia.
  - intros a n off off' row row' Ha Hend.
    rewrite row_cells_app, Ha. cbn [bind fst snd].
    apply row_cells_exhausted. exact Hend.
Qed.

Lemma truncated_row_is_filled_witness :
  (exists rows,
     X431Parser._extract_data_rows cut_short_parser = Ok rows
     /\ len rows = 17 / 4 / column_count cut_short_parser
     /\ forall r,
          Z.of_nat r < 17 / 4 / column_count cut_short_parser ->
          exists row,
            nth_error rows r = Some row
            /\ len row = column_count cut_short_parser + 1
            /\ nth_error row 0 = Some (str_of_int (Z.of_nat r + 1))
            /\ forall c cursor,
                 Z.of_nat c < column_count cut_short_parser ->
                 cursor = 373 + 16
                          + 4 * (column_count cut_short_parser * Z.of_nat r
                                 + Z.of_nat c) ->
                 (cursor + 2 <= len (file_data cut_short_parser) ->
                  nth_error row (S c)
                  = Some match lookup (point_values cut_short_parser)
                                      (slot_index (file_data cut_short_parser)
                                                  cursor) with
                         | Some value => value
                         | None => lit "0"
                         end)
                 /\ (len (file_data cut_short_parser) < cursor + 2 ->
                     (forall k, (c <= k)%nat ->
                                Z.of_nat k < column_count cut_short_parser ->
                                nth_error row (S k) = Some (lit "0"))
                     /\ forall r',
                          (r < r')%nat ->
                          Z.of_nat r'
                          < 17 / 4 / column_count cut_short_parser ->
                          nth_error rows r'
                          = Some (str_of_int (Z.of_nat r' + 1)
                                    :: repeat (lit "0")
                                              (Z.to_nat
                                                 (column_count
                                                    cut_short_parser)))))
  /\ len (file_data cut_short_parser) < 373 + 16 + 4 * (2 * 1 + 1) + 2
  /\ X431Parser._extract_data_rows cut_short_parser
     = Ok [[lit "1"; lit "Speed"; lit "RPM"]; [lit "2"; lit "km/h"; lit "0"]].
Proof.
  split; [|split; vm_compute; reflexivity].
  apply (truncated_row_is_filled cut_short_parser 373 17).
  - vm_compute. discriminate.
  - vm_compute. reflexivity.
  - vm_compute. reflexivity.
Defined.

(** C10.  On every buffer the two parsers extract the same string table;
    on every parser state they decode the same data rows; and the data rows
    of a whole parse, or the exception it ends with, are the same for both.
    Only the column headers differ. *)
Theorem parsers_agree (data : list byte) :
  X431Parser._extract_point_values data
  = X431CleanParser._extract_point_values data
  /\ (forall self,
        X431Parser._extract_data_rows self
        = X431CleanParser._extract_data_rows self)
  /\ rows_of (X431Parser.parse data) = rows_of (X431CleanParser.parse data).
Proof.
  split; [reflexivity|]. split; [intros self; reflexivity|].
  unfold X431Parser.parse, X431CleanParser.parse.
  change (X431CleanParser._extract_channel_count data)
    with (X431Parser._extract_channel_count data).
  change (X431CleanParser._extract_point_values data)
    with (X431Parser._extract_point_values data).
  destruct (X431Parser._extract_channel_count data) as [count|];
    [|reflexivity].
  destruct (X431Parser._extract_point_values data) as [[values|]|];
    try reflexivity.
  set (self := {| file_data := data; point_values := values;
                  column_count := count |}).
  change (X431CleanParser._extract_data_rows self)
    with (X431Parser._extract_data_rows self).
  pose proof (header_outcomes_agree self) as Ho. unfold outcome in Ho.
  cbn [rows_of option_map]. f_equal.
  destruct (X431Parser._extract_column_names self) as [h1|e1];
    destruct (X431CleanParser._extract_column_names self) as [h2|e2];
    cbn [bind] in Ho |- *; try discriminate.
  - destruct (X431Parser._extract_data_rows self); reflexivity.
  - inversion Ho. reflexivity.
Qed.

(** ** Further properties of the code *)

(** *** The readers *)

Section Readers.

Lemma len_cons {A} (x : A) (l : list A) : len (x :: l) = len l + 1.
Proof. unfold len. cbn [length]. lia. Qed.

Lemma le_value_lt (bs : list byte) : le_value bs < 256 ^ len bs.
Proof.
  induction bs as [|x t IH]; cbn [le_value].
  - unfold len. cbn. lia.
  - rewrite len_cons, Z.pow_add_r by (try apply len_nonneg; lia).
    pose proof (byte_val_range x). pose proof (le_value_nonneg t).
    change (256 ^ 1) with 256. nia.
Qed.

Lemma field_lt size buffer offset :
  0 <= size -> field size buffer offset < 256 ^ size.
Proof.
  intros Hs. unfold field.
  eapply Z.lt_le_trans; [apply le_value_lt|].
  apply Z.pow_le_mono_r; [lia|].
  unfold len. rewrite length_firstn. lia.
Qed.

Lemma skipn_S_tl {A} (n : nat) (l : list A) : skipn (S n) l = tl (skipn n l).
Proof.
  revert l. induction n as [|n IH]; intros [|x l]; try reflexivity.
  cbn [skipn]. rewrite <- IH. reflexivity.
Qed.

Lemma skipn_inside {A} (n : nat) (l : list A) :
  (n < length l)%nat -> exists x, skipn n l = x :: skipn (S n) l.
Proof.
  intros H. rewrite skipn_S_tl.
  destruct (skipn n l) as [|x r] eqn:E.
  - apply (f_equal (@length A)) in E. rewrite length_skipn in E.
    cbn [length] in E. lia.
  - exists x. reflexivity.
Qed.

End Readers.

(** X1.  At an offset from 0 to below 2^63 (an offset that fits the
    [Py_ssize_t] of [struct.unpack_from]), each reader returns the unsigned
    value of its field, below 2^8, 2^16 or 2^32, when the field lies in the
    buffer, and raises [struct.error] when the buffer ends before the field
    does. *)
Theorem readers_in_and_out_of_bounds (data : list byte) (offset : Z) :
  0 <= offset < 2 ^ 63 ->
  (offset + 1 <= len data ->
   exists v, X431Parser._read_uint8 data offset = Ok v /\ 0 <= v < 256)
  /\ (len data < offset + 1 ->
      X431Parser._read_uint8 data offset = Raise StructError)
  /\ (offset + 2 <= len data ->
      exists v, X431Parser._read_uint16 data offset = Ok v /\ 0 <= v < 65536)
  /\ (len data < offset + 2 ->
      X431Parser._read_uint16 data offset = Raise StructError)
  /\ (offset + 4 <= len data ->
      exists v, X431Parser._read_uint32 data offset = Ok v
                /\ 0 <= v < 4294967296)
  /\ (len data < offset + 4 ->
      X431Parser._read_uint32 data offset = Raise StructError).
Proof.
  intros [H0 _].
  unfold X431Parser._read_uint8, X431Parser._read_uint16,
         X431Parser._read_uint32.
  repeat split;
    try (intros H; apply unpack_from_outside; assumption).
  - intros H. rewrite unpack_from_inside by assumption. eexists.
    split; [reflexivity|]. split; [apply field_nonneg|].
    apply (field_lt 1). lia.
  - intros H. rewrite unpack_from_inside by assumption. eexists.
    split; [reflexivity|]. split; [apply field_nonneg|].
    apply (field_lt 2). lia.
  - intros H. rewrite unpack_from_inside by assumption. eexists.
    split; [reflexivity|]. split; [apply field_nonneg|].
    apply (field_lt 4). lia.
Qed.

Lemma readers_in_and_out_of_bounds_witness :
  X431Parser._read_uint16 demo 0x11c = Ok 373
  /\ X431Parser._read_uint32 demo 403 = Raise StructError
  /\ exists v, X431Parser._read_uint32 demo 381 = Ok v /\ 0 <= v < 4294967296.
Proof.
  split; [vm_compute; reflexivity|].
  destruct (readers_in_and_out_of_bounds demo 403) as [_ [_ [_ [_ [_ B]]]]];
    [lia|].
  destruct (readers_in_and_out_of_bounds demo 381) as [_ [_ [_ [_ [A _]]]]];
    [lia|].
  split; [apply B; vm_compute; reflexivity|].
  apply A. vm_compute. discriminate.
Defined.

(** X2.  The fields are little-endian: a 16-bit field is its low byte plus 256
    times its high byte, and a 32-bit field is its low 16-bit half plus
    65536 times its high half. *)
Theorem readers_are_little_endian (data : list byte) (offset : Z) :
  0 <= offset -> offset + 4 <= len data ->
  exists b0 b1 b2 b3,
    X431Parser._read_uint8 data offset = Ok b0
    /\ X431Parser._read_uint8 data (offset + 1) = Ok b1
    /\ X431Parser._read_uint8 data (offset + 2) = Ok b2
    /\ X431Parser._read_uint8 data (offset + 3) = Ok b3
    /\ X431Parser._read_uint16 data offset = Ok (b0 + 256 * b1)
    /\ X431Parser._read_uint16 data (offset + 2) = Ok (b2 + 256 * b3)
    /\ X431Parser._read_uint32 data offset
       = Ok (b0 + 256 * b1 + 65536 * (b2 + 256 * b3)).
Proof.
  intros H0 H4.
  unfold X431Parser._read_uint8, X431Parser._read_uint16,
         X431Parser._read_uint32.
  rewrite !unpack_from_inside by lia. unfold field.
  replace (Z.to_nat (offset + 1)) with (S (Z.to_nat offset)) by lia.
  replace (Z.to_nat (offset + 2)) with (S (S (Z.to_nat offset))) by lia.
  replace (Z.to_nat (offset + 3)) with (S (S (S (Z.to_nat offset)))) by lia.
  set (n := Z.to_nat offset).
  assert (Hn : (n + 4 <= length data)%nat) by (unfold len in H4; lia).
  destruct (skipn_inside n data ltac:(lia)) as [x0 E0].
  destruct (skipn_inside (S n) data ltac:(lia)) as [x1 E1].
  destruct (skipn_inside (S (S n)) data ltac:(lia)) as [x2 E2].
  destruct (skipn_inside (S (S (S n))) data ltac:(lia)) as [x3 E3].
  exists (byte_val x0), (byte_val x1), (byte_val x2), (byte_val x3).
  rewrite E0, E1, E2, E3.
  change (Z.to_nat 1) with 1%nat. change (Z.to_nat 2) with 2%nat.
  change (Z.to_nat 4) with 4%nat.
  cbn [firstn le_value].
  repeat split; f_equal; lia.
Qed.

Lemma readers_are_little_endian_witness :
  exists b0 b1 b2 b3,
    X431Parser._read_uint8 demo 381 = Ok b0
    /\ X431Parser._read_uint8 demo (381 + 1) = Ok b1
    /\ X431Parser._read_uint8 demo (381 + 2) = Ok b2
    /\ X431Parser._read_uint8 demo (381 + 3) = Ok b3
    /\ X431Parser._read_uint16 demo 381 = Ok (b0 + 256 * b1)
    /\ X431Parser._read_uint16 demo (381 + 2) = Ok (b2 + 256 * b3)
    /\ X431Parser._read_uint32 demo 381
       = Ok (b0 + 256 * b1 + 65536 * (b2 + 256 * b3)).
Proof.
  apply (readers_are_little_endian demo 381); vm_compute; discriminate.
Defined.

(** X3.  The channel count is the byte at 0x134 divided by 4, so between 0 and
    63; a buffer that ends at or before 0x134 gives [struct.error]. *)
Theorem channel_count_range (data : list byte) :
  (len data <= 0x134 ->
   X431Parser._extract_channel_count data = Raise StructError)
  /\ (0x134 < len data ->
      exists count,
        X431Parser._extract_channel_count data = Ok count
        /\ 0 <= count <= 63
        /\ 4 * count <= field 1 data 0x134 < 4 * count + 4).
Proof.
  unfold X431Parser._extract_channel_count, X431Parser._read_uint8.
  split; intros H.
  - rewrite unpack_from_outside by lia. reflexivity.
  - rewrite unpack_from_inside by lia. cbn [bind].
    pose proof (field_nonneg 1 data 0x134) as Hn.
    pose proof (field_lt 1 data 0x134 ltac:(lia)) as Hl.
    change (256 ^ 1) with 256 in Hl.
    eexists. split; [reflexivity|].
    pose proof (Z.div_mod (field 1 data 308) 4 ltac:(lia)) as D.
    pose proof (Z.mod_pos_bound (field 1 data 308) 4 ltac:(lia)) as B.
    lia.
Qed.

Lemma channel_count_range_witness :
  X431Parser._extract_channel_count (firstn 0x134 demo) = Raise StructError
  /\ exists count,
       X431Parser._extract_channel_count demo = Ok count
       /\ 0 <= count <= 63
       /\ 4 * count <= field 1 demo 0x134 < 4 * count + 4.
Proof.
  split.
  - apply (proj1 (channel_count_range (firstn 0x134 demo))).
    vm_compute. discriminate.
  - apply (proj2 (channel_count_range demo)). vm_compute. reflexivity.
Defined.

(** *** Termination and error behaviour *)

Section Outcomes.

Lemma unpack_from_raises size buffer offset e :
  unpack_from size buffer offset = Raise e -> e = StructError.
Proof.
  unfold unpack_from.
  repeat match goal with |- context [if ?c then _ else _] => destruct c end;
    intros H; inversion H; reflexivity.
Qed.

Lemma skip_sections_raises data n :
  forall off e, X431Parser.skip_sections n data off = Raise e -> e = StructError.
Proof.
  induction n as [|n IH]; intros off e H; [discriminate|].
  cbn [X431Parser.skip_sections] in H.
  destruct (X431Parser._read_uint16 data off) as [L|e'] eqn:R.
  - cbn [bind] in H. apply (IH _ _ H).
  - cbn [bind] in H. inversion H. subst e'.
    apply (unpack_from_raises _ _ _ _ R).
Qed.

Lemma extract_point_values_raises data e :
  X431Parser._extract_point_values data = Some (Raise e) -> e = StructError.
Proof.
  unfold X431Parser._extract_point_values. intros H.
  destruct (X431Parser._read_uint32 data 12) as [var32|e'] eqn:R.
  2:{ inversion H. subst e'. apply (unpack_from_raises _ _ _ _ R). }
  destruct (X431Parser.skip_sections 8 data (12 + (4 + var32))) as [off|e'] eqn:K.
  2:{ inversion H. subst e'. apply (skip_sections_raises _ _ _ _ K). }
  apply unpack_from_nonneg in R.
  apply skip_sections_nonneg in K; [|lia].
  destruct (read_point_values_table data (S (length data)) off [] K)
    as [table [T _]]; [unfold len; lia|].
  rewrite T in H. discriminate.
Qed.

Lemma sections_of_skip data n :
  forall off off', 0 <= off ->
    X431Parser.skip_sections n data off = Ok off' -> sections data n off off'.
Proof.
  induction n as [|n IH]; intros off off' H0 H.
  - inversion H. constructor.
  - cbn [X431Parser.skip_sections] in H.
    destruct (X431Parser._read_uint16 data off) as [L|] eqn:R; [|discriminate].
    cbn [bind] in H.
    destruct (unpack_from_ok_inv 2 data off L H0 R) as [Hin HL]. subst L.
    apply sections_S; [exact Hin|].
    apply IH; [|exact H]. pose proof (field_nonneg 2 data off). lia.
Qed.

End Outcomes.

(** X4.  Both parsers return on every buffer: the [while] loop of the string
    table ends, because every turn moves the offset forward by at least 3
    bytes. *)
Theorem parsers_terminate (data : list byte) :
  (exists r, X431Parser.parse data = Some r)
  /\ (exists r, X431CleanParser.parse data = Some r).
Proof.
  destruct (extract_point_values_total data) as [r Hr].
  split.
  - unfold X431Parser.parse.
    destruct (X431Parser._extract_channel_count data); [|eexists; reflexivity].
    rewrite Hr. destruct r; eexists; reflexivity.
  - unfold X431CleanParser.parse.
    destruct (X431CleanParser._extract_channel_count data);
      [|eexists; reflexivity].
    change (X431CleanParser._extract_point_values data)
      with (X431Parser._extract_point_values data).
    rewrite Hr. destruct r; eexists; reflexivity.
Qed.

(** X5.  The string table builder returns a table exactly when the 32-bit
    length at 0x0c and the lengths of the eight sections behind it can be
    read; on every other buffer it raises [struct.error], and nothing
    else.  The entries themselves never make it fail. *)
Theorem string_table_outcome (data : list byte) :
  ((exists table, X431Parser._extract_point_values data = Some (Ok table))
   <-> 0x0c + 4 <= len data
       /\ exists off, sections data 8 (0x0c + 4 + field 4 data 0x0c) off)
  /\ (X431Parser._extract_point_values data = Some (Raise StructError)
      \/ exists table, X431Parser._extract_point_values data = Some (Ok table)).
Proof.
  split.
  - split.
    + intros [table H]. unfold X431Parser._extract_point_values in H.
      destruct (X431Parser._read_uint32 data 12) as [var32|] eqn:R;
        [|discriminate].
      destruct (unpack_from_ok_inv 4 data 12 var32 ltac:(lia) R) as [Hin Hv].
      subst var32.
      destruct (X431Parser.skip_sections 8 data (12 + (4 + field 4 data 12)))
        as [off|] eqn:K; [|discriminate].
      split; [lia|]. exists off.
      replace (12 + 4 + field 4 data 12) with (12 + (4 + field 4 data 12)) by lia.
      apply sections_of_skip; [|exact K].
      pose proof (field_nonneg 4 data 12). lia.
    + intros [Hin [off Hs]].
      pose proof (field_nonneg 4 data 0x0c) as H0.
      assert (Hstart : 0 <= 0x0c + 4 + field 4 data 0x0c) by lia.
      destruct (skip_sections_sections data 8 _ off Hstart Hs) as [Hk Hoff].
      destruct (read_point_values_table data (S (length data)) off [] Hoff)
        as [table [H T]]; [unfold len; lia|].
      exists table.
      unfold X431Parser._extract_point_values, X431Parser._read_uint32.
      rewrite unpack_from_inside by lia.
      replace (12 + (4 + field 4 data 12)) with (12 + 4 + field 4 data 12) by lia.
      rewrite Hk. exact H.
  - destruct (extract_point_values_total data) as [[table|e] Hr].
    + right. exists table. exact Hr.
    + left. rewrite Hr. rewrite (extract_point_values_raises _ _ Hr).
      reflexivity.
Qed.

(** The failing cases of [_extract_data_rows]. *)
Lemma data_rows_no_pointer (self : parser) :
  len (file_data self) < 0x11c + 2 ->
  X431Parser._extract_data_rows self = Raise StructError.
Proof.
  intros H. unfold X431Parser._extract_data_rows, X431Parser._read_uint16.
  rewrite unpack_from_outside by lia. reflexivity.
Qed.

Lemma data_rows_no_count (self : parser) :
  0x11c + 2 <= len (file_data self) ->
  len (file_data self) < field 2 (file_data self) 0x11c + 8 + 4 ->
  X431Parser._extract_data_rows self = Raise StructError.
Proof.
  intros H1 H2.
  pose proof (field_nonneg 2 (file_data self) 0x11c) as Hv.
  unfold X431Parser._extract_data_rows, X431Parser._read_uint16,
         X431Parser._read_uint32.
  rewrite unpack_from_inside by lia. cbn [bind].
  rewrite unpack_from_outside by lia. reflexivity.
Qed.

Lemma data_rows_no_channel (self : parser) :
  0x11c + 2 <= len (file_data self) ->
  field 2 (file_data self) 0x11c + 8 + 4 <= len (file_data self) ->
  column_count self = 0 ->
  X431Parser._extract_data_rows self = Raise ZeroDivisionError.
Proof.
  intros H1 H2 H3.
  pose proof (field_nonneg 2 (file_data self) 0x11c) as Hv.
  unfold X431Parser._extract_data_rows, X431Parser._read_uint16,
         X431Parser._read_uint32.
  rewrite unpack_from_inside by lia. cbn [bind].
  rewrite unpack_from_inside by lia. cbn [bind].
  unfold X431Parser.floordiv. rewrite H3. reflexivity.
Qed.

(** X6.  What [_extract_data_rows] ends with, case by case: [struct.error] when
    the 16-bit value [v] at 0x11c or the record count at [v + 8] lies
    outside the buffer, [ZeroDivisionError] when both can be read and there
    is no channel, rows otherwise.  It never raises [IndexError]. *)
Theorem data_rows_outcome (self : parser) :
  0 <= column_count self ->
  let data := file_data self in
  let v := field 2 data 0x11c in
  (len data < 0x11c + 2 ->
   X431Parser._extract_data_rows self = Raise StructError)
  /\ (0x11c + 2 <= len data -> len data < v + 8 + 4 ->
      X431Parser._extract_data_rows self = Raise StructError)
  /\ (0x11c + 2 <= len data -> v + 8 + 4 <= len data ->
      column_count self = 0 ->
      X431Parser._extract_data_rows self = Raise ZeroDivisionError)
  /\ (0x11c + 2 <= len data -> v + 8 + 4 <= len data ->
      0 < column_count self ->
      exists rows, X431Parser._extract_data_rows self = Ok rows)
  /\ X431Parser._extract_data_rows self <> Raise IndexError.
Proof.
  intros Hc data v. subst data.
  pose proof (field_nonneg 2 (file_data self) 0x11c) as Hv. fold v in Hv.
  assert (A4 : 0x11c + 2 <= len (file_data self) ->
               v + 8 + 4 <= len (file_data self) ->
               0 < column_count self ->
               exists rows, X431Parser._extract_data_rows self = Ok rows).
  { intros H1 H2 H3. eexists.
    apply (extract_data_rows_closed self v (field 4 (file_data self) (v + 8))).
    - apply unpack_from_inside; lia.
    - apply unpack_from_inside; lia.
    - exact H3. }
  split; [apply data_rows_no_pointer|].
  split; [apply data_rows_no_count|].
  split; [apply data_rows_no_channel|].
  split; [exact A4|].
  intros H.
  destruct (Z_lt_le_dec (len (file_data self)) (0x11c + 2)) as [L1|L1];
    [rewrite data_rows_no_pointer in H by assumption; discriminate|].
  destruct (Z_lt_le_dec (len (file_data self)) (v + 8 + 4)) as [L2|L2];
    [rewrite data_rows_no_count in H by assumption; discriminate|].
  destruct (Z.eq_dec (column_count self) 0) as [L3|L3];
    [rewrite data_rows_no_channel in H by assumption; discriminate|].
  destruct (A4 L1 L2 ltac:(lia)) as [rows R]. rewrite R in H. discriminate.
Qed.

Lemma data_rows_outcome_witness :
  X431Parser._extract_data_rows (parser_of demo [] 0) = Raise ZeroDivisionError
  /\ X431Parser._extract_data_rows (parser_of (firstn 380 demo) [] 2)
     = Raise StructError
  /\ exists rows, X431Parser._extract_data_rows demo_parser = Ok rows.
Proof.
  split; [|split].
  - apply (data_rows_outcome (parser_of demo [] 0));
      try reflexivity; vm_compute; discriminate.
  - apply (data_rows_outcome (parser_of (firstn 380 demo) [] 2));
      try reflexivity; vm_compute; discriminate.
  - apply (data_rows_outcome demo_parser);
      try reflexivity; vm_compute; discriminate.
Defined.

(** X7.  A file without channels (the byte at 0x134 below 4) is never parsed:
    either a read fails with [struct.error], or, when the string table and
    the record count can be read, the row count divides by zero. *)
Theorem no_parse_without_channels (data : list byte) :
  X431Parser._extract_channel_count data = Ok 0 ->
  (X431Parser.parse data = Some (Raise StructError)
   \/ X431Parser.parse data = Some (Raise ZeroDivisionError))
  /\ (forall table,
        X431Parser._extract_point_values data = Some (Ok table) ->
        0x11c + 2 <= len data ->
        field 2 data 0x11c + 8 + 4 <= len data ->
        X431Parser.parse data = Some (Raise ZeroDivisionError)).
Proof.
  intros Hc. unfold X431Parser.parse. rewrite Hc.
  assert (Hrows : forall table,
             (column_names <- X431Parser._extract_column_names
                                {| file_data := data; point_values := table;
                                   column_count := 0 |} ;;
              data_rows <- X431Parser._extract_data_rows
                             {| file_data := data; point_values := table;
                                column_count := 0 |} ;;
              Ok (column_names, data_rows))
             = (data_rows <- X431Parser._extract_data_rows
                               {| file_data := data; point_values := table;
                                  column_count := 0 |} ;;
                Ok ([lit "Num"], data_rows))).
  { intros table. reflexivity. }
  split.
  - destruct (extract_point_values_total data) as [[table|e] Hr]; rewrite Hr.
    + rewrite Hrows.
      set (self := {| file_data := data; point_values := table;
                      column_count := 0 |}).
      destruct (Z_lt_le_dec (len data) (0x11c + 2)) as [L1|L1];
        [rewrite (data_rows_no_pointer self) by assumption; left; reflexivity|].
      destruct (Z_lt_le_dec (len data) (field 2 data 0x11c + 8 + 4)) as [L2|L2];
        [rewrite (data_rows_no_count self) by assumption; left; reflexivity|].
      rewrite (data_rows_no_channel self) by (assumption || reflexivity).
      right. reflexivity.
    + rewrite (extract_point_values_raises _ _ Hr). left. reflexivity.
  - intros table Ht L1 L2. rewrite Ht, Hrows.
    set (self := {| file_data := data; point_values := table;
                    column_count := 0 |}).
    rewrite (data_rows_no_channel self) by (assumption || reflexivity).
    reflexivity.
Qed.

Lemma no_parse_without_channels_witness :
  X431Parser._extract_channel_count (file 0 [] [] names (records 17 [9; 10]))
  = Ok 0
  /\ X431Parser.parse (file 0 [] [] names (records 17 [9; 10]))
     = Some (Raise ZeroDivisionError).
Proof.
  split; [vm_compute; reflexivity|].
  apply (proj2 (no_parse_without_channels
                  (file 0 [] [] names (records 17 [9; 10]))
                  ltac:(vm_compute; reflexivity))
               (map lit ["Speed"; "RPM"; "km/h"; "rpm"]%string)).
  - vm_compute. reflexivity.
  - vm_compute. discriminate.
  - vm_compute. discriminate.
Defined.

(** X8.  Every data row starts with its number, counted from 1, and has one
    cell for each channel; every cell is a string of the table or the
    placeholder "0". *)
Theorem data_cells_come_from_table (self : parser) (rows : list (list str)) :
  0 <= column_count self ->
  X431Parser._extract_data_rows self = Ok rows ->
  forall r row,
    nth_error rows r = Some row ->
    exists cells,
      row = str_of_int (Z.of_nat r + 1) :: cells
      /\ len cells = column_count self
      /\ Forall (fun cell => cell = lit "0" \/ In cell (point_values self))
                cells.
Proof.
  intros Hc H r row Hr.
  destruct (extract_data_rows_inv _ _ H) as [v [rc [Hv [Hrc Hne]]]].
  rewrite (extract_data_rows_closed self v rc Hv Hrc) in H by lia.
  inversion H. subst rows. clear H.
  rewrite nth_error_map in Hr.
  destruct (nth_error (seq 0 (Z.to_nat (rc / 4 / column_count self))) r)
    as [k|] eqn:Hk; [|discriminate].
  cbn [option_map] in Hr. inversion Hr. subst row.
  assert (k = r).
  { pose proof (nth_error_nth _ _ 0%nat Hk) as N.
    assert (L : (r < length (seq 0 (Z.to_nat (rc / 4 / column_count self))))%nat)
      by (apply nth_error_Some; rewrite Hk; discriminate).
    rewrite length_seq in L. rewrite seq_nth in N by exact L. lia. }
  subst k. unfold data_row. eexists. split; [reflexivity|]. split.
  - unfold len. rewrite length_map, length_slots. lia.
  - apply Forall_forall. intros cell Hin.
    apply in_map_iff in Hin. destruct Hin as [off [E _]]. subst cell.
    unfold cell_at.
    destruct (len (file_data self) <? off + 2); [left; reflexivity|].
    unfold lookup.
    destruct (9 <=? slot_index (file_data self) off); [|left; reflexivity].
    destruct (nth_error (point_values self) _) as [value|] eqn:N;
      [|left; reflexivity].
    right. apply (nth_error_In _ _ N).
Qed.

Lemma data_cells_come_from_table_witness :
  exists cells,
    [lit "2"; lit "km/h"; lit "0"] = str_of_int (Z.of_nat 1 + 1) :: cells
    /\ len cells = column_count cut_short_parser
    /\ Forall (fun cell => cell = lit "0"
                           \/ In cell (point_values cut_short_parser))
              cells.
Proof.
  apply (data_cells_come_from_table cut_short_parser
           [[lit "1"; lit "Speed"; lit "RPM"]; [lit "2"; lit "km/h"; lit "0"]]).
  - vm_compute. discriminate.
  - vm_compute. reflexivity.
  - reflexivity.
Defined.

(** *** The strings of the table *)

Section DecodedText.

Ltac bools :=
  repeat match goal with
         | H : (_ <? _) = true |- _ => apply Z.ltb_lt in H
         | H : (_ <? _) = false |- _ => apply Z.ltb_ge in H
         | H : (_ <=? _) = true |- _ => apply Z.leb_le in H
         | H : (_ <=? _) = false |- _ => apply Z.leb_gt in H
         | H : (_ =? _) = true |- _ => apply Z.eqb_eq in H
         | H : (_ =? _) = false |- _ => apply Z.eqb_neq in H
         | H : negb _ = true |- _ => apply negb_true_iff in H
         | H : negb _ = false |- _ => apply negb_false_iff in H
         | H : (_ && _) = true |- _ => apply andb_true_iff in H; destruct H
         | H : (_ || _) = false |- _ => apply orb_false_iff in H; destruct H
         end.

(** Every step of the decoder either drops bytes or turns them into one
    code point. *)
Lemma utf8_decode_ignore_length_aux n :
  forall s, (length s <= n)%nat ->
  (length (utf8_decode Ignore s) <= length s)%nat.
Proof.
  induction n as [|n IH]; intros s Hn.
  - destruct s; [cbn; lia|cbn [length] in Hn; lia].
  - destruct s as [|ch s1]; [cbn; lia|].
    cbn [utf8_decode on_error app].
    repeat match goal with
           | |- context [if ?c then _ else _] => destruct c
           | |- context [match ?l with [] => _ | _ :: _ => _ end] =>
             destruct l
           end;
      cbn [length] in *;
      repeat match goal with
             | |- context [length (utf8_decode Ignore ?t)] =>
               let H := fresh in
               pose proof (IH t) as H; cbn [length] in H;
               specialize (H ltac:(lia));
               let u := fresh "u" in
               set (u := utf8_decode Ignore t) in *; clearbody u
             end;
      lia.
Qed.

Lemma decode_ignore_length (bs : list byte) :
  len (decode Ignore bs) <= len bs.
Proof.
  unfold decode, len.
  pose proof (utf8_decode_ignore_length_aux (length (map byte_val bs))
                (map byte_val bs) ltac:(lia)) as H.
  rewrite length_map in H. lia.
Qed.

Lemma utf8_decode_ignore_scalar_aux n :
  forall s, (length s <= n)%nat -> Forall (fun x => 0 <= x) s ->
  forall c, In c (utf8_decode Ignore s) -> scalar c.
Proof.
  induction n as [|n IH]; intros s Hn Hs c.
  - destruct s; [intros []|cbn [length] in Hn; lia].
  - destruct s as [|ch s1]; [intros []|].
    cbn [length] in Hn. inversion Hs as [|? ? Hch Hs1]. subst.
    assert (K1 : In c (utf8_decode Ignore s1) -> scalar c)
      by (apply IH; [lia | exact Hs1]).
    cbn [utf8_decode on_error app].
    destruct (ch <? 128) eqn:A1.
    { intros [K|K]; [|auto]. bools. subst c. unfold scalar. lia. }
    destruct (ch <? 224) eqn:A2.
    { destruct (ch <? 194) eqn:A3; [exact K1|].
      destruct s1 as [|ch2 s2]; [intros []|].
      destruct (negb (is_continuation ch2)) eqn:C2; [exact K1|].
      unfold is_continuation in C2. rewrite shiftl_6.
      inversion Hs1 as [|? ? ? Hs2]. subst.
      intros [K|K].
      - bools. change (Z.shiftl 192 6) with 12288 in K. unfold scalar. lia.
      - apply (IH s2); [cbn [length] in Hn; lia | exact Hs2 | exact K]. }
    destruct (ch <? 240) eqn:A3.
    { destruct s1 as [|ch2 s2]; [intros []|].
      destruct (negb (is_continuation ch2)
                || (if ch2 <? 160 then ch =? 224 else ch =? 237)) eqn:C2;
        [exact K1|].
      destruct s2 as [|ch3 s3]; [intros []|].
      inversion Hs1 as [|? ? ? Hs2]. subst.
      inversion Hs2 as [|? ? ? Hs3]. subst.
      assert (K2 : In c (utf8_decode Ignore (ch3 :: s3)) -> scalar c)
        by (apply IH; [cbn [length] in *; lia | exact Hs2]).
      destruct (negb (is_continuation ch3)) eqn:C3; [exact K2|].
      unfold is_continuation in *. rewrite shiftl_12, shiftl_6.
      intros [K|K].
      - bools.
        change (Z.shiftl 224 12 + Z.shiftl 128 6 + 128) with 925824 in K.
        unfold scalar. destruct (ch2 <? 160) eqn:D; bools; lia.
      - apply (IH s3); [cbn [length] in *; lia | exact Hs3 | exact K]. }
    destruct (ch <? 245) eqn:A4; [|exact K1].
    destruct s1 as [|ch2 s2]; [intros []|].
    destruct (negb (is_continuation ch2)
              || (if ch2 <? 144 then ch =? 240 else ch =? 244)) eqn:C2;
      [exact K1|].
    destruct s2 as [|ch3 s3]; [intros []|].
    inversion Hs1 as [|? ? ? Hs2]. subst.
    inversion Hs2 as [|? ? ? Hs3]. subst.
    assert (K2 : In c (utf8_decode Ignore (ch3 :: s3)) -> scalar c)
      by (apply IH; [cbn [length] in *; lia | exact Hs2]).
    destruct (negb (is_continuation ch3)) eqn:C3; [exact K2|].
    destruct s3 as [|ch4 s4]; [intros []|].
    inversion Hs3 as [|? ? ? Hs4]. subst.
    assert (K3 : In c (utf8_decode Ignore (ch4 :: s4)) -> scalar c)
      by (apply IH; [cbn [length] in *; lia | exact Hs3]).
    destruct (negb (is_continuation ch4)) eqn:C4; [exact K3|].
    unfold is_continuation in *. rewrite shiftl_18, shiftl_12, shiftl_6.
    intros [K|K].
    + bools.
      change (Z.shiftl 240 18 + Z.shiftl 128 12 + Z.shiftl 128 6 + 128)
        with 63447168 in K.
      unfold scalar. destruct (ch2 <? 144) eqn:D; bools; lia.
    + apply (IH s4); [cbn [length] in *; lia | exact Hs4 | exact K].
Qed.

Lemma decode_ignore_scalar (bs : list byte) (c : Z) :
  In c (decode Ignore bs) -> scalar c.
Proof.
  unfold decode. intros H.
  apply (utf8_decode_ignore_scalar_aux (length (map byte_val bs))
           (map byte_val bs)); [lia| |exact H].
  apply Forall_forall. intros x Hx. apply in_map_iff in Hx.
  destruct Hx as [y [E _]]. subst x. pose proof (byte_val_range y). lia.
Qed.

Lemma decode_ignore_ascii (bs : list byte) :
  Forall (fun x => byte_val x < 0x80) bs ->
  decode Ignore bs = map byte_val bs.
Proof.
  unfold decode. induction 1 as [|x t Hx Ht IH]; [reflexivity|].
  cbn [map utf8_decode].
  destruct (byte_val x <? 128) eqn:E; [|apply Z.ltb_ge in E; lia].
  f_equal. exact IH.
Qed.

End DecodedText.

Section TableBounds.

Lemma len_slice_le {A} (l : list A) a b :
  0 <= a -> a <= b -> len (slice l a b) <= b - a.
Proof.
  intros H0 H1. unfold slice, clip, len.
  destruct (a <? 0) eqn:E; [apply Z.ltb_lt in E; lia|].
  destruct (b <? 0) eqn:E'; [apply Z.ltb_lt in E'; lia|].
  rewrite length_firstn. lia.
Qed.

Lemma table_from_bound data off table :
  0 <= off -> table_from data off table ->
  3 * len table + total_chars table <= Z.max 0 (len data - off).
Proof.
  intros H0 T. induction T as [off H|off H1 H2|off rest H1 H2 H3 T IH].
  - unfold len, total_chars. cbn. lia.
  - unfold len, total_chars. cbn. lia.
  - specialize (IH ltac:(lia)).
    rewrite len_cons. cbn [total_chars fold_right]. fold (total_chars rest).
    pose proof (decode_ignore_length (payload data off)) as D.
    pose proof (len_slice_le data (off + 2) (off + 2 + (field 2 data off - 3))
                  ltac:(lia) ltac:(lia)) as S.
    fold (payload data off) in S. lia.
Qed.

End TableBounds.

(** X9.  The table is never larger than the file: an entry takes its length
    prefix and terminator, 3 bytes, and at least one byte for each
    character it yields. *)
Theorem string_table_fits_file (data : list byte) (table : list str) :
  X431Parser._extract_point_values data = Some (Ok table) ->
  3 * len table + total_chars table <= len data.
Proof.
  intros H. destruct (extract_point_values_table _ _ H) as [off [H0 T]].
  pose proof (table_from_bound _ _ _ H0 T) as B.
  pose proof (len_nonneg data). lia.
Qed.

Lemma string_table_fits_file_witness :
  3 * len (point_values demo_parser) + total_chars (point_values demo_parser)
  <= len demo.
Proof.
  apply (string_table_fits_file demo). vm_compute. reflexivity.
Defined.

(** X10.  Every character of every table string is a Unicode scalar value: at
    most U+10FFFF and no surrogate, so the strings can always be encoded
    again as UTF-8, as the csv file they are written to requires. *)
Theorem table_strings_are_scalar (data : list byte) (table : list str) :
  X431Parser._extract_point_values data = Some (Ok table) ->
  forall s c, In s table -> In c s -> scalar c.
Proof.
  intros H s c Hs Hc.
  destruct (extract_point_values_table _ _ H) as [off [H0 T]].
  destruct (table_from_entries _ _ _ H0 T s Hs) as [off' [_ E]]. subst s.
  apply (decode_ignore_scalar _ _ Hc).
Qed.

Lemma table_strings_are_scalar_witness :
  X431Parser._extract_point_values
    (file 1 [9] [0] [bytes [0xED; 0xA0; 0x80; 0xED; 0x9F; 0xBF]] (records 4 [9]))
  = Some (Ok [[0xD7FF]])
  /\ scalar 0xD7FF.
Proof.
  split; [vm_compute; reflexivity|].
  apply (table_strings_are_scalar
           (file 1 [9] [0] [bytes [0xED; 0xA0; 0x80; 0xED; 0x9F; 0xBF]]
                 (records 4 [9]))
           [[0xD7FF]]) with (s := [0xD7FF]).
  - vm_compute. reflexivity.
  - left. reflexivity.
  - left. reflexivity.
Defined.

(** *** Entries written out and read back *)

Section RoundTrip.

Lemma byte_val_b (z : Z) : 0 <= z < 256 -> byte_val (b z) = z.
Proof.
  intros H. unfold b, byte_val.
  destruct (Byte.of_N (Z.to_N z)) as [x|] eqn:E.
  - apply Byte.to_of_N in E. rewrite E. lia.
  - apply Byte.of_N_None_iff in E. lia.
Qed.

Lemma le_value_u16 (v : Z) (rest : list byte) :
  0 <= v < 65536 -> le_value (firstn 2 (u16 v ++ rest)) = v.
Proof.
  intros H. unfold u16, bytes. cbn [map app firstn le_value].
  rewrite !byte_val_b.
  - pose proof (Z.div_mod v 256 ltac:(lia)). lia.
  - split; [apply Z.div_pos; lia|]. apply Z.div_lt_upper_bound; lia.
  - apply Z.mod_pos_bound. lia.
Qed.

Lemma skipn_app_len {A} (pre l : list A) : skipn (length pre) (pre ++ l) = l.
Proof. induction pre as [|x pre IH]; [reflexivity|exact IH]. Qed.

Lemma firstn_app_len {A} (l post : list A) : firstn (length l) (l ++ post) = l.
Proof.
  induction l as [|x l IH]; [reflexivity|]. cbn [length app firstn].
  f_equal. exact IH.
Qed.

Lemma field_after (pre l : list byte) (size : Z) :
  field size (pre ++ l) (len pre) = field size l 0.
Proof.
  unfold field, len. rewrite Nat2Z.id, skipn_app_len. reflexivity.
Qed.

Lemma slice_middle {A} (pre mid post : list A) :
  slice (pre ++ mid ++ post) (len pre) (len pre + len mid) = mid.
Proof.
  unfold slice, clip. rewrite !len_app.
  pose proof (len_nonneg pre). pose proof (len_nonneg mid).
  pose proof (len_nonneg post).
  destruct (len pre <? 0) eqn:E; [apply Z.ltb_lt in E; lia|].
  destruct (len pre + len mid <? 0) eqn:E'; [apply Z.ltb_lt in E'; lia|].
  rewrite !Z.min_l by lia.
  replace (len pre + len mid - len pre) with (len mid) by lia.
  unfold len. rewrite !Nat2Z.id, skipn_app_len, firstn_app_len. reflexivity.
Qed.

Lemma len_entry (p : list byte) : len (entry p) = len p + 3.
Proof.
  unfold entry, u16, bytes. rewrite !len_app. unfold len.
  cbn [map length]. lia.
Qed.

(** A run of entries followed by an end mark reads back as the decoded
    payloads, wherever in the buffer it lies. *)
Lemma table_from_encoded (payloads : list (list byte)) :
  forall pre rest,
    Forall (fun p => len p + 3 < 65536) payloads ->
    ends_table rest ->
    table_from (pre ++ concat (map entry payloads) ++ rest) (len pre)
               (map (decode Ignore) payloads).
Proof.
  induction payloads as [|p ps IH]; intros pre rest Hp He.
  - cbn [map concat app]. destruct He as [He|He].
    + apply table_exhausted. rewrite len_app. lia.
    + destruct (Z_lt_le_dec (len rest) 2) as [Hl|Hl].
      * apply table_exhausted. rewrite len_app. lia.
      * apply table_stop; [rewrite len_app; lia|].
        left. rewrite field_after. exact He.
  - inversion Hp as [|? ? Hp1 Hps]. subst.
    pose proof (len_nonneg p) as Hn.
    cbn [map concat]. rewrite <- !app_assoc.
    set (tail := concat (map entry ps) ++ rest).
    set (data := pre ++ entry p ++ tail).
    assert (HL : field 2 data (len pre) = len p + 3).
    { unfold data. rewrite field_after. unfold field.
      change (entry p) with (u16 (len p + 3) ++ p ++ [x00]).
      rewrite <- !app_assoc. change (Z.to_nat 2) with 2%nat.
      change (Z.to_nat 0) with 0%nat. cbn [skipn].
      apply le_value_u16. lia. }
    assert (Hlen : len data = len pre + (len p + 3) + len tail).
    { unfold data. rewrite !len_app, len_entry. lia. }
    pose proof (len_nonneg tail) as Hr.
    assert (Hpay : payload data (len pre) = p).
    { unfold payload. rewrite HL.
      replace (len pre + 2 + (len p + 3 - 3))
        with (len (pre ++ u16 (len p + 3)) + len p)
        by (rewrite len_app; unfold len, u16, bytes; cbn [map length]; lia).
      replace (len pre + 2) with (len (pre ++ u16 (len p + 3)))
        by (rewrite len_app; unfold len, u16, bytes; cbn [map length]; lia).
      unfold data. change (entry p) with (u16 (len p + 3) ++ p ++ [x00]).
      replace (pre ++ (u16 (len p + 3) ++ p ++ [x00]) ++ tail)
        with ((pre ++ u16 (len p + 3)) ++ p ++ ([x00] ++ tail))
        by (rewrite <- !app_assoc; reflexivity).
      apply slice_middle. }
    rewrite <- Hpay.
    apply table_entry; try lia.
    replace (len pre + 2 + (field 2 data (len pre) - 2))
      with (len (pre ++ entry p))
      by (rewrite HL, len_app, len_entry; lia).
    unfold data, tail. rewrite app_assoc.
    apply IH; assumption.
Qed.

Lemma decode_ignore_ascii_all (payloads : list (list byte)) :
  Forall (Forall (fun x => byte_val x < 0x80)) payloads ->
  map (decode Ignore) payloads = map (map byte_val) payloads.
Proof.
  induction 1 as [|p ps Hp1 Hps IH]; [reflexivity|].
  cbn [map]. rewrite decode_ignore_ascii by exact Hp1.
  f_equal. exact IH.
Qed.

End RoundTrip.

(** X11.  Round trip of the string table.  When the offset behind the eight
    sections is the start of a run of entries -- each a 16-bit length
    [n + 3], [n] payload bytes and one terminator byte -- followed by an
    end mark, the builder returns exactly the decoded payloads, in order;
    payloads of ASCII bytes come back unchanged. *)
Theorem string_table_round_trip (pre : list byte) (payloads : list (list byte))
        (rest : list byte) :
  Forall (fun p => len p + 3 < 65536) payloads ->
  ends_table rest ->
  0x0c + 4 <= len (pre ++ concat (map entry payloads) ++ rest) ->
  sections (pre ++ concat (map entry payloads) ++ rest) 8
           (0x0c + 4 + field 4 (pre ++ concat (map entry payloads) ++ rest) 0x0c)
           (len pre) ->
  X431Parser._extract_point_values (pre ++ concat (map entry payloads) ++ rest)
  = Some (Ok (map (decode Ignore) payloads))
  /\ (Forall (Forall (fun x => byte_val x < 0x80)) payloads ->
      map (decode Ignore) payloads = map (map byte_val) payloads).
Proof.
  intros Hp He Hlen Hs.
  set (data := pre ++ concat (map entry payloads) ++ rest) in *.
  split.
  - pose proof (field_nonneg 4 data 0x0c) as H0.
    assert (Hstart : 0 <= 0x0c + 4 + field 4 data 0x0c) by lia.
    destruct (skip_sections_sections data 8 _ (len pre) Hstart Hs) as [Hk Hoff].
    destruct (read_point_values_table data (S (length data)) (len pre) [] Hoff)
      as [table [H T]]; [unfold len; lia|].
    pose proof (table_from_encoded payloads pre rest Hp He) as T'.
    fold data in T'.
    rewrite (table_from_unique _ _ _ T _ T') in H.
    unfold X431Parser._extract_point_values, X431Parser._read_uint32.
    rewrite unpack_from_inside by lia.
    replace (12 + (4 + field 4 data 12)) with (12 + 4 + field 4 data 12) by lia.
    rewrite Hk. exact H.
  - apply decode_ignore_ascii_all.
Qed.

Lemma string_table_round_trip_witness :
  X431Parser._extract_point_values
    (firstn 0x160 demo ++ concat (map entry names) ++ records 17 [9; 10; 11; 12])
  = Some (Ok (map (decode Ignore) names))
  /\ map (decode Ignore) names = map lit ["Speed"; "RPM"; "km/h"; "rpm"]%string.
Proof.
  assert (Hs : sections
                 (firstn 0x160 demo ++ concat (map entry names)
                         ++ records 17 [9; 10; 11; 12]) 8
                 (0x0c + 4
                  + field 4 (firstn 0x160 demo ++ concat (map entry names)
                                    ++ records 17 [9; 10; 11; 12]) 0x0c)
                 (len (firstn 0x160 demo))).
  { change (len (firstn 0x160 demo)) with 0x160.
    change (0x0c + 4
            + field 4 (firstn 0x160 demo ++ concat (map entry names)
                              ++ records 17 [9; 10; 11; 12]) 0x0c) with 0x150.
    do 8 (apply sections_S; [vm_compute; discriminate|];
          match goal with
          | |- sections _ _ ?x _ =>
            let y := eval vm_compute in x in change x with y
          end).
    apply sections_O. }
  destruct (string_table_round_trip (firstn 0x160 demo) names
              (records 17 [9; 10; 11; 12])) as [R A].
  - repeat constructor; vm_compute; reflexivity.
  - right. vm_compute. reflexivity.
  - vm_compute. discriminate.
  - exact Hs.
  - split; [exact R|]. vm_compute. reflexivity.
Defined.

(** *** What the header extractions do on any input *)

Section HeaderOutcomes.

Lemma getitem_biased {A} (l : list A) (k : Z) :
  -8 <= k -> k < len l ->
  (exists x, getitem l k = Ok x)
  \/ (getitem l k = Raise IndexError /\ len l < 8).
Proof.
  intros H8 Hk.
  destruct (Z_lt_le_dec k 0) as [Hneg|Hpos].
  - unfold getitem.
    destruct (k <? 0) eqn:E; [|apply Z.ltb_ge in E; lia].
    destruct (k + len l <? 0) eqn:E1.
    + right. split; [reflexivity|]. apply Z.ltb_lt in E1. lia.
    + apply Z.ltb_ge in E1. cbn [orb].
      destruct (len l <=? k + len l) eqn:E2; [apply Z.leb_le in E2; lia|].
      destruct (nth_error l (Z.to_nat (k + len l))) as [x|] eqn:N.
      * left. exists x. reflexivity.
      * apply nth_error_None in N. unfold len in *. lia.
  - destruct (getitem_inside l k Hpos Hk) as [x [_ G]].
    left. exists x. exact G.
Qed.

(** The first loop of the clean header extraction: where it ends, or why
    it raises. *)
Lemma param_pass_outcome self n :
  forall i off names, 0 <= off ->
  match X431CleanParser.param_pass self n i off names with
  | Ok r => snd r = off + 4 * Z.of_nat n
            /\ ((0 < n)%nat ->
                off + 4 * Z.of_nat n - 2 <= len (file_data self))
  | Raise e =>
    (e = StructError /\ len (file_data self) < off + 4 * Z.of_nat n - 2)
    \/ (e = IndexError /\ len (point_values self) < 8)
  end.
Proof.
  induction n as [|n IH]; intros i off names H0.
  - cbn [X431CleanParser.param_pass snd]. split; [lia|]. intros H. lia.
  - cbn [X431CleanParser.param_pass]. unfold X431CleanParser._read_uint16.
    destruct (Z_lt_le_dec (len (file_data self)) (off + 2)) as [L|L].
    + rewrite unpack_from_outside by lia. cbn [bind]. left.
      split; [reflexivity|lia].
    + rewrite unpack_from_inside by lia. cbn [bind].
      pose proof (field_nonneg 2 (file_data self) off) as Hf.
      assert (Hnext : forall names',
                 match X431CleanParser.param_pass self n (i + 1) (off + 4) names' with
                 | Ok r => snd r = off + 4 * Z.of_nat (S n)
                           /\ ((0 < S n)%nat ->
                               off + 4 * Z.of_nat (S n) - 2
                               <= len (file_data self))
                 | Raise e =>
                   (e = StructError
                    /\ len (file_data self) < off + 4 * Z.of_nat (S n) - 2)
                   \/ (e = IndexError /\ len (point_values self) < 8)
                 end).
      { intros names'. specialize (IH (i + 1) (off + 4) names' ltac:(lia)).
        destruct (X431CleanParser.param_pass self n (i + 1) (off + 4) names')
          as [r|e].
        - destruct IH as [I1 I2]. split; [lia|]. intros _.
          destruct n as [|n']; [change (Z.of_nat 1) with 1; lia|].
          specialize (I2 ltac:(lia)). lia.
        - destruct IH as [[I1 I2]|I]; [left; split; [exact I1|lia]|right; exact I]. }
      destruct (negb (field 2 (file_data self) off =? 0)
                && (field 2 (file_data self) off - 9 <? len (point_values self)))
               eqn:V; [|apply Hnext].
      apply andb_true_iff in V. destruct V as [V1 V2].
      apply negb_true_iff, Z.eqb_neq in V1. apply Z.ltb_lt in V2.
      destruct (getitem_biased (point_values self)
                  (field 2 (file_data self) off - 9) ltac:(lia) V2)
        as [[x G]|[G Hl]]; rewrite G; cbn [bind].
      * apply Hnext.
      * right. split; [reflexivity|exact Hl].
Qed.

Lemma unit_pass_outcome self n :
  forall i off units, 0 <= off ->
  match X431CleanParser.unit_pass self n i off units with
  | Ok r => snd r = off + 4 * Z.of_nat n
            /\ ((0 < n)%nat ->
                off + 4 * Z.of_nat n - 2 <= len (file_data self))
  | Raise e =>
    (e = StructError /\ len (file_data self) < off + 4 * Z.of_nat n - 2)
    \/ (e = IndexError /\ len (point_values self) < 8)
  end.
Proof.
  induction n as [|n IH]; intros i off units H0.
  - cbn [X431CleanParser.unit_pass snd]. split; [lia|]. intros H. lia.
  - cbn [X431CleanParser.unit_pass]. unfold X431CleanParser._read_uint16.
    destruct (Z_lt_le_dec (len (file_data self)) (off + 2)) as [L|L].
    + rewrite unpack_from_outside by lia. cbn [bind]. left.
      split; [reflexivity|lia].
    + rewrite unpack_from_inside by lia. cbn [bind].
      pose proof (field_nonneg 2 (file_data self) off) as Hf.
      assert (Hnext : forall units',
                 match X431CleanParser.unit_pass self n (i + 1) (off + 4) units' with
                 | Ok r => snd r = off + 4 * Z.of_nat (S n)
                           /\ ((0 < S n)%nat ->
                               off + 4 * Z.of_nat (S n) - 2
                               <= len (file_data self))
                 | Raise e =>
                   (e = StructError
                    /\ len (file_data self) < off + 4 * Z.of_nat (S n) - 2)
                   \/ (e = IndexError /\ len (point_values self) < 8)
                 end).
      { intros units'. specialize (IH (i + 1) (off + 4) units' ltac:(lia)).
        destruct (X431CleanParser.unit_pass self n (i + 1) (off + 4) units')
          as [r|e].
        - destruct IH as [I1 I2]. split; [lia|]. intros _.
          destruct n as [|n']; [change (Z.of_nat 1) with 1; lia|].
          specialize (I2 ltac:(lia)). lia.
        - destruct IH as [[I1 I2]|I]; [left; split; [exact I1|lia]|right; exact I]. }
      destruct (negb (field 2 (file_data self) off =? 0)
                && (field 2 (file_data self) off - 9 <? len (point_values self)))
               eqn:V; [|apply Hnext].
      apply andb_true_iff in V. destruct V as [V1 V2].
      apply negb_true_iff, Z.eqb_neq in V1. apply Z.ltb_lt in V2.
      destruct (getitem_biased (point_values self)
                  (field 2 (file_data self) off - 9) ltac:(lia) V2)
        as [[x G]|[G Hl]]; rewrite G; cbn [bind].
      * apply Hnext.
      * right. split; [reflexivity|exact Hl].
Qed.

(** The clean header extraction as a whole. *)
Lemma clean_column_names_outcome self :
  0 <= column_count self ->
  match X431CleanParser._extract_column_names self with
  | Ok _ =>
    0 < column_count self ->
    0x138 + 8 * column_count self - 2 <= len (file_data self)
  | Raise e =>
    (e = StructError
     /\ len (file_data self) < 0x138 + 8 * column_count self - 2)
    \/ (e = IndexError /\ len (point_values self) < 8)
  end.
Proof.
  intros Hc. unfold X431CleanParser._extract_column_names.
  set (n := Z.to_nat (column_count self)).
  assert (Hn : Z.of_nat n = column_count self) by (apply Z2Nat.id; exact Hc).
  pose proof (param_pass_outcome self n 0 0x138 [] ltac:(lia)) as P1.
  destruct (X431CleanParser.param_pass self n 0 312 []) as [r1|e1].
  2:{ cbn [bind]. destruct P1 as [[E L]|P1]; [left; split; [exact E|lia]|].
      right. exact P1. }
  destruct P1 as [Q1 _]. cbn [bind]. rewrite Q1.
  pose proof (unit_pass_outcome self n 0 (0x138 + 4 * Z.of_nat n) []
                ltac:(lia)) as P2.
  destruct (X431CleanParser.unit_pass self n 0 (312 + 4 * Z.of_nat n) [])
    as [r2|e2]; cbn [bind].
  - destruct P2 as [_ Q2]. intros Hpos.
    assert (Hnn : (0 < n)%nat) by lia. specialize (Q2 Hnn). lia.
  - destruct P2 as [[E L]|P2]; [left; split; [exact E|lia]|].
    right. exact P2.
Qed.

End HeaderOutcomes.

(** X12.  When header extraction can fail, for either parser: with
    [struct.error] only if the buffer ends before the last header slot, and
    with [IndexError] only if the table has fewer than 8 strings.  So it
    returns headers whenever the buffer holds all slots and the table has at
    least 8 strings, whatever the stored indices; and both parsers fail on
    the same inputs with the same exception. *)
Theorem header_extraction_outcome (self : parser) :
  0 <= column_count self ->
  (forall e,
     X431Parser._extract_column_names self = Raise e ->
     (e = StructError
      /\ len (file_data self) < 0x138 + 8 * column_count self - 2)
     \/ (e = IndexError /\ len (point_values self) < 8))
  /\ (0x138 + 8 * column_count self - 2 <= len (file_data self) ->
      8 <= len (point_values self) ->
      exists names, X431Parser._extract_column_names self = Ok names)
  /\ (forall e,
        X431Parser._extract_column_names self = Raise e
        <-> X431CleanParser._extract_column_names self = Raise e).
Proof.
  intros Hc.
  pose proof (clean_column_names_outcome self Hc) as C.
  pose proof (header_outcomes_agree self) as A. unfold outcome in A.
  assert (Hiff : forall e,
             X431Parser._extract_column_names self = Raise e
             <-> X431CleanParser._extract_column_names self = Raise e).
  { intros e.
    destruct (X431Parser._extract_column_names self) as [h1|e1];
      destruct (X431CleanParser._extract_column_names self) as [h2|e2];
      cbn [bind] in A; try discriminate.
    - split; discriminate.
    - inversion A. reflexivity. }
  assert (Hraise : forall e,
             X431Parser._extract_column_names self = Raise e ->
             (e = StructError
              /\ len (file_data self) < 0x138 + 8 * column_count self - 2)
             \/ (e = IndexError /\ len (point_values self) < 8)).
  { intros e He. apply Hiff in He. rewrite He in C. exact C. }
  split; [exact Hraise|]. split; [|exact Hiff].
  intros Hlen Ht.
  destruct (X431Parser._extract_column_names self) as [names|e] eqn:E.
  - exists names. reflexivity.
  - destruct (Hraise e eq_refl) as [[_ L]|[_ L]]; lia.
Qed.

Lemma header_extraction_outcome_witness :
  X431Parser._extract_column_names
    (parser_of low_index_empty [] 1) = Raise IndexError
  /\ len (point_values (parser_of low_index_empty [] 1)) < 8
  /\ X431CleanParser._extract_column_names
       (parser_of low_index_empty [] 1) = Raise IndexError.
Proof.
  assert (H : X431Parser._extract_column_names
                (parser_of low_index_empty [] 1) = Raise IndexError)
    by (vm_compute; reflexivity).
  destruct (header_extraction_outcome (parser_of low_index_empty [] 1))
    as [R [_ I]]; [vm_compute; discriminate|].
  split; [exact H|]. split.
  - destruct (R IndexError H) as [[E _]|[_ L]]; [discriminate|exact L].
  - apply I. exact H.
Defined.

(** *** The shape of the headers *)

Section HeaderShapes.






Lemma replace_scan_removes (c : Z) (new : str) :
  ~ In c new ->
  forall s skip, ~ In c (replace_scan skip [c] new s).
Proof.
  intros Hnew. induction s as [|x t IH]; intros skip; [intros []|].
  cbn [replace_scan]. destruct skip as [|k]; [|apply IH].
  cbn [startswith length Nat.sub]. destruct (c =? x) eqn:E; cbn [andb].
  - destruct t; intros H; apply in_app_or in H;
      destruct H as [H|H]; try contradiction; apply (IH _ H).
  - apply Z.eqb_neq in E. intros [H|H]; [congruence|apply (IH _ H)].
Qed.

Lemma clean_parameter_name_no_hash (name : str) :
  ~ In hash (X431CleanParser._clean_parameter_name name).
Proof.
  rewrite clean_parameter_name_normalize. unfold normalize.
  destruct (str_eqb name []).
  - vm_compute. intuition discriminate.
  - change (lit "#") with [hash]. cbv zeta.
    unfold replace at 1. apply replace_scan_removes.
    vm_compute. intuition discriminate.
Qed.

Lemma replace_absent (s old new : str) :
  old <> [] -> occurs old s = false -> replace s old new = s.
Proof.
  intros Ho. destruct old as [|o old']; [contradiction|]. unfold replace.
  induction s as [|c t IH]; intros H; [reflexivity|].
  cbn [occurs] in H. apply orb_false_iff in H. destruct H as [H1 H2].
  cbn [replace_scan]. rewrite H1. f_equal. apply IH. exact H2.
Qed.

End HeaderShapes.



(** X14.  The clean headers that are returned are "Row" followed by one header
    for each channel, and no such header holds a "#": the normalization
    ends by replacing every "#" with "Count". *)
Theorem clean_headers_have_no_hash (self : parser) (names : list str) :
  X431CleanParser._extract_column_names self = Ok names ->
  exists headers,
    names = lit "Row" :: headers
    /\ forall h, In h headers -> ~ In hash h.
Proof.
  unfold X431CleanParser._extract_column_names. intros H.
  destruct (X431CleanParser.param_pass self _ 0 312 []) as [r1|];
    [|discriminate].
  cbn [bind] in H.
  destruct (X431CleanParser.unit_pass self _ 0 (snd r1) []) as [r2|];
    [|discriminate].
  cbn [bind] in H. inversion H. subst names.
  rewrite (fold_left_append
             (fun pu => X431CleanParser.col_name (fst pu) (snd pu))).
  eexists. split; [reflexivity|].
  intros h Hin. apply in_map_iff in Hin. destruct Hin as [[p u] [E _]].
  subst h. cbn [fst snd]. unfold X431CleanParser.col_name.
  pose proof (clean_parameter_name_no_hash p) as Np.
  pose proof (clean_parameter_name_no_hash u) as Nu.
  destruct (_ && _); [|exact Np].
  intros Hh. apply in_app_or in Hh. destruct Hh as [Hh|Hh]; [contradiction|].
  apply in_app_or in Hh. destruct Hh as [Hh|Hh].
  { vm_compute in Hh. intuition discriminate. }
  apply in_app_or in Hh. destruct Hh as [Hh|Hh]; [contradiction|].
  vm_compute in Hh. intuition discriminate.
Qed.

Lemma clean_headers_have_no_hash_witness :
  X431CleanParser._extract_column_names
    (parser_of (file 1 [9] [10] (map text ["Misfire #"; "#/s"]%string)
                     (records 4 [9]))
               ["Misfire #"; "#/s"]%string 1)
  = Ok [lit "Row"; lit "Misfire Count [Count/s]"]
  /\ exists headers,
       [lit "Row"; lit "Misfire Count [Count/s]"] = lit "Row" :: headers
       /\ forall h, In h headers -> ~ In hash h.
Proof.
  split; [vm_compute; reflexivity|].
  apply (clean_headers_have_no_hash
           (parser_of (file 1 [9] [10] (map text ["Misfire #"; "#/s"]%string)
                            (records 4 [9]))
                      ["Misfire #"; "#/s"]%string 1)).
  vm_compute. reflexivity.
Defined.

(** X15.  A name that is not empty, has no white space at either end and holds
    none of the six abbreviations is left as it is. *)
Theorem clean_name_unchanged (name : str) :
  name <> [] ->
  strip name = name ->
  Forall (fun kv => occurs (fst kv) name = false)
         X431CleanParser.replacements ->
  X431CleanParser._clean_parameter_name name = name.
Proof.
  intros Hne Hs Hr.
  rewrite clean_parameter_name_normalize. unfold normalize.
  destruct (str_eqb name []) eqn:E.
  { unfold str_eqb in E. destruct (list_eq_dec Z.eq_dec name []);
      [contradiction|discriminate]. }
  cbv zeta. rewrite Hs.
  unfold X431CleanParser.replacements in Hr.
  repeat match goal with
         | H : Forall _ (_ :: _) |- _ => inversion H; clear H; subst
         end.
  cbn [fst] in *.
  rewrite (replace_absent name (lit "B1S1")) by (discriminate || assumption).
  rewrite (replace_absent name (lit "B2S1")) by (discriminate || assumption).
  rewrite (replace_absent name (lit "A/F")) by (discriminate || assumption).
  rewrite (replace_absent name (lit "A/C")) by (discriminate || assumption).
  rewrite (replace_absent name (lit "Cat OT MF F/C"))
    by (discriminate || assumption).
  apply replace_absent; [discriminate|assumption].
Qed.

Lemma clean_name_unchanged_witness :
  X431CleanParser._clean_parameter_name (lit "Engine Speed")
  = lit "Engine Speed".
Proof.
  apply (clean_name_unchanged (lit "Engine Speed")).
  - discriminate.
  - vm_compute. reflexivity.
  - repeat constructor.
Defined.

(** *** Whole parses and the batch converters *)

Section WholeParse.

Lemma verbose_parse_total (data : list byte) :
  exists r, X431Parser.parse data = Some r.
Proof.
  destruct (extract_point_values_total data) as [r Hr].
  unfold X431Parser.parse.
  destruct (X431Parser._extract_channel_count data); [|eexists; reflexivity].
  rewrite Hr. destruct r; eexists; reflexivity.
Qed.

Lemma parse_rows_agree (data : list byte) :
  rows_of (X431Parser.parse data) = rows_of (X431CleanParser.parse data).
Proof.
  unfold X431Parser.parse, X431CleanParser.parse.
  change (X431CleanParser._extract_channel_count data)
    with (X431Parser._extract_channel_count data).
  change (X431CleanParser._extract_point_values data)
    with (X431Parser._extract_point_values data).
  destruct (X431Parser._extract_channel_count data) as [count|];
    [|reflexivity].
  destruct (X431Parser._extract_point_values data) as [[values|]|];
    try reflexivity.
  set (self := {| file_data := data; point_values := values;
                  column_count := count |}).
  change (X431CleanParser._extract_data_rows self)
    with (X431Parser._extract_data_rows self).
  pose proof (header_outcomes_agree self) as Ho. unfold outcome in Ho.
  cbn [rows_of option_map]. f_equal.
  destruct (X431Parser._extract_column_names self) as [h1|e1];
    destruct (X431CleanParser._extract_column_names self) as [h2|e2];
    cbn [bind] in Ho |- *; try discriminate.
  - destruct (X431Parser._extract_data_rows self); reflexivity.
  - inversion Ho. reflexivity.
Qed.

(** The two conversions end alike: both with rows to write, or both with
    an exception. *)
Lemma conversions_end_alike (data : list byte) :
  match convert_x431_to_csv data, convert_x431_to_csv_clean data with
  | Some (Ok _), Some (Ok _) => True
  | Some (Raise _), Some (Raise _) => True
  | None, None => True
  | _, _ => False
  end.
Proof.
  pose proof (parse_rows_agree data) as H.
  unfold convert_x431_to_csv, convert_x431_to_csv_clean, rows_of in *.
  destruct (X431Parser.parse data) as [[x|e]|];
    destruct (X431CleanParser.parse data) as [[y|f]|];
    cbn [option_map written bind] in *; try discriminate; exact I.
Qed.

Lemma batch_loop_alike {A B} (c1 : list byte -> option (result A))
      (c2 : list byte -> option (result B)) :
  (forall f, match c1 f, c2 f with
             | Some (Ok _), Some (Ok _) => True
             | Some (Raise _), Some (Raise _) => True
             | None, None => True
             | _, _ => False
             end) ->
  forall files s e, batch_loop c1 files s e = batch_loop c2 files s e.
Proof.
  intros H. induction files as [|f files IH]; intros s e; [reflexivity|].
  cbn [batch_loop]. specialize (H f).
  destruct (c1 f) as [[x|e1]|]; destruct (c2 f) as [[y|e2]|];
    try contradiction; try reflexivity; apply IH.
Qed.

Lemma batch_loop_counts (files : list (list byte)) :
  forall s e,
    batch_loop convert_x431_to_csv files s e
    = Some (s + len (filter parses files),
            e + len (filter (fun f => negb (parses f)) files)).
Proof.
  induction files as [|f files IH]; intros s e.
  - cbn [batch_loop filter]. unfold len. cbn [length].
    rewrite !Z.add_0_r. reflexivity.
  - cbn [batch_loop filter].
    destruct (verbose_parse_total f) as [r Hr].
    assert (Hp : parses f = match r with Ok _ => true | Raise _ => false end)
      by (unfold parses; rewrite Hr; destruct r; reflexivity).
    unfold convert_x431_to_csv. rewrite Hr, Hp.
    destruct r as [x|e']; cbn [option_map written bind negb];
      rewrite IH, len_cons; f_equal; f_equal; lia.
Qed.

Lemma filter_split_length {A} (p : A -> bool) (l : list A) :
  len (filter p l) + len (filter (fun x => negb (p x)) l) = len l.
Proof.
  induction l as [|x l IH]; [reflexivity|].
  cbn [filter]. destruct (p x); cbn [negb]; rewrite !len_cons; lia.
Qed.

End WholeParse.

(** X16.  A well-formed file parses, and to this table.  When the preamble and
    the eight sections lead to offset [off], there is at least one channel,
    the buffer holds the header slots and the record count, and the stored
    header indices are 0 or at least 9, both parsers return: the headers of
    their policy over the string table that starts at [off], and the same
    [count / 4 / channels] rows read from the cell area 16 bytes past the
    16-bit value of offset 0x11c. *)
Theorem well_formed_file_parses (data : list byte) (off : Z) :
  0x0c + 4 <= len data ->
  sections data 8 (0x0c + 4 + field 4 data 0x0c) off ->
  1 <= field 1 data 0x134 / 4 ->
  0x138 + 8 * (field 1 data 0x134 / 4) <= len data ->
  (forall k, 0 <= k < 2 * (field 1 data 0x134 / 4) ->
             plain_index (slot_index data (0x138 + 4 * k))) ->
  field 2 data 0x11c + 8 + 4 <= len data ->
  exists table,
    table_from data off table
    /\ let self := {| file_data := data;
                      point_values := table;
                      column_count := field 1 data 0x134 / 4 |} in
       let rows :=
           map (data_row self (field 2 data 0x11c + 16))
               (seq 0 (Z.to_nat (field 4 data (field 2 data 0x11c + 8)
                                 / 4 / (field 1 data 0x134 / 4)))) in
       X431Parser.parse data
       = Some (Ok (lit "Num" :: map (verbose_header self) (channels self), rows))
       /\ X431CleanParser.parse data
          = Some (Ok (lit "Row" :: map (clean_header self) (channels self),
                      rows)).
Proof.
  intros Hpre Hs Hc Hslots Hp Hrc.
  set (count := field 1 data 0x134 / 4) in *.
  pose proof (field_nonneg 4 data 0x0c) as H0.
  pose proof (field_nonneg 2 data 0x11c) as Hv.
  assert (Hstart : 0 <= 0x0c + 4 + field 4 data 0x0c) by lia.
  destruct (skip_sections_sections data 8 _ off Hstart Hs) as [Hk Hoff].
  destruct (read_point_values_table data (S (length data)) off [] Hoff)
    as [table [H T]]; [unfold len; lia|].
  exists table. split; [exact T|]. cbv zeta.
  set (self := {| file_data := data; point_values := table;
                  column_count := count |}).
  assert (Hcount : X431Parser._extract_channel_count data = Ok count).
  { unfold X431Parser._extract_channel_count, X431Parser._read_uint8.
    rewrite unpack_from_inside by lia. reflexivity. }
  assert (Hpv : X431Parser._extract_point_values data = Some (Ok table)).
  { unfold X431Parser._extract_point_values, X431Parser._read_uint32.
    rewrite unpack_from_inside by lia.
    replace (12 + (4 + field 4 data 12)) with (12 + 4 + field 4 data 12) by lia.
    rewrite Hk. exact H. }
  assert (Hplain : forall c, In c (channels self) ->
                             plain_index (primary_index self c)
                             /\ plain_index (secondary_index self c)).
  { intros c Hin. unfold channels in Hin. apply in_seq in Hin.
    cbn [column_count self] in Hin.
    assert (Z.of_nat c < count) by lia.
    unfold primary_index, secondary_index, pass1, pass2.
    cbn [file_data column_count self]. split.
    - apply Hp. lia.
    - replace (312 + 4 * count + 4 * Z.of_nat c)
        with (312 + 4 * (count + Z.of_nat c)) by lia.
      apply Hp. lia. }
  assert (Hrows : X431Parser._extract_data_rows self
                  = Ok (map (data_row self (field 2 data 0x11c + 16))
                            (seq 0 (Z.to_nat
                                      (field 4 data (field 2 data 0x11c + 8)
                                       / 4 / count))))).
  { apply (extract_data_rows_closed self (field 2 data 0x11c)
             (field 4 data (field 2 data 0x11c + 8))).
    - apply unpack_from_inside; cbn [file_data self]; lia.
    - apply unpack_from_inside; cbn [file_data self]; lia.
    - cbn [column_count self]. lia. }
  split.
  - unfold X431Parser.parse. rewrite Hcount, Hpv. fold self.
    rewrite (extract_column_names_closed self)
      by (cbn [column_count file_data self]; (lia || exact Hplain)).
    cbn [bind]. rewrite Hrows. reflexivity.
  - unfold X431CleanParser.parse.
    change (X431CleanParser._extract_channel_count data)
      with (X431Parser._extract_channel_count data).
    change (X431CleanParser._extract_point_values data)
      with (X431Parser._extract_point_values data).
    rewrite Hcount, Hpv. fold self.
    rewrite (clean_column_names_closed self)
      by (cbn [column_count file_data self]; (lia || exact Hplain)).
    cbn [bind].
    change (X431CleanParser._extract_data_rows self)
      with (X431Parser._extract_data_rows self).
    rewrite Hrows. reflexivity.
Qed.

Lemma well_formed_file_parses_witness :
  exists table,
    table_from demo 0x160 table
    /\ X431Parser.parse demo
       = Some (Ok (lit "Num"
                       :: map (verbose_header
                                 {| file_data := demo; point_values := table;
                                    column_count := 2 |}) [0; 1]%nat,
                   map (data_row {| file_data := demo; point_values := table;
                                    column_count := 2 |} 389) [0; 1]%nat)).
Proof.
  destruct (well_formed_file_parses demo 0x160) as [table [T [V _]]].
  - vm_compute. discriminate.
  - change (0x0c + 4 + field 4 demo 0x0c) with 0x150.
    do 8 (apply sections_S; [vm_compute; discriminate|];
          match goal with
          | |- sections _ _ ?x _ =>
            let y := eval vm_compute in x in change x with y
          end).
    apply sections_O.
  - vm_compute. discriminate.
  - vm_compute. discriminate.
  - change (field 1 demo 0x134 / 4) with 2. intros k Hk.
    assert (K : k = 0 \/ k = 1 \/ k = 2 \/ k = 3) by lia.
    destruct K as [-> | [-> | [-> | ->]]]; vm_compute; right; discriminate.
  - vm_compute. discriminate.
  - exists table. split; [exact T|]. exact V.
Defined.

(** X17.  Conversely, a file that parses has at least one channel, and holds the
    preamble length, the eight section lengths, every header slot and the
    record count. *)
Theorem parsed_file_is_well_formed (data : list byte) (headers : list str)
        (rows : list (list str)) :
  X431Parser.parse data = Some (Ok (headers, rows)) ->
  exists count,
    X431Parser._extract_channel_count data = Ok count
    /\ 1 <= count <= 63
    /\ 0x0c + 4 <= len data
    /\ (exists off, sections data 8 (0x0c + 4 + field 4 data 0x0c) off)
    /\ 0x138 + 8 * count - 2 <= len data
    /\ field 2 data 0x11c + 8 + 4 <= len data.
Proof.
  unfold X431Parser.parse. intros H.
  destruct (X431Parser._extract_channel_count data) as [count|] eqn:Hc;
    [|discriminate].
  destruct (X431Parser._extract_point_values data) as [[table|]|] eqn:Hpv;
    try discriminate.
  set (self := {| file_data := data; point_values := table;
                  column_count := count |}) in *.
  destruct (X431Parser._extract_column_names self) as [names|] eqn:Hn;
    [|discriminate].
  cbn [bind] in H.
  destruct (X431Parser._extract_data_rows self) as [data_rows|] eqn:Hr;
    [|discriminate].
  assert (Hrange : 0 <= count <= 63).
  { unfold X431Parser._extract_channel_count in Hc.
    destruct (X431Parser._read_uint8 data 308) as [x|] eqn:Hb; [|discriminate].
    cbn [bind] in Hc. inversion Hc.
    destruct (unpack_from_ok_inv 1 data 308 x ltac:(lia) Hb) as [_ Hx].
    pose proof (field_nonneg 1 data 308).
    pose proof (field_lt 1 data 308 ltac:(lia)) as Hl.
    change (256 ^ 1) with 256 in Hl. subst x.
    split; [apply Z.div_pos; lia|].
    assert (field 1 data 308 / 4 < 64)
      by (apply Z.div_lt_upper_bound; lia).
    lia. }
  destruct (extract_data_rows_inv _ _ Hr) as [v [rc [Hv [Hrc Hne]]]].
  cbn [file_data column_count self] in Hv, Hrc, Hne.
  destruct (unpack_from_ok_inv 2 data 0x11c v ltac:(lia) Hv) as [Hv1 Hv2].
  pose proof (unpack_from_nonneg _ _ _ _ Hv) as Hv0.
  destruct (unpack_from_ok_inv 4 data (v + 8) rc ltac:(lia) Hrc) as [Hr1 _].
  subst v.
  exists count. split; [reflexivity|]. split; [lia|].
  unfold X431Parser._extract_point_values in Hpv.
  destruct (X431Parser._read_uint32 data 12) as [var32|] eqn:R; [|discriminate].
  destruct (unpack_from_ok_inv 4 data 12 var32 ltac:(lia) R) as [Hin Hvar].
  subst var32.
  destruct (X431Parser.skip_sections 8 data (12 + (4 + field 4 data 12)))
    as [off|] eqn:K; [|discriminate].
  split; [lia|]. split.
  { exists off.
    replace (12 + 4 + field 4 data 12) with (12 + (4 + field 4 data 12)) by lia.
    apply sections_of_skip; [|exact K].
    pose proof (field_nonneg 4 data 12). lia. }
  split; [|lia].
  pose proof (header_outcomes_agree self) as A. unfold outcome in A.
  rewrite Hn in A. cbn [bind] in A.
  pose proof (clean_column_names_outcome self ltac:(cbn; lia)) as C.
  destruct (X431CleanParser._extract_column_names self); [|discriminate].
  cbn [column_count file_data self] in C. apply C. lia.
Qed.

Lemma parsed_file_is_well_formed_witness :
  exists count,
    X431Parser._extract_channel_count demo = Ok count
    /\ 1 <= count <= 63
    /\ 0x0c + 4 <= len demo
    /\ (exists off, sections demo 8 (0x0c + 4 + field 4 demo 0x0c) off)
    /\ 0x138 + 8 * count - 2 <= len demo
    /\ field 2 demo 0x11c + 8 + 4 <= len demo.
Proof.
  apply (parsed_file_is_well_formed demo
           [lit "Num"; lit "1. Speed (km/h)"; lit "2. RPM (rpm)"]
           [[lit "1"; lit "Speed"; lit "RPM"];
            [lit "2"; lit "km/h"; lit "rpm"]]).
  vm_compute. reflexivity.
Defined.

(** X18.  A batch run over at least one file attempts every file, whatever
    fails on the way: it reports as successes the files that parse and as
    errors the files whose parse raises, and the two counts add up to the
    number of files. *)
Theorem batch_counts_every_file (x431_files : list (list byte)) :
  x431_files <> [] ->
  batch_convert x431_files
  = Some (Counts (len (filter parses x431_files))
                 (len (filter (fun f => negb (parses f)) x431_files)))
  /\ len (filter parses x431_files)
     + len (filter (fun f => negb (parses f)) x431_files)
     = len x431_files.
Proof.
  intros Hne. split; [|apply filter_split_length].
  unfold batch_convert. destruct x431_files as [|f files]; [contradiction|].
  rewrite batch_loop_counts. cbn [option_map fst snd]. reflexivity.
Qed.

Lemma batch_counts_every_file_witness :
  batch_convert [demo; low_index_empty; cut_short; unit_unknown]
  = Some (Counts 3 1).
Proof.
  refine (eq_trans
            (proj1 (batch_counts_every_file
                      [demo; low_index_empty; cut_short; unit_unknown] _)) _).
  - discriminate.
  - vm_compute. reflexivity.
Defined.

(** X19.  The two batch converters report the same counts on the same files:
    a file converts with the clean parser exactly when it converts with
    the verbose one. *)
Theorem batch_converters_agree (x431_files : list (list byte)) :
  batch_convert_clean x431_files = batch_convert x431_files.
Proof.
  unfold batch_convert_clean, batch_convert.
  destruct x431_files as [|f files]; [reflexivity|].
  f_equal. symmetry. apply batch_loop_alike. apply conversions_end_alike.
Qed.

(** ** The properties of the specification on decoding and on headers *)

(** *** The decoder against the encoding *)

Section Utf8Facts.

Ltac bools :=
  repeat match goal with
         | H : (_ <? _) = true |- _ => apply Z.ltb_lt in H
         | H : (_ <? _) = false |- _ => apply Z.ltb_ge in H
         | H : (_ <=? _) = true |- _ => apply Z.leb_le in H
         | H : (_ <=? _) = false |- _ => apply Z.leb_gt in H
         | H : (_ =? _) = true |- _ => apply Z.eqb_eq in H
         | H : (_ =? _) = false |- _ => apply Z.eqb_neq in H
         | H : negb _ = true |- _ => apply negb_true_iff in H
         | H : negb _ = false |- _ => apply negb_false_iff in H
         | H : (_ && _) = true |- _ => apply andb_true_iff in H; destruct H
         | H : (_ && _) = false |- _ => apply andb_false_iff in H; destruct H
         | H : (_ || _) = false |- _ => apply orb_false_iff in H; destruct H
         | H : (_ || _) = true |- _ => apply orb_true_iff in H; destruct H
         end.

Lemma utf8_encode_encoded c tail :
  scalar c -> encoded c tail (utf8_encode c ++ tail).
Proof.
  intros [R N]. unfold utf8_encode.
  destruct (c <? 128) eqn:A1; bools.
  { cbn [app]. apply encoded_1. lia. }
  destruct (c <? 2048) eqn:A2; bools.
  { cbn [app]. apply encoded_2; Z.div_mod_to_equations; lia. }
  destruct (c <? 65536) eqn:A3; bools.
  { cbn [app]. apply encoded_3; Z.div_mod_to_equations; lia. }
  cbn [app]. apply encoded_4; Z.div_mod_to_equations; lia.
Qed.

Lemma encoded_scalar c tail s : encoded c tail s -> scalar c.
Proof. intros E. unfold scalar. inversion E; subst; lia. Qed.

(** The bytes decide the scalar value and where its encoding ends. *)
Lemma encoded_unique c tail c' tail' s :
  encoded c tail s -> encoded c' tail' s -> c = c' /\ tail = tail'.
Proof.
  intros E E'. inversion E; subst; inversion E'; subst;
    try (split; [lia|reflexivity]); lia.
Qed.

(** The scalar value decides its bytes. *)
Lemma encoded_determines c tail s s' :
  encoded c tail s -> encoded c tail s' -> s = s'.
Proof.
  intros E E'. inversion E; subst; inversion E'; subst;
    try reflexivity; try lia; repeat (f_equal; try lia).
Qed.

Lemma encoded_utf8_encode c tail s :
  encoded c tail s -> s = utf8_encode c ++ tail.
Proof.
  intros E. apply (encoded_determines c tail); [exact E|].
  apply utf8_encode_encoded. apply (encoded_scalar _ _ _ E).
Qed.

Lemma encoded_at_start_encoded s :
  encoded_at_start s <-> exists c tail, encoded c tail s.
Proof.
  split.
  - intros [c [tail [Hc E]]]. exists c, tail. subst s.
    apply utf8_encode_encoded. exact Hc.
  - intros [c [tail E]]. exists c, tail. split.
    + apply (encoded_scalar _ _ _ E).
    + apply encoded_utf8_encode. exact E.
Qed.

Lemma dropping_encoded c tail s out :
  encoded c tail s -> dropping tail out -> dropping s (c :: out).
Proof.
  intros E D. rewrite (encoded_utf8_encode _ _ _ E).
  apply dropping_keep; [apply (encoded_scalar _ _ _ E)|exact D].
Qed.

Lemma dropping_not_encoded b rest out :
  (forall c tail, ~ encoded c tail (b :: rest)) ->
  dropping rest out -> dropping (b :: rest) out.
Proof.
  intros N D. apply dropping_drop; [|exact D].
  intros H. apply encoded_at_start_encoded in H.
  destruct H as [c [tail E]]. exact (N c tail E).
Qed.

Ltac no_start :=
  let c := fresh "c" in
  let tail := fresh "tail" in
  let E := fresh "E" in
  intros c tail E; inversion E; subst;
  unfold is_continuation in *; bools;
  repeat match goal with
         | H : (if ?b then _ else _) = true |- _ => destruct b eqn:?; bools
         end;
  lia.

Ltac pass_over := apply dropping_not_encoded; [no_start|].

(** The decoder with ['ignore'] keeps exactly the encoded scalar values. *)
Lemma utf8_decode_ignore_dropping n :
  forall s, (length s <= n)%nat -> Forall (fun x => 0 <= x) s ->
  dropping s (utf8_decode Ignore s).
Proof.
  induction n as [|n IH]; intros s Hn Hs.
  - destruct s; [constructor|cbn [length] in Hn; lia].
  - destruct s as [|ch s1]; [constructor|].
    cbn [length] in Hn. inversion Hs as [|? ? Hch Hs1]. subst.
    assert (K1 : dropping s1 (utf8_decode Ignore s1))
      by (apply IH; [lia | exact Hs1]).
    cbn [utf8_decode on_error app].
    destruct (ch <? 128) eqn:A1.
    { apply (dropping_encoded ch s1); [|exact K1].
      apply encoded_1. bools. lia. }
    destruct (ch <? 224) eqn:A2.
    { destruct (ch <? 194) eqn:A3; [pass_over; exact K1|].
      destruct s1 as [|ch2 s2]; [pass_over; constructor|].
      destruct (negb (is_continuation ch2)) eqn:C2; [pass_over; exact K1|].
      inversion Hs1 as [|? ? ? Hs2]. subst.
      rewrite shiftl_6. change (Z.shiftl 192 6 + 128) with 12416.
      apply (dropping_encoded _ s2).
      - unfold is_continuation in *. bools. apply encoded_2; lia.
      - apply IH; [cbn [length] in Hn; lia | exact Hs2]. }
    destruct (ch <? 240) eqn:A3.
    { destruct s1 as [|ch2 s2]; [pass_over; constructor|].
      destruct (negb (is_continuation ch2)
                || (if ch2 <? 160 then ch =? 224 else ch =? 237)) eqn:C2;
        [pass_over; exact K1|].
      destruct s2 as [|ch3 s3];
        [pass_over; pass_over; constructor|].
      inversion Hs1 as [|? ? ? Hs2]. subst.
      inversion Hs2 as [|? ? ? Hs3]. subst.
      assert (K2 : dropping (ch3 :: s3) (utf8_decode Ignore (ch3 :: s3)))
        by (apply IH; [cbn [length] in *; lia | exact Hs2]).
      destruct (negb (is_continuation ch3)) eqn:C3;
        [pass_over; pass_over; exact K2|].
      rewrite shiftl_12, shiftl_6.
      change (Z.shiftl 224 12 + Z.shiftl 128 6 + 128) with 925824.
      apply (dropping_encoded _ s3).
      - unfold is_continuation in *. bools.
        destruct (ch2 <? 160) eqn:D; bools; apply encoded_3; lia.
      - apply IH; [cbn [length] in *; lia | exact Hs3]. }
    destruct (ch <? 245) eqn:A4; [|pass_over; exact K1].
    destruct s1 as [|ch2 s2]; [pass_over; constructor|].
    destruct (negb (is_continuation ch2)
              || (if ch2 <? 144 then ch =? 240 else ch =? 244)) eqn:C2;
      [pass_over; exact K1|].
    destruct s2 as [|ch3 s3]; [pass_over; pass_over; constructor|].
    inversion Hs1 as [|? ? ? Hs2]. subst.
    inversion Hs2 as [|? ? ? Hs3]. subst.
    assert (K2 : dropping (ch3 :: s3) (utf8_decode Ignore (ch3 :: s3)))
      by (apply IH; [cbn [length] in *; lia | exact Hs2]).
    destruct (negb (is_continuation ch3)) eqn:C3;
      [pass_over; pass_over; exact K2|].
    destruct s3 as [|ch4 s4];
      [pass_over; pass_over; pass_over; constructor|].
    inversion Hs3 as [|? ? ? Hs4]. subst.
    assert (K3 : dropping (ch4 :: s4) (utf8_decode Ignore (ch4 :: s4)))
      by (apply IH; [cbn [length] in *; lia | exact Hs3]).
    destruct (negb (is_continuation ch4)) eqn:C4;
      [pass_over; pass_over; pass_over; exact K3|].
    rewrite shiftl_18, shiftl_12, shiftl_6.
    change (Z.shiftl 240 18 + Z.shiftl 128 12 + Z.shiftl 128 6 + 128)
      with 63447168.
    apply (dropping_encoded _ s4).
    + unfold is_continuation in *. bools.
      destruct (ch2 <? 144) eqn:D; bools; apply encoded_4; lia.
    + apply IH; [cbn [length] in *; lia | exact Hs4].
Qed.

Lemma dropping_unique s out :
  dropping s out -> forall out', dropping s out' -> out = out'.
Proof.
  induction 1 as [|c rest out Hc D IH|b rest out N D IH]; intros out' D'.
  - inversion D' as [|c' rest' o' Hc' D1 E1|]; [reflexivity|].
    pose proof (utf8_encode_encoded c' rest' Hc') as E.
    rewrite E1 in E. inversion E.
  - pose proof (utf8_encode_encoded c rest Hc) as E.
    remember (utf8_encode c ++ rest) as s eqn:Es.
    inversion D' as [E0|c' rest' o' Hc' D1 E1|b' rest' o' N' D1 E1].
    + subst s. rewrite <- E0 in E. inversion E.
    + pose proof (utf8_encode_encoded c' rest' Hc') as E'.
      rewrite E1 in E'.
      destruct (encoded_unique _ _ _ _ _ E E') as [-> ->].
      f_equal. apply IH. exact D1.
    + exfalso. apply N'. rewrite E1. apply encoded_at_start_encoded.
      exists c, rest. exact E.
  - remember (b :: rest) as s eqn:Es.
    inversion D' as [E0|c' rest' o' Hc' D1 E1|b' rest' o' N' D1 E1].
    + subst s. discriminate.
    + exfalso. apply N. rewrite <- E1. exists c', rest'.
      split; [exact Hc'|reflexivity].
    + subst s. inversion E1. subst. apply IH. exact D1.
Qed.

(** Every code point that is kept was encoded in the bytes. *)
Lemma dropping_holds s out :
  dropping s out -> forall c, In c out -> holds s (utf8_encode c).
Proof.
  induction 1 as [|c0 rest out Hc D IH|b rest out N D IH]; intros c Hin.
  - destruct Hin.
  - destruct Hin as [<-|Hin].
    + exists [], rest. reflexivity.
    + destruct (IH c Hin) as [before [after E]].
      exists (utf8_encode c0 ++ before), after.
      rewrite E, <- app_assoc. reflexivity.
  - destruct (IH c Hin) as [before [after E]].
    exists (b :: before), after. rewrite E. reflexivity.
Qed.

Lemma decode_ignore_dropping (bs : list byte) :
  dropping (map byte_val bs) (decode Ignore bs).
Proof.
  unfold decode.
  apply (utf8_decode_ignore_dropping (length (map byte_val bs))); [lia|].
  apply Forall_forall. intros x Hx. apply in_map_iff in Hx.
  destruct Hx as [y [E _]]. subst x. pose proof (byte_val_range y). lia.
Qed.

Lemma dropping_decode_ignore (bs : list byte) (out : str) :
  dropping (map byte_val bs) out <-> out = decode Ignore bs.
Proof.
  split.
  - intros D. apply (dropping_unique _ _ D). apply decode_ignore_dropping.
  - intros ->. apply decode_ignore_dropping.
Qed.

(** The two equations of the tolerant decoder. *)
Lemma decode_ignore_keeps (c : Z) (bs rest : list byte) :
  scalar c -> map byte_val bs = utf8_encode c ++ map byte_val rest ->
  decode Ignore bs = c :: decode Ignore rest.
Proof.
  intros Hc E. symmetry. apply dropping_decode_ignore. rewrite E.
  apply dropping_keep; [exact Hc|apply decode_ignore_dropping].
Qed.

Lemma decode_ignore_drops (x : byte) (rest : list byte) :
  ~ encoded_at_start (map byte_val (x :: rest)) ->
  decode Ignore (x :: rest) = decode Ignore rest.
Proof.
  intros N. symmetry. apply dropping_decode_ignore. cbn [map] in *.
  apply dropping_drop; [exact N|apply decode_ignore_dropping].
Qed.

(** A lead byte and the continuation bytes after it, when the data end
    before the sequence is complete, give nothing. *)
Lemma decode_ignore_truncated (x : byte) (rest : list byte) :
  0x80 <= byte_val x ->
  Forall (fun y => 0x80 <= byte_val y <= 0xBF) rest ->
  len rest < (if byte_val x <? 0xE0 then 1
              else if byte_val x <? 0xF0 then 2 else 3) ->
  decode Ignore (x :: rest) = [].
Proof.
  intros Hx Hr Hl. symmetry. apply dropping_decode_ignore.
  assert (Hc : forall l, Forall (fun y => 0x80 <= byte_val y <= 0xBF) l ->
                         dropping (map byte_val l) []).
  { induction 1 as [|y l Hy Hl' IH]; [constructor|].
    cbn [map]. apply dropping_not_encoded; [|exact IH].
    intros c tail E. inversion E; subst; lia. }
  cbn [map]. apply dropping_not_encoded; [|apply Hc; exact Hr].
  unfold len in Hl.
  destruct rest as [|y [|z [|w rest]]]; cbn [length map] in *;
    intros c tail E; inversion E; subst;
    repeat match goal with
           | H : context [if ?b then _ else _] |- _ => destruct b eqn:?
           end;
    bools; lia.
Qed.

(** A lead byte before a byte that does not continue it is dropped, and
    decoding resumes at that byte. *)
Lemma decode_ignore_bad_continuation (x y : byte) (rest : list byte) :
  0xC2 <= byte_val x ->
  ~ 0x80 <= byte_val y <= 0xBF ->
  decode Ignore (x :: y :: rest) = decode Ignore (y :: rest).
Proof.
  intros Hx Hy. apply decode_ignore_drops. cbn [map].
  intros H. apply encoded_at_start_encoded in H.
  destruct H as [c [tail E]]. inversion E; subst; lia.
Qed.

End Utf8Facts.

(** C3, as stated, fails on the sample whose only payload is 41 FF 42:
    the table holds "AB", and the string with U+FFFD in place of the invalid
    byte is not in it. *)
Lemma invalid_byte_is_not_replaced :
  X431Parser._extract_point_values bad_utf8 = Some (Ok [lit "AB"])
  /\ decode Replace bad_payload = [0x41; 0xFFFD; 0x42]
  /\ ~ In (decode Replace bad_payload) [lit "AB"].
Proof.
  split; [vm_compute; reflexivity|]. split; [vm_compute; reflexivity|].
  intros [H|[]]. vm_compute in H. discriminate.
Qed.

(** C3, amended.  Whatever bytes the payloads hold, the loop yields a
    table.  One turn of the loop on a whole entry appends the entry's
    payload, decoded with the invalid bytes dropped, and goes on behind the
    entry; every string of the table is such a decoded payload.  Decoding
    with the invalid bytes dropped is this, and nothing else: read from the
    left, each well-formed UTF-8 sequence of a scalar value gives its code
    point, and a byte at which no such sequence starts is passed over and
    gives nothing.  So a byte that cannot start a sequence, a lead byte
    before a byte that does not continue it, and a sequence cut short by
    the end of the payload all leave no trace; nothing is put in their
    place.  Every code point of a table string is a scalar value whose
    encoding lies in the payload: a U+FFFD is in a table string only where
    the payload holds EF BF BD. *)
Theorem tolerant_decoding_drops (data : list byte) :
  (forall off, 0 <= off ->
     exists table,
       X431Parser.read_point_values (S (length data)) data off []
       = Some (Ok table))
  /\ (forall off fuel acc,
        entry_at data off ->
        X431Parser.read_point_values (S fuel) data off acc
        = X431Parser.read_point_values
            fuel data (off + 2 + (field 2 data off - 2))
            (acc ++ [decode Ignore (payload data off)]))
  /\ (forall table s,
        X431Parser._extract_point_values data = Some (Ok table) ->
        In s table ->
        exists off,
          entry_at data off
          /\ s = decode Ignore (payload data off)
          /\ dropping (map byte_val (payload data off)) s
          /\ (forall c, In c s ->
                scalar c
                /\ holds (map byte_val (payload data off)) (utf8_encode c))
          /\ (In 0xFFFD s ->
              holds (map byte_val (payload data off)) [0xEF; 0xBF; 0xBD]))
  /\ (forall bs out,
        dropping (map byte_val bs) out <-> out = decode Ignore bs)
  /\ (forall c bs rest,
        scalar c ->
        map byte_val bs = utf8_encode c ++ map byte_val rest ->
        decode Ignore bs = c :: decode Ignore rest)
  /\ (forall x rest,
        ~ encoded_at_start (map byte_val (x :: rest)) ->
        decode Ignore (x :: rest) = decode Ignore rest)
  /\ (forall x rest,
        0x80 <= byte_val x < 0xC2 \/ 0xF5 <= byte_val x ->
        decode Ignore (x :: rest) = decode Ignore rest)
  /\ (forall x y rest,
        0xC2 <= byte_val x ->
        ~ 0x80 <= byte_val y <= 0xBF ->
        decode Ignore (x :: y :: rest) = decode Ignore (y :: rest))
  /\ (forall x rest,
        0x80 <= byte_val x ->
        Forall (fun y => 0x80 <= byte_val y <= 0xBF) rest ->
        len rest < (if byte_val x <? 0xE0 then 1
                    else if byte_val x <? 0xF0 then 2 else 3) ->
        decode Ignore (x :: rest) = []).
Proof.
  repeat apply conj.
  - intros off H0.
    destruct (read_point_values_table data (S (length data)) off [] H0)
      as [table [H _]]; [unfold len; lia|].
    exists table. exact H.
  - intros off fuel acc E. apply read_point_values_entry. exact E.
  - intros table s H Hin.
    destruct (extract_point_values_table _ _ H) as [off [H0 T]].
    destruct (table_from_entries _ _ _ H0 T s Hin) as [off' [E D]].
    exists off'. split; [exact E|]. split; [exact D|]. subst s.
    pose proof (decode_ignore_dropping (payload data off')) as Dr.
    split; [exact Dr|]. split.
    + intros c Hc. split; [apply (decode_ignore_scalar _ _ Hc)|].
      apply (dropping_holds _ _ Dr). exact Hc.
    + intros Hc. apply (dropping_holds _ _ Dr 0xFFFD Hc).
  - apply dropping_decode_ignore.
  - apply decode_ignore_keeps.
  - apply decode_ignore_drops.
  - apply decode_ignore_invalid_start.
  - apply decode_ignore_bad_continuation.
  - apply decode_ignore_truncated.
Qed.

Lemma tolerant_decoding_drops_witness :
  X431Parser._extract_point_values encoded_replacement = Some (Ok [[0xFFFD]])
  /\ (exists off,
        entry_at encoded_replacement off
        /\ [0xFFFD] = decode Ignore (payload encoded_replacement off)
        /\ holds (map byte_val (payload encoded_replacement off))
                 [0xEF; 0xBF; 0xBD])
  /\ entry_at bad_utf8 0x160
  /\ X431Parser.read_point_values 2 bad_utf8 0x160 [] = Some (Ok [lit "AB"])
  /\ decode Ignore [xff; x41] = decode Ignore [x41]
  /\ decode Ignore [xe2; x41] = decode Ignore [x41]
  /\ decode Ignore [xe2; x82] = []
  /\ decode Ignore [xe2; x82; xac] = [0x20AC].
Proof.
  split; [vm_compute; reflexivity|].
  assert (E : entry_at bad_utf8 0x160).
  { unfold entry_at. repeat split; vm_compute; discriminate. }
  pose proof (tolerant_decoding_drops bad_utf8)
    as [_ [T [_ [_ [K [_ [D [B U]]]]]]]].
  pose proof (tolerant_decoding_drops encoded_replacement) as [_ [_ [Hs _]]].
  split; [|split; [exact E|split; [|split; [|split; [|split]]]]].
  - destruct (Hs [[0xFFFD]] [0xFFFD]) as [off [E' [D' [_ [_ F]]]]].
    + vm_compute. reflexivity.
    + left. reflexivity.
    + exists off. split; [exact E'|]. split; [exact D'|].
      apply F. left. reflexivity.
  - rewrite (T 0x160 1%nat [] E). vm_compute. reflexivity.
  - apply D. right. vm_compute. discriminate.
  - apply B; [vm_compute; discriminate|].
    change (byte_val x41) with 65. lia.
  - apply U.
    + vm_compute. discriminate.
    + repeat constructor; vm_compute; discriminate.
    + vm_compute. reflexivity.
  - apply (K 0x20AC [xe2; x82; xac] []).
    + unfold scalar. lia.
    + vm_compute. reflexivity.
Defined.

(** *** The headers, channel by channel *)

Section VerboseChannels.

Import X431Parser.

Variable self : parser.
Variable base : Z.
Hypothesis base_nonneg : 0 <= base.

(** The first pass, whatever the other slots hold: a pass that returns has
    appended one name per channel, and the name of a channel whose own
    index is zero or at least 9 is the one the layout gives. *)
Lemma primary_pass_channel n :
  forall i names r,
    primary_pass self n (Z.of_nat i) (base + 4 * Z.of_nat i) names = Ok r ->
    snd r = base + 4 * Z.of_nat (i + n)
    /\ exists more,
         fst r = names ++ more /\ length more = n
         /\ forall k,
              (k < n)%nat ->
              plain_index (slot_index (file_data self)
                                      (base + 4 * Z.of_nat (i + k))) ->
              nth_error more k = Some (primary_text self base (i + k)).
Proof.
  induction n as [|n IH]; intros i names r H.
  - cbn [primary_pass] in H. inversion H. cbn [fst snd].
    rewrite Nat.add_0_r. split; [reflexivity|]. exists [].
    rewrite app_nil_r. repeat split. intros k Hk. lia.
  - cbn [primary_pass] in H. unfold _read_uint16 in H.
    destruct (unpack_from 2 (file_data self) (base + 4 * Z.of_nat i))
      as [index|] eqn:R; [|discriminate].
    apply unpack_from_ok_inv in R; [|lia]. destruct R as [_ ->].
    cbn [bind] in H.
    replace (Z.of_nat i + 1) with (Z.of_nat (S i)) in H by lia.
    replace (base + 4 * Z.of_nat i + 4) with (base + 4 * Z.of_nat (S i))
      in H by lia.
    set (index := field 2 (file_data self) (base + 4 * Z.of_nat i)) in *.
    assert (Hstep : forall x,
               primary_pass self n (Z.of_nat (S i))
                            (base + 4 * Z.of_nat (S i)) (names ++ [x]) = Ok r ->
               (plain_index index -> x = primary_text self base i) ->
               snd r = base + 4 * Z.of_nat (i + S n)
               /\ exists more,
                    fst r = names ++ more /\ length more = S n
                    /\ forall k,
                         (k < S n)%nat ->
                         plain_index (slot_index (file_data self)
                                        (base + 4 * Z.of_nat (i + k))) ->
                         nth_error more k
                         = Some (primary_text self base (i + k))).
    { intros x Hx Px. destruct (IH _ _ _ Hx) as [Hs [more [Hf [Hl Hk]]]].
      split; [rewrite Hs; f_equal; lia|].
      exists (x :: more). split; [rewrite Hf, <- app_assoc; reflexivity|].
      split; [cbn [length]; lia|].
      intros [|k] Lk Pk.
      - rewrite Nat.add_0_r in *. cbn [nth_error]. f_equal. apply Px.
        exact Pk.
      - cbn [nth_error].
        replace (i + S k)%nat with (S i + k)%nat in * by lia.
        apply Hk; [lia|exact Pk]. }
    destruct (negb (index =? 0) && (index - 9 <? len (point_values self)))
      eqn:V.
    + destruct (getitem (point_values self) (index - 9)) as [name|] eqn:G;
        [|discriminate].
      cbn [bind] in H. apply (Hstep _ H). intros P.
      destruct (header_test_hit _ _ P V) as [value [L G']].
      rewrite G in G'. inversion G'. subst value.
      unfold primary_text, named, slot_index. fold index. rewrite L.
      replace (Z.of_nat i + 1) with (Z.of_nat (S i)) by lia. reflexivity.
    + apply (Hstep _ H). intros _.
      unfold primary_text, named, slot_index. fold index.
      rewrite (header_test_miss _ _ V).
      replace (Z.of_nat i + 1) with (Z.of_nat (S i)) by lia. reflexivity.
Qed.

(** The second pass, likewise: the header of a channel whose own index is
    zero or at least 9 gets what the layout gives, and the other headers
    stay in their places. *)
Lemma secondary_pass_channel n :
  forall i pre todo r,
    length pre = S i -> length todo = n ->
    secondary_pass self n (Z.of_nat i) (base + 4 * Z.of_nat i) (pre ++ todo)
    = Ok r ->
    exists todo',
      fst r = pre ++ todo' /\ length todo' = n
      /\ forall k h,
           nth_error todo k = Some h ->
           plain_index (slot_index (file_data self)
                                   (base + 4 * Z.of_nat (i + k))) ->
           nth_error todo' k = Some (h ++ secondary_text self base (i + k)).
Proof.
  induction n as [|n IH]; intros i pre todo r Hpre Htodo H.
  - destruct todo; [|discriminate]. cbn [secondary_pass] in H.
    inversion H. cbn [fst]. exists []. repeat split.
    intros k h Hk. destruct k; discriminate.
  - destruct todo as [|h0 todo]; [discriminate|].
    cbn [secondary_pass] in H. unfold _read_uint16 in H.
    destruct (unpack_from 2 (file_data self) (base + 4 * Z.of_nat i))
      as [index|] eqn:R; [|discriminate].
    apply unpack_from_ok_inv in R; [|lia]. destruct R as [_ ->].
    cbn [bind] in H.
    replace (Z.of_nat i + 1) with (len pre) in H by (unfold len; lia).
    replace (base + 4 * Z.of_nat i + 4) with (base + 4 * Z.of_nat (S i))
      in H by lia.
    set (index := field 2 (file_data self) (base + 4 * Z.of_nat i)) in *.
    assert (Hstep : forall x,
               secondary_pass self n (len pre) (base + 4 * Z.of_nat (S i))
                              (pre ++ x :: todo) = Ok r ->
               (plain_index index -> x = h0 ++ secondary_text self base i) ->
               exists todo',
                 fst r = pre ++ todo' /\ length todo' = S n
                 /\ forall k h,
                      nth_error (h0 :: todo) k = Some h ->
                      plain_index (slot_index (file_data self)
                                     (base + 4 * Z.of_nat (i + k))) ->
                      nth_error todo' k
                      = Some (h ++ secondary_text self base (i + k))).
    { intros x Hx Px.
      replace (len pre) with (Z.of_nat (S i)) in Hx by (unfold len; lia).
      replace (pre ++ x :: todo) with ((pre ++ [x]) ++ todo) in Hx
        by (rewrite <- app_assoc; reflexivity).
      apply IH in Hx;
        [|rewrite length_app; cbn [length]; lia|cbn [length] in Htodo; lia].
      destruct Hx as [todo' [Hf [Hl Hk]]].
      exists (x :: todo'). split; [rewrite Hf, <- app_assoc; reflexivity|].
      split; [cbn [length]; lia|].
      intros [|k] h Nk Pk.
      - cbn [nth_error] in *. inversion Nk. subst h.
        rewrite Nat.add_0_r in *. f_equal. apply Px. exact Pk.
      - cbn [nth_error] in *.
        replace (i + S k)%nat with (S i + k)%nat in * by lia.
        apply Hk; assumption. }
    destruct (negb (index =? 0) && (index - 9 <? len (point_values self)))
      eqn:V.
    + rewrite getitem_middle in H. cbn [bind] in H.
      destruct (getitem (point_values self) (index - 9)) as [unit|] eqn:G;
        [|discriminate].
      cbn [bind] in H. rewrite setitem_middle in H. cbn [bind] in H.
      apply (Hstep _ H). intros P.
      destruct (header_test_hit _ _ P V) as [value [L G']].
      rewrite G in G'. inversion G'. subst value.
      unfold secondary_text, named, slot_index. fold index. rewrite L.
      reflexivity.
    + apply (Hstep _ H). intros _.
      unfold secondary_text, named, slot_index. fold index.
      rewrite (header_test_miss _ _ V), app_nil_r. reflexivity.
Qed.

End VerboseChannels.

Section CleanChannels.

Import X431CleanParser.

Variable self : parser.
Variable base : Z.
Hypothesis base_nonneg : 0 <= base.

Lemma param_pass_channel n :
  forall i names r,
    param_pass self n (Z.of_nat i) (base + 4 * Z.of_nat i) names = Ok r ->
    snd r = base + 4 * Z.of_nat (i + n)
    /\ exists more,
         fst r = names ++ more /\ length more = n
         /\ forall k,
              (k < n)%nat ->
              plain_index (slot_index (file_data self)
                                      (base + 4 * Z.of_nat (i + k))) ->
              nth_error more k = Some (param_text self base (i + k)).
Proof.
  induction n as [|n IH]; intros i names r H.
  - cbn [param_pass] in H. inversion H. cbn [fst snd].
    rewrite Nat.add_0_r. split; [reflexivity|]. exists [].
    rewrite app_nil_r. repeat split. intros k Hk. lia.
  - cbn [param_pass] in H. unfold _read_uint16 in H.
    destruct (unpack_from 2 (file_data self) (base + 4 * Z.of_nat i))
      as [index|] eqn:R; [|discriminate].
    apply unpack_from_ok_inv in R; [|lia]. destruct R as [_ ->].
    cbn [bind] in H.
    replace (Z.of_nat i + 1) with (Z.of_nat (S i)) in H by lia.
    replace (base + 4 * Z.of_nat i + 4) with (base + 4 * Z.of_nat (S i))
      in H by lia.
    set (index := field 2 (file_data self) (base + 4 * Z.of_nat i)) in *.
    assert (Hstep : forall x,
               param_pass self n (Z.of_nat (S i))
                          (base + 4 * Z.of_nat (S i)) (names ++ [x]) = Ok r ->
               (plain_index index -> x = param_text self base i) ->
               snd r = base + 4 * Z.of_nat (i + S n)
               /\ exists more,
                    fst r = names ++ more /\ length more = S n
                    /\ forall k,
                         (k < S n)%nat ->
                         plain_index (slot_index (file_data self)
                                        (base + 4 * Z.of_nat (i + k))) ->
                         nth_error more k
                         = Some (param_text self base (i + k))).
    { intros x Hx Px. destruct (IH _ _ _ Hx) as [Hs [more [Hf [Hl Hk]]]].
      split; [rewrite Hs; f_equal; lia|].
      exists (x :: more). split; [rewrite Hf, <- app_assoc; reflexivity|].
      split; [cbn [length]; lia|].
      intros [|k] Lk Pk.
      - rewrite Nat.add_0_r in *. cbn [nth_error]. f_equal. apply Px.
        exact Pk.
      - cbn [nth_error].
        replace (i + S k)%nat with (S i + k)%nat in * by lia.
        apply Hk; [lia|exact Pk]. }
    destruct (negb (index =? 0) && (index - 9 <? len (point_values self)))
      eqn:V.
    + destruct (getitem (point_values self) (index - 9)) as [name|] eqn:G;
        [|discriminate].
      cbn [bind] in H. apply (Hstep _ H). intros P.
      destruct (header_test_hit _ _ P V) as [value [L G']].
      rewrite G in G'. inversion G'. subst value.
      unfold param_text, named, slot_index. fold index. rewrite L.
      reflexivity.
    + apply (Hstep _ H). intros _.
      unfold param_text, named, slot_index. fold index.
      rewrite (header_test_miss _ _ V).
      replace (Z.of_nat i + 1) with (Z.of_nat (S i)) by lia. reflexivity.
Qed.

Lemma unit_pass_channel n :
  forall i units r,
    unit_pass self n (Z.of_nat i) (base + 4 * Z.of_nat i) units = Ok r ->
    exists more,
      fst r = units ++ more /\ length more = n
      /\ forall k,
           (k < n)%nat ->
           plain_index (slot_index (file_data self)
                                   (base + 4 * Z.of_nat (i + k))) ->
           nth_error more k = Some (unit_text self base (i + k)).
Proof.
  induction n as [|n IH]; intros i units r H.
  - cbn [unit_pass] in H. inversion H. cbn [fst snd]. exists [].
    rewrite app_nil_r. repeat split. intros k Hk. lia.
  - cbn [unit_pass] in H. unfold _read_uint16 in H.
    destruct (unpack_from 2 (file_data self) (base + 4 * Z.of_nat i))
      as [index|] eqn:R; [|discriminate].
    apply unpack_from_ok_inv in R; [|lia]. destruct R as [_ ->].
    cbn [bind] in H.
    replace (Z.of_nat i + 1) with (Z.of_nat (S i)) in H by lia.
    replace (base + 4 * Z.of_nat i + 4) with (base + 4 * Z.of_nat (S i))
      in H by lia.
    set (index := field 2 (file_data self) (base + 4 * Z.of_nat i)) in *.
    assert (Hstep : forall x,
               unit_pass self n (Z.of_nat (S i))
                         (base + 4 * Z.of_nat (S i)) (units ++ [x]) = Ok r ->
               (plain_index index -> x = unit_text self base i) ->
               exists more,
                 fst r = units ++ more /\ length more = S n
                 /\ forall k,
                      (k < S n)%nat ->
                      plain_index (slot_index (file_data self)
                                     (base + 4 * Z.of_nat (i + k))) ->
                      nth_error more k
                      = Some (unit_text self base (i + k))).
    { intros x Hx Px. destruct (IH _ _ _ Hx) as [more [Hf [Hl Hk]]].
      exists (x :: more). split; [rewrite Hf, <- app_assoc; reflexivity|].
      split; [cbn [length]; lia|].
      intros [|k] Lk Pk.
      - rewrite Nat.add_0_r in *. cbn [nth_error]. f_equal. apply Px.
        exact Pk.
      - cbn [nth_error].
        replace (i + S k)%nat with (S i + k)%nat in * by lia.
        apply Hk; [lia|exact Pk]. }
    destruct (negb (index =? 0) && (index - 9 <? len (point_values self)))
      eqn:V.
    + destruct (getitem (point_values self) (index - 9)) as [unit|] eqn:G;
        [|discriminate].
      cbn [bind] in H. apply (Hstep _ H). intros P.
      destruct (header_test_hit _ _ P V) as [value [L G']].
      rewrite G in G'. inversion G'. subst value.
      unfold unit_text, named, slot_index. fold index. rewrite L.
      reflexivity.
    + apply (Hstep _ H). intros _.
      unfold unit_text, named, slot_index. fold index.
      rewrite (header_test_miss _ _ V). reflexivity.
Qed.

End CleanChannels.

Section HeaderChannels.

Variable self : parser.

Lemma nth_error_combine {A B} (l : list A) (l' : list B) c x y :
  nth_error l c = Some x -> nth_error l' c = Some y ->
  nth_error (combine l l') c = Some (x, y).
Proof.
  revert l' c. induction l as [|a l IH]; intros [|b l'] [|c] N1 N2;
    cbn [nth_error combine] in *; try discriminate.
  - inversion N1. inversion N2. reflexivity.
  - apply IH; assumption.
Qed.

(** A verbose header list that was returned, channel by channel. *)
Lemma verbose_names_channel (names : list str) :
  X431Parser._extract_column_names self = Ok names ->
  nth_error names 0 = Some (lit "Num")
  /\ length names = S (length (channels self))
  /\ forall c,
       In c (channels self) ->
       plain_index (primary_index self c) ->
       plain_index (secondary_index self c) ->
       nth_error names (S c) = Some (verbose_header self c).
Proof.
  intros H. unfold X431Parser._extract_column_names in H.
  unfold channels. rewrite length_seq.
  set (n := Z.to_nat (column_count self)) in *.
  destruct (X431Parser.primary_pass self n 0 312 [lit "Num"])
    as [r1|] eqn:P1; [|discriminate].
  cbn [bind] in H.
  destruct (X431Parser.secondary_pass self n 0 (snd r1) (fst r1))
    as [r2|] eqn:P2; [|discriminate].
  cbn [bind] in H. inversion H. subst names. clear H.
  pose proof (primary_pass_channel self 0x138 ltac:(lia) n 0 [lit "Num"] r1)
    as Q1.
  change (Z.of_nat 0) with 0 in Q1. change (312 + 4 * 0) with 312 in Q1.
  destruct (Q1 P1) as [Hs [more [Hf [Hl Hk]]]]. cbn [Nat.add] in Hs, Hk.
  rewrite Hs, Hf in P2.
  pose proof (secondary_pass_channel self (0x138 + 4 * Z.of_nat n)
                ltac:(lia) n 0 [lit "Num"] more r2 eq_refl Hl) as Q2.
  change (Z.of_nat 0) with 0 in Q2.
  replace (312 + 4 * Z.of_nat n + 4 * 0) with (312 + 4 * Z.of_nat n)
    in Q2 by lia.
  destruct (Q2 P2) as [todo' [Hf2 [Hl2 Hk2]]]. cbn [Nat.add] in Hk2.
  rewrite Hf2. cbn [app nth_error length].
  split; [reflexivity|]. split; [rewrite Hl2; reflexivity|].
  intros c Hin Pp Ps. apply in_seq in Hin.
  assert (Hn : Z.of_nat n = column_count self) by (unfold n; lia).
  unfold verbose_header, pass1, pass2. rewrite <- Hn.
  apply Hk2.
  - apply Hk; [lia|exact Pp].
  - unfold secondary_index, pass2 in Ps. rewrite <- Hn in Ps. exact Ps.
Qed.

(** A clean header list that was returned, channel by channel. *)
Lemma clean_names_channel (names : list str) :
  X431CleanParser._extract_column_names self = Ok names ->
  nth_error names 0 = Some (lit "Row")
  /\ length names = S (length (channels self))
  /\ forall c,
       In c (channels self) ->
       plain_index (primary_index self c) ->
       plain_index (secondary_index self c) ->
       nth_error names (S c) = Some (clean_header self c).
Proof.
  intros H. unfold X431CleanParser._extract_column_names in H.
  unfold channels. rewrite length_seq.
  set (n := Z.to_nat (column_count self)) in *.
  destruct (X431CleanParser.param_pass self n 0 312 []) as [r1|] eqn:P1;
    [|discriminate].
  cbn [bind] in H.
  destruct (X431CleanParser.unit_pass self n 0 (snd r1) []) as [r2|] eqn:P2;
    [|discriminate].
  cbn [bind] in H. inversion H. subst names. clear H.
  pose proof (param_pass_channel self 0x138 ltac:(lia) n 0 [] r1) as Q1.
  change (Z.of_nat 0) with 0 in Q1. change (312 + 4 * 0) with 312 in Q1.
  destruct (Q1 P1) as [Hs [params [Hf [Hl Hk]]]]. cbn [Nat.add app] in *.
  rewrite Hs in P2.
  pose proof (unit_pass_channel self (0x138 + 4 * Z.of_nat n) ltac:(lia)
                n 0 [] r2) as Q2.
  change (Z.of_nat 0) with 0 in Q2.
  replace (312 + 4 * Z.of_nat n + 4 * 0) with (312 + 4 * Z.of_nat n)
    in Q2 by lia.
  destruct (Q2 P2) as [units [Hf2 [Hl2 Hk2]]]. cbn [Nat.add app] in *.
  rewrite Hf, Hf2.
  rewrite (fold_left_append
             (fun pu => X431CleanParser.col_name (fst pu) (snd pu))).
  cbn [app nth_error length].
  split; [reflexivity|].
  split; [rewrite length_map, length_combine, Hl, Hl2; lia|].
  intros c Hin Pp Ps. apply in_seq in Hin.
  assert (Hn : Z.of_nat n = column_count self) by (unfold n; lia).
  rewrite nth_error_map.
  assert (Hc : nth_error (combine params units) c
               = Some (param_text self 0x138 c,
                       unit_text self (0x138 + 4 * Z.of_nat n) c)).
  { pose proof (Hk c ltac:(lia) Pp) as N1.
    assert (N2 : nth_error units c
                 = Some (unit_text self (0x138 + 4 * Z.of_nat n) c)).
    { apply Hk2; [lia|]. unfold secondary_index, pass2 in Ps.
      rewrite <- Hn in Ps. exact Ps. }
    apply nth_error_combine; assumption. }
  rewrite Hc. cbn [option_map fst snd]. f_equal.
  unfold X431CleanParser.col_name, clean_header, pass1, pass2.
  rewrite !clean_parameter_name_normalize, Hn. reflexivity.
Qed.

End HeaderChannels.

(** *** When the header extractions return *)

Section HeadersReturned.

Lemma getitem_returns {A} (l : list A) (k : Z) :
  k < len l -> (exists x, getitem l k = Ok x) <-> - len l <= k.
Proof.
  intros Hk. unfold getitem.
  destruct (k <? 0) eqn:E.
  - apply Z.ltb_lt in E.
    destruct (k + len l <? 0) eqn:E1; cbn [orb].
    + apply Z.ltb_lt in E1. split; [intros [x H]; discriminate|lia].
    + apply Z.ltb_ge in E1.
      destruct (len l <=? k + len l) eqn:E2; [apply Z.leb_le in E2; lia|].
      destruct (nth_error l (Z.to_nat (k + len l))) as [x|] eqn:N.
      * split; [lia|]. intros _. exists x. reflexivity.
      * apply nth_error_None in N. unfold len in *. lia.
  - apply Z.ltb_ge in E. cbv zeta.
    destruct (k <? 0) eqn:E'; [apply Z.ltb_lt in E'; lia|]. cbn [orb].
    destruct (len l <=? k) eqn:E2; [apply Z.leb_le in E2; lia|].
    destruct (nth_error l (Z.to_nat k)) as [x|] eqn:N.
    + split; [lia|]. intros _. exists x. reflexivity.
    + apply nth_error_None in N. unfold len in *. lia.
Qed.

(** The test of the header loops and the subscript behind it. *)
Lemma header_test_usable (table : list str) (i : Z) :
  0 <= i ->
  if negb (i =? 0) && (i - 9 <? len table)
  then (exists x, getitem table (i - 9) = Ok x) <-> usable table i
  else usable table i.
Proof.
  intros H0. pose proof (len_nonneg table) as Hl. unfold usable.
  destruct (negb (i =? 0) && (i - 9 <? len table)) eqn:V.
  - apply andb_true_iff in V. destruct V as [V1 V2].
    apply negb_true_iff, Z.eqb_neq in V1. apply Z.ltb_lt in V2.
    rewrite (getitem_returns table (i - 9) V2). lia.
  - apply andb_false_iff in V. destruct V as [V|V].
    + apply negb_false_iff, Z.eqb_eq in V. lia.
    + apply Z.ltb_ge in V. lia.
Qed.

Variable self : parser.

Lemma param_pass_returns n :
  forall i off names, 0 <= off ->
  (exists r, X431CleanParser.param_pass self n i off names = Ok r)
  <-> (((0 < n)%nat -> off + 4 * Z.of_nat n - 2 <= len (file_data self))
       /\ forall k, (k < n)%nat ->
            usable (point_values self)
                   (slot_index (file_data self) (off + 4 * Z.of_nat k))).
Proof.
  induction n as [|n IH]; intros i off names H0.
  - cbn [X431CleanParser.param_pass]. split.
    + intros _. split; intros; lia.
    + intros _. eexists. reflexivity.
  - cbn [X431CleanParser.param_pass]. unfold X431CleanParser._read_uint16.
    assert (Hshift :
              (((0 < n)%nat ->
                off + 4 + 4 * Z.of_nat n - 2 <= len (file_data self))
               /\ forall k, (k < n)%nat ->
                    usable (point_values self)
                           (slot_index (file_data self)
                                       (off + 4 + 4 * Z.of_nat k)))
              -> off + 2 <= len (file_data self)
              -> usable (point_values self)
                        (slot_index (file_data self) off)
              -> ((0 < S n)%nat ->
                  off + 4 * Z.of_nat (S n) - 2 <= len (file_data self))
                 /\ forall k, (k < S n)%nat ->
                      usable (point_values self)
                             (slot_index (file_data self)
                                         (off + 4 * Z.of_nat k))).
    { intros [B U] L U0. split.
      - intros _. destruct n as [|n']; [change (Z.of_nat 1) with 1; lia|].
        specialize (B ltac:(lia)). lia.
      - intros [|k] Hk.
        + replace (off + 4 * Z.of_nat 0) with off by lia. exact U0.
        + replace (off + 4 * Z.of_nat (S k)) with (off + 4 + 4 * Z.of_nat k)
            by lia.
          apply U. lia. }
    assert (Hback :
              (((0 < S n)%nat ->
                off + 4 * Z.of_nat (S n) - 2 <= len (file_data self))
               /\ forall k, (k < S n)%nat ->
                    usable (point_values self)
                           (slot_index (file_data self)
                                       (off + 4 * Z.of_nat k)))
              -> off + 2 <= len (file_data self)
                 /\ usable (point_values self)
                           (slot_index (file_data self) off)
                 /\ (((0 < n)%nat ->
                      off + 4 + 4 * Z.of_nat n - 2 <= len (file_data self))
                     /\ forall k, (k < n)%nat ->
                          usable (point_values self)
                                 (slot_index (file_data self)
                                             (off + 4 + 4 * Z.of_nat k)))).
    { intros [B U]. specialize (B ltac:(lia)). split; [lia|]. split.
      - replace off with (off + 4 * Z.of_nat 0) by lia. apply U. lia.
      - split; [intros _; lia|]. intros k Hk.
        replace (off + 4 + 4 * Z.of_nat k) with (off + 4 * Z.of_nat (S k))
          by lia.
        apply U. lia. }
    destruct (Z_lt_le_dec (len (file_data self)) (off + 2)) as [L|L].
    { rewrite unpack_from_outside by lia. cbn [bind]. split.
      - intros [r H]. discriminate.
      - intros H. apply Hback in H. lia. }
    rewrite unpack_from_inside by lia. cbn [bind].
    pose proof (header_test_usable (point_values self)
                  (field 2 (file_data self) off)
                  (field_nonneg 2 (file_data self) off)) as T.
    fold (slot_index (file_data self) off) in *.
    destruct (negb (slot_index (file_data self) off =? 0)
              && (slot_index (file_data self) off - 9
                  <? len (point_values self))).
    + destruct (getitem (point_values self)
                        (slot_index (file_data self) off - 9)) as [x|e] eqn:G;
        cbn [bind].
      * rewrite IH by lia. split.
        -- intros H. apply Hshift; [exact H|exact L|].
           apply T. exists x. reflexivity.
        -- intros H. apply Hback in H. apply H.
      * split; [intros [r H]; discriminate|].
        intros H. apply Hback in H. destruct H as [_ [U _]].
        apply T in U. destruct U as [x U]. discriminate.
    + rewrite IH by lia. split.
      * intros H. apply Hshift; [exact H|exact L|exact T].
      * intros H. apply Hback in H. apply H.
Qed.

Lemma unit_pass_returns n :
  forall i off units, 0 <= off ->
  (exists r, X431CleanParser.unit_pass self n i off units = Ok r)
  <-> (((0 < n)%nat -> off + 4 * Z.of_nat n - 2 <= len (file_data self))
       /\ forall k, (k < n)%nat ->
            usable (point_values self)
                   (slot_index (file_data self) (off + 4 * Z.of_nat k))).
Proof.
  intros i off units H0.
  assert (E : forall m j o ps us,
             position (X431CleanParser.unit_pass self m j o us)
             = position (X431CleanParser.param_pass self m j o ps)).
  { induction m as [|m IHm]; intros j o ps us; [reflexivity|].
    cbn [X431CleanParser.unit_pass X431CleanParser.param_pass].
    destruct (X431CleanParser._read_uint16 (file_data self) o) as [index|];
      [|reflexivity].
    cbn [bind].
    destruct (negb (index =? 0) && (index - 9 <? len (point_values self)));
      [|apply IHm].
    destruct (getitem (point_values self) (index - 9)); [|reflexivity].
    cbn [bind]. apply IHm. }
  rewrite <- (param_pass_returns n i off [] H0).
  specialize (E n i off [] units). unfold position in E.
  destruct (X431CleanParser.unit_pass self n i off units) as [r|e];
    destruct (X431CleanParser.param_pass self n i off []) as [r'|e'];
    cbn [bind] in E; try discriminate.
  - split; intros _; eexists; reflexivity.
  - split; intros [r H]; discriminate.
Qed.

(** When the header extractions return: exactly when the buffer holds
    the slots and every stored index can be used. *)
Lemma clean_names_returned :
  (exists names, X431CleanParser._extract_column_names self = Ok names)
  <-> (slots_readable self
       /\ forall c, In c (channels self) ->
            usable (point_values self) (primary_index self c)
            /\ usable (point_values self) (secondary_index self c)).
Proof.
  unfold X431CleanParser._extract_column_names, slots_readable, channels.
  set (n := Z.to_nat (column_count self)).
  pose proof (param_pass_returns n 0 0x138 [] ltac:(lia)) as P1.
  pose proof (param_pass_outcome self n 0 0x138 [] ltac:(lia)) as O1.
  pose proof (unit_pass_returns n 0 (0x138 + 4 * Z.of_nat n) [] ltac:(lia))
    as P2.
  unfold primary_index, secondary_index, pass1, pass2.
  destruct (Z_le_gt_dec (column_count self) 0) as [Hc|Hc].
  { replace n with 0%nat in * by lia.
    cbn [X431CleanParser.param_pass X431CleanParser.unit_pass bind seq].
    split.
    - intros _. split; [lia|]. intros c [].
    - intros _. eexists. reflexivity. }
  assert (Hn : Z.of_nat n = column_count self) by (unfold n; lia).
  rewrite <- Hn. 
  destruct (X431CleanParser.param_pass self n 0 312 []) as [r1|e1].
  - destruct O1 as [Q1 B1]. cbn [bind]. rewrite Q1.
    destruct P1 as [P1 _]. specialize (P1 (ex_intro _ r1 eq_refl)).
    destruct P1 as [_ U1].
    destruct (X431CleanParser.unit_pass self n 0 (312 + 4 * Z.of_nat n) [])
      as [r2|e2]; cbn [bind].
    + destruct P2 as [P2 _]. specialize (P2 (ex_intro _ r2 eq_refl)).
      destruct P2 as [B2 U2]. split; [|intros _; eexists; reflexivity].
      intros _. split; [intros _; specialize (B2 ltac:(lia)); lia|].
      intros c Hin. apply in_seq in Hin. split; apply U1 || apply U2; lia.
    + split; [intros [x H]; discriminate|].
      intros [B U]. destruct P2 as [_ P2].
      destruct P2 as [r H]; [|discriminate].
      split; [intros _; specialize (B ltac:(lia)); lia|].
      intros k Hk. apply U. apply in_seq. lia.
  - cbn [bind]. split; [intros [x H]; discriminate|].
    intros [B U]. destruct P1 as [_ P1].
    destruct P1 as [r H]; [|discriminate].
    split; [intros _; specialize (B ltac:(lia)); lia|].
    intros k Hk. apply U. apply in_seq. lia.
Qed.

Lemma verbose_names_returned :
  (exists names, X431Parser._extract_column_names self = Ok names)
  <-> (slots_readable self
       /\ forall c, In c (channels self) ->
            usable (point_values self) (primary_index self c)
            /\ usable (point_values self) (secondary_index self c)).
Proof.
  rewrite <- clean_names_returned.
  pose proof (header_outcomes_agree self) as A. unfold outcome in A.
  destruct (X431Parser._extract_column_names self) as [h1|e1];
    destruct (X431CleanParser._extract_column_names self) as [h2|e2];
    cbn [bind] in A; try discriminate.
  - split; intros _; eexists; reflexivity.
  - split; intros [x H]; discriminate.
Qed.

End HeadersReturned.

(** C5, as stated, fails on the sample whose second string reads "Unknown":
    the secondary of channel 1 resolves to the value "Unknown", and it is
    appended all the same. *)
Lemma unknown_unit_is_appended :
  secondary_index unit_unknown_parser 0 = 10
  /\ named unit_unknown_parser (pass2 unit_unknown_parser) 0
     = Some (lit "Unknown")
  /\ X431Parser._extract_column_names unit_unknown_parser
     = Ok [lit "Num"; lit "1. Speed (Unknown)"]
  /\ X431Parser.parse unit_unknown
     = Some (Ok ([lit "Num"; lit "1. Speed (Unknown)"], [[lit "1"; lit "Speed"]])).
Proof. repeat split; vm_compute; reflexivity. Qed.

(** C5, amended.  The verbose extraction returns exactly when the buffer
    holds the header slots, up to the index bytes of the last one, and no
    stored index from 1 to 8 reaches, as the negative subscript [i - 9],
    before the start of the table; so it does whenever every index is zero
    or at least 9, and whenever the table has at least 8 strings.  The
    list it returns is "Num" and one header per channel, and for every
    channel [c] (numbered from 1) whose own two indices are zero or at
    least 9, whatever the other channels hold, the header is
    "{c}. {primary}" -- the string index [i] names at table position
    [i - 9], or "Unknown" when it names none -- with " ({secondary})"
    appended exactly when the secondary index names a string, whatever that
    string reads.  When all channels are such, this is the whole list; in
    particular two channels over the table Speed, RPM, km/h, rpm with
    indices (9, 10) and (11, 12) give Num, "1. Speed (km/h)",
    "2. RPM (rpm)". *)
Theorem verbose_headers (self : parser) :
  ((exists names, X431Parser._extract_column_names self = Ok names)
   <-> slots_readable self
       /\ forall c, In c (channels self) ->
            usable (point_values self) (primary_index self c)
            /\ usable (point_values self) (secondary_index self c))
  /\ (forall i, plain_index i \/ (0 <= i /\ 8 <= len (point_values self)) ->
                usable (point_values self) i)
  /\ (forall names,
        X431Parser._extract_column_names self = Ok names ->
        nth_error names 0 = Some (lit "Num")
        /\ length names = S (length (channels self))
        /\ forall c,
             In c (channels self) ->
             plain_index (primary_index self c) ->
             plain_index (secondary_index self c) ->
             nth_error names (S c) = Some (verbose_header self c))
  /\ (0 <= column_count self ->
      0x138 + 8 * column_count self <= len (file_data self) ->
      (forall c, In c (channels self) ->
                 plain_index (primary_index self c)
                 /\ plain_index (secondary_index self c)) ->
      X431Parser._extract_column_names self
      = Ok (lit "Num" :: map (verbose_header self) (channels self)))
  /\ (0x138 + 8 * column_count self <= len (file_data self) ->
      column_count self = 2 ->
      point_values self = map lit ["Speed"; "RPM"; "km/h"; "rpm"]%string ->
      primary_index self 0 = 9 -> primary_index self 1 = 10 ->
      secondary_index self 0 = 11 -> secondary_index self 1 = 12 ->
      X431Parser._extract_column_names self
      = Ok [lit "Num"; lit "1. Speed (km/h)"; lit "2. RPM (rpm)"]).
Proof.
  split; [|split; [|split; [|split]]].
  - apply verbose_names_returned.
  - intros i [[H|H]|[H0 H8]]; unfold usable; lia.
  - apply verbose_names_channel.
  - intros Hc Hlen Hp. apply extract_column_names_closed; assumption.
  - intros Hlen Hn Ht P0 P1 S0 S1.
    assert (Hc : 0 <= column_count self) by lia.
    rewrite (extract_column_names_closed self Hc Hlen).
    + unfold channels. rewrite Hn. change (Z.to_nat 2) with 2%nat.
      cbn [seq map]. unfold verbose_header, primary_text, secondary_text, named.
      fold (primary_index self 0). fold (primary_index self 1).
      fold (secondary_index self 0). fold (secondary_index self 1).
      rewrite P0, P1, S0, S1, Ht. reflexivity.
    + unfold channels. rewrite Hn. change (Z.to_nat 2) with 2%nat.
      intros c [<-|[<-|[]]]; rewrite ?P0, ?P1, ?S0, ?S1;
        split; right; lia.
Qed.

Lemma verbose_headers_witness :
  primary_index low_neighbour_parser 0 = 8
  /\ (exists names,
        X431Parser._extract_column_names low_neighbour_parser = Ok names)
  /\ X431Parser.parse low_neighbour
     = Some (Ok ([lit "Num"; lit "1. rpm (rpm)"; lit "2. Speed (km/h)"],
                 [[lit "1"; lit "Speed"; lit "RPM"];
                  [lit "2"; lit "km/h"; lit "rpm"]]))
  /\ nth_error [lit "Num"; lit "1. rpm (rpm)"; lit "2. Speed (km/h)"] 2
     = Some (verbose_header low_neighbour_parser 1)
  /\ verbose_header low_neighbour_parser 1 = lit "2. Speed (km/h)"
  /\ X431Parser._extract_column_names demo_parser
     = Ok [lit "Num"; lit "1. Speed (km/h)"; lit "2. RPM (rpm)"].
Proof.
  split; [vm_compute; reflexivity|].
  destruct (verbose_headers low_neighbour_parser) as [R [_ [H _]]].
  destruct (verbose_headers demo_parser) as [_ [_ [_ [_ D]]]].
  split; [|split; [vm_compute; reflexivity|]].
  { apply R. split; [vm_compute; discriminate|].
    intros c Hin. cbn in Hin.
    destruct Hin as [<-|[<-|[]]]; split; unfold usable; vm_compute;
      right; discriminate || (right; discriminate). }
  split; [|split; [vm_compute; reflexivity|]].
  - apply (H [lit "Num"; lit "1. rpm (rpm)"; lit "2. Speed (km/h)"]).
    + vm_compute. reflexivity.
    + right. left. reflexivity.
    + vm_compute. right. discriminate.
    + vm_compute. right. discriminate.
  - apply D; try reflexivity. vm_compute. discriminate.
Defined.

(** C6, as stated, fails on the sample whose only channel has primary
    index 0: its clean header is "Channel_1", not "Unknown". *)
Lemma unnamed_channel_is_numbered :
  primary_index unnamed_parser 0 = 0
  /\ X431CleanParser._extract_column_names unnamed_parser
     = Ok [lit "Row"; lit "Channel_1"]
  /\ X431CleanParser.parse unnamed
     = Some (Ok ([lit "Row"; lit "Channel_1"], [[lit "1"; lit "Speed"]])).
Proof. repeat split; vm_compute; reflexivity. Qed.

(** C6, amended.  The clean extraction returns exactly when the verbose
    one does: when the buffer holds the header slots, up to the index bytes
    of the last one, and no stored index from 1 to 8 reaches, as the
    negative subscript [i - 9], before the start of the table.  The list it
    returns is "Row" and one header per channel, and for every channel
    whose own two indices are zero or at least 9, whatever the other
    channels hold, the header is built from the normalized primary and
    secondary: "{primary} [{secondary}]" exactly when the normalized
    secondary is not empty, differs from the normalized primary and is not
    "Unknown", the normalized primary alone otherwise.  Normalizing turns
    the empty string into "Unknown" and otherwise strips white space and
    expands the six abbreviations ("O2 B1S1" becomes "O2 (Bank1 Sensor1)").
    A primary index that names no string stands for "Channel_{c}", such a
    secondary index for the empty string.  When all channels are such, this
    is the whole list. *)
Theorem clean_headers (self : parser) :
  ((exists names, X431CleanParser._extract_column_names self = Ok names)
   <-> slots_readable self
       /\ forall c, In c (channels self) ->
            usable (point_values self) (primary_index self c)
            /\ usable (point_values self) (secondary_index self c))
  /\ (forall i, plain_index i \/ (0 <= i /\ 8 <= len (point_values self)) ->
                usable (point_values self) i)
  /\ (forall names,
        X431CleanParser._extract_column_names self = Ok names ->
        nth_error names 0 = Some (lit "Row")
        /\ length names = S (length (channels self))
        /\ forall c,
             In c (channels self) ->
             plain_index (primary_index self c) ->
             plain_index (secondary_index self c) ->
             nth_error names (S c) = Some (clean_header self c))
  /\ (0 <= column_count self ->
      0x138 + 8 * column_count self <= len (file_data self) ->
      (forall c, In c (channels self) ->
                 plain_index (primary_index self c)
                 /\ plain_index (secondary_index self c)) ->
      X431CleanParser._extract_column_names self
      = Ok (lit "Row" :: map (clean_header self) (channels self)))
  /\ (forall name, X431CleanParser._clean_parameter_name name = normalize name)
  /\ normalize (lit "O2 B1S1") = lit "O2 (Bank1 Sensor1)".
Proof.
  split; [|split; [|split; [|split; [|split]]]].
  - apply clean_names_returned.
  - intros i [[H|H]|[H0 H8]]; unfold usable; lia.
  - apply clean_names_channel.
  - intros Hc Hlen Hp. apply clean_column_names_closed; assumption.
  - apply clean_parameter_name_normalize.
  - vm_compute. reflexivity.
Qed.

Lemma clean_headers_witness :
  primary_index low_neighbour_clean_parser 0 = 8
  /\ (exists names,
        X431CleanParser._extract_column_names low_neighbour_clean_parser
        = Ok names)
  /\ X431CleanParser.parse low_neighbour_clean
     = Some (Ok ([lit "Row"; lit "V"; lit "O2 (Bank1 Sensor1) [V]"],
                 [[lit "1"; lit "O2 B1S1"; lit "V"]]))
  /\ nth_error [lit "Row"; lit "V"; lit "O2 (Bank1 Sensor1) [V]"] 2
     = Some (clean_header low_neighbour_clean_parser 1)
  /\ clean_header low_neighbour_clean_parser 1 = lit "O2 (Bank1 Sensor1) [V]"
  /\ X431CleanParser._extract_column_names abbreviated_parser
     = Ok [lit "Row"; lit "O2 (Bank1 Sensor1) [V]"].
Proof.
  split; [vm_compute; reflexivity|].
  destruct (clean_headers low_neighbour_clean_parser) as [R [_ [H _]]].
  destruct (clean_headers abbreviated_parser) as [_ [_ [_ [D _]]]].
  split; [|split; [vm_compute; reflexivity|]].
  { apply R. split; [vm_compute; discriminate|].
    intros c Hin. cbn in Hin.
    destruct Hin as [<-|[<-|[]]]; split; unfold usable; vm_compute;
      (left; reflexivity) || (right; discriminate)
      || (right; right; discriminate). }
  split; [|split; [vm_compute; reflexivity|]].
  - apply (H [lit "Row"; lit "V"; lit "O2 (Bank1 Sensor1) [V]"]).
    + vm_compute. reflexivity.
    + right. left. reflexivity.
    + vm_compute. right. discriminate.
    + vm_compute. right. discriminate.
  - refine (eq_trans (D _ _ _) _).
    + vm_compute. discriminate.
    + vm_compute. discriminate.
    + intros c Hin. cbn in Hin.
      destruct Hin as [<-|[]]; split; vm_compute; right; discriminate.
    + vm_compute. reflexivity.
Defined.
